(** * AyurGenixAI: retrieval engine and prescription generator

    A shallow embedding of [simple_rag_processor.py] (class
    [AyurvedicRAGProcessor]) and [enhanced_prescription.py] (class
    [EnhancedPrescriptionGenerator]), followed by the properties of
    the specification that concern them.

    Conventions.
    - A Python [str] is a [string] holding its UTF-8 encoding, so that the
      bullet glyph of the prescription template is a three-byte prefix.
      [in], [split], [startswith] and [+] do not depend on the encoding;
      [len] counts code points; [lower] and [strip] work on the code
      points, with the case mappings and the white space of Unicode.
    - A Python [int] is a [Z]; a position in a list is a [nat].
    - A [dict] with string keys is a [gmap string _]. *)

From Stdlib Require Import ZArith Ascii String.
From stdpp Require Import gmap strings list pretty sorting.

(** ** Unicode data behind [str.lower] and [str.strip]

    A [str] is a sequence of code points; the tables are those of the
    Unicode character database, version 14.0, that CPython 3.11 consults. *)

Module Unicode.
Local Open Scope N_scope.

(** The bits of a continuation byte [10xxxxxx]. *)
Definition cont (c : ascii) : option N :=
  let n := N_of_ascii c in
  if (0x80 <=? n) && (n <? 0xC0) then Some (n - 0x80) else None.

(** The code points of a string held as UTF-8.  A byte that starts no
    well-formed sequence is kept apart, above the code space, as
    [0x110000 + byte]; no [str] holds such a byte. *)
Fixpoint code_points (s : string) : list N :=
  match s with
  | EmptyString => []
  | String b0 s1 =>
      let n0 := N_of_ascii b0 in
      let raw := λ _ : unit, (0x110000 + n0) :: code_points s1 in
      if n0 <? 0x80 then n0 :: code_points s1
      else
        match s1 with
        | EmptyString => raw ()
        | String b1 s2 =>
            match cont b1 with
            | None => raw ()
            | Some n1 =>
                if (0xC2 <=? n0) && (n0 <? 0xE0)
                then ((n0 - 0xC0) * 0x40 + n1) :: code_points s2
                else
                  match s2 with
                  | EmptyString => raw ()
                  | String b2 s3 =>
                      match cont b2 with
                      | None => raw ()
                      | Some n2 =>
                          if (0xE0 <=? n0) && (n0 <? 0xF0)
                          then (((n0 - 0xE0) * 0x40 + n1) * 0x40 + n2)
                                 :: code_points s3
                          else
                            match s3 with
                            | EmptyString => raw ()
                            | String b3 s4 =>
                                match cont b3 with
                                | None => raw ()
                                | Some n3 =>
                                    if (0xF0 <=? n0) && (n0 <? 0xF5)
                                    then ((((n0 - 0xF0) * 0x40 + n1) * 0x40 + n2)
                                            * 0x40 + n3) :: code_points s4
                                    else raw ()
                                end
                            end
                      end
                  end
            end
        end
  end.

Definition chr (n : N) : string := String (ascii_of_N n) EmptyString.

(** The UTF-8 encoding of one code point. *)
Definition encode (c : N) : string :=
  if c <? 0x80 then chr c
  else if c <? 0x800 then
    chr (0xC0 + c / 0x40) +:+ chr (0x80 + c mod 0x40)
  else if c <? 0x10000 then
    chr (0xE0 + c / 0x1000) +:+ chr (0x80 + (c / 0x40) mod 0x40)
    +:+ chr (0x80 + c mod 0x40)
  else if c <? 0x110000 then
    chr (0xF0 + c / 0x40000) +:+ chr (0x80 + (c / 0x1000) mod 0x40)
    +:+ chr (0x80 + (c / 0x40) mod 0x40) +:+ chr (0x80 + c mod 0x40)
  else chr (c - 0x110000).

Fixpoint of_code_points (l : list N) : string :=
  match l with
  | [] => EmptyString
  | c :: l' => encode c +:+ of_code_points l'
  end.

(** The simple lower-case mappings: [(first, last, step, target)] sends
    [first], [first + step], ..., [last] to [target], [target + step], ... *)
Definition lower_runs : list (N * N * N * N) :=
  [(0x41, 0x5A, 1, 0x61); (0xC0, 0xD6, 1, 0xE0); (0xD8, 0xDE, 1, 0xF8);
   (0x100, 0x12E, 2, 0x101); (0x132, 0x136, 2, 0x133);
   (0x139, 0x147, 2, 0x13A); (0x14A, 0x176, 2, 0x14B);
   (0x178, 0x178, 1, 0xFF); (0x179, 0x17D, 2, 0x17A);
   (0x181, 0x181, 1, 0x253); (0x182, 0x184, 2, 0x183);
   (0x186, 0x186, 1, 0x254); (0x187, 0x187, 1, 0x188);
   (0x189, 0x18A, 1, 0x256); (0x18B, 0x18B, 1, 0x18C);
   (0x18E, 0x18E, 1, 0x1DD); (0x18F, 0x18F, 1, 0x259);
   (0x190, 0x190, 1, 0x25B); (0x191, 0x191, 1, 0x192);
   (0x193, 0x193, 1, 0x260); (0x194, 0x194, 1, 0x263);
   (0x196, 0x196, 1, 0x269); (0x197, 0x197, 1, 0x268);
   (0x198, 0x198, 1, 0x199); (0x19C, 0x19C, 1, 0x26F);
   (0x19D, 0x19D, 1, 0x272); (0x19F, 0x19F, 1, 0x275);
   (0x1A0, 0x1A4, 2, 0x1A1); (0x1A6, 0x1A6, 1, 0x280);
   (0x1A7, 0x1A7, 1, 0x1A8); (0x1A9, 0x1A9, 1, 0x283);
   (0x1AC, 0x1AC, 1, 0x1AD); (0x1AE, 0x1AE, 1, 0x288);
   (0x1AF, 0x1AF, 1, 0x1B0); (0x1B1, 0x1B2, 1, 0x28A);
   (0x1B3, 0x1B5, 2, 0x1B4); (0x1B7, 0x1B7, 1, 0x292);
   (0x1B8, 0x1B8, 1, 0x1B9); (0x1BC, 0x1BC, 1, 0x1BD);
   (0x1C4, 0x1C4, 1, 0x1C6); (0x1C5, 0x1C5, 1, 0x1C6);
   (0x1C7, 0x1C7, 1, 0x1C9); (0x1C8, 0x1C8, 1, 0x1C9);
   (0x1CA, 0x1CA, 1, 0x1CC); (0x1CB, 0x1DB, 2, 0x1CC);
   (0x1DE, 0x1EE, 2, 0x1DF); (0x1F1, 0x1F1, 1, 0x1F3);
   (0x1F2, 0x1F4, 2, 0x1F3); (0x1F6, 0x1F6, 1, 0x195);
   (0x1F7, 0x1F7, 1, 0x1BF); (0x1F8, 0x21E, 2, 0x1F9);
   (0x220, 0x220, 1, 0x19E); (0x222, 0x232, 2, 0x223);
   (0x23A, 0x23A, 1, 0x2C65); (0x23B, 0x23B, 1, 0x23C);
   (0x23D, 0x23D, 1, 0x19A); (0x23E, 0x23E, 1, 0x2C66);
   (0x241, 0x241, 1, 0x242); (0x243, 0x243, 1, 0x180);
   (0x244, 0x244, 1, 0x289); (0x245, 0x245, 1, 0x28C);
   (0x246, 0x24E, 2, 0x247); (0x370, 0x372, 2, 0x371);
   (0x376, 0x376, 1, 0x377); (0x37F, 0x37F, 1, 0x3F3);
   (0x386, 0x386, 1, 0x3AC); (0x388, 0x38A, 1, 0x3AD);
   (0x38C, 0x38C, 1, 0x3CC); (0x38E, 0x38F, 1, 0x3CD);
   (0x391, 0x3A1, 1, 0x3B1); (0x3A3, 0x3AB, 1, 0x3C3);
   (0x3CF, 0x3CF, 1, 0x3D7); (0x3D8, 0x3EE, 2, 0x3D9);
   (0x3F4, 0x3F4, 1, 0x3B8); (0x3F7, 0x3F7, 1, 0x3F8);
   (0x3F9, 0x3F9, 1, 0x3F2); (0x3FA, 0x3FA, 1, 0x3FB);
   (0x3FD, 0x3FF, 1, 0x37B); (0x400, 0x40F, 1, 0x450);
   (0x410, 0x42F, 1, 0x430); (0x460, 0x480, 2, 0x461);
   (0x48A, 0x4BE, 2, 0x48B); (0x4C0, 0x4C0, 1, 0x4CF);
   (0x4C1, 0x4CD, 2, 0x4C2); (0x4D0, 0x52E, 2, 0x4D1);
   (0x531, 0x556, 1, 0x561); (0x10A0, 0x10C5, 1, 0x2D00);
   (0x10C7, 0x10C7, 1, 0x2D27); (0x10CD, 0x10CD, 1, 0x2D2D);
   (0x13A0, 0x13EF, 1, 0xAB70); (0x13F0, 0x13F5, 1, 0x13F8);
   (0x1C90, 0x1CBA, 1, 0x10D0); (0x1CBD, 0x1CBF, 1, 0x10FD);
   (0x1E00, 0x1E94, 2, 0x1E01); (0x1E9E, 0x1E9E, 1, 0xDF);
   (0x1EA0, 0x1EFE, 2, 0x1EA1); (0x1F08, 0x1F0F, 1, 0x1F00);
   (0x1F18, 0x1F1D, 1, 0x1F10); (0x1F28, 0x1F2F, 1, 0x1F20);
   (0x1F38, 0x1F3F, 1, 0x1F30); (0x1F48, 0x1F4D, 1, 0x1F40);
   (0x1F59, 0x1F5F, 2, 0x1F51); (0x1F68, 0x1F6F, 1, 0x1F60);
   (0x1F88, 0x1F8F, 1, 0x1F80); (0x1F98, 0x1F9F, 1, 0x1F90);
   (0x1FA8, 0x1FAF, 1, 0x1FA0); (0x1FB8, 0x1FB9, 1, 0x1FB0);
   (0x1FBA, 0x1FBB, 1, 0x1F70); (0x1FBC, 0x1FBC, 1, 0x1FB3);
   (0x1FC8, 0x1FCB, 1, 0x1F72); (0x1FCC, 0x1FCC, 1, 0x1FC3);
   (0x1FD8, 0x1FD9, 1, 0x1FD0); (0x1FDA, 0x1FDB, 1, 0x1F76);
   (0x1FE8, 0x1FE9, 1, 0x1FE0); (0x1FEA, 0x1FEB, 1, 0x1F7A);
   (0x1FEC, 0x1FEC, 1, 0x1FE5); (0x1FF8, 0x1FF9, 1, 0x1F78);
   (0x1FFA, 0x1FFB, 1, 0x1F7C); (0x1FFC, 0x1FFC, 1, 0x1FF3);
   (0x2126, 0x2126, 1, 0x3C9); (0x212A, 0x212A, 1, 0x6B);
   (0x212B, 0x212B, 1, 0xE5); (0x2132, 0x2132, 1, 0x214E);
   (0x2160, 0x216F, 1, 0x2170); (0x2183, 0x2183, 1, 0x2184);
   (0x24B6, 0x24CF, 1, 0x24D0); (0x2C00, 0x2C2F, 1, 0x2C30);
   (0x2C60, 0x2C60, 1, 0x2C61); (0x2C62, 0x2C62, 1, 0x26B);
   (0x2C63, 0x2C63, 1, 0x1D7D); (0x2C64, 0x2C64, 1, 0x27D);
   (0x2C67, 0x2C6B, 2, 0x2C68); (0x2C6D, 0x2C6D, 1, 0x251);
   (0x2C6E, 0x2C6E, 1, 0x271); (0x2C6F, 0x2C6F, 1, 0x250);
   (0x2C70, 0x2C70, 1, 0x252); (0x2C72, 0x2C72, 1, 0x2C73);
   (0x2C75, 0x2C75, 1, 0x2C76); (0x2C7E, 0x2C7F, 1, 0x23F);
   (0x2C80, 0x2CE2, 2, 0x2C81); (0x2CEB, 0x2CED, 2, 0x2CEC);
   (0x2CF2, 0x2CF2, 1, 0x2CF3); (0xA640, 0xA66C, 2, 0xA641);
   (0xA680, 0xA69A, 2, 0xA681); (0xA722, 0xA72E, 2, 0xA723);
   (0xA732, 0xA76E, 2, 0xA733); (0xA779, 0xA77B, 2, 0xA77A);
   (0xA77D, 0xA77D, 1, 0x1D79); (0xA77E, 0xA786, 2, 0xA77F);
   (0xA78B, 0xA78B, 1, 0xA78C); (0xA78D, 0xA78D, 1, 0x265);
   (0xA790, 0xA792, 2, 0xA791); (0xA796, 0xA7A8, 2, 0xA797);
   (0xA7AA, 0xA7AA, 1, 0x266); (0xA7AB, 0xA7AB, 1, 0x25C);
   (0xA7AC, 0xA7AC, 1, 0x261); (0xA7AD, 0xA7AD, 1, 0x26C);
   (0xA7AE, 0xA7AE, 1, 0x26A); (0xA7B0, 0xA7B0, 1, 0x29E);
   (0xA7B1, 0xA7B1, 1, 0x287); (0xA7B2, 0xA7B2, 1, 0x29D);
   (0xA7B3, 0xA7B3, 1, 0xAB53); (0xA7B4, 0xA7C2, 2, 0xA7B5);
   (0xA7C4, 0xA7C4, 1, 0xA794); (0xA7C5, 0xA7C5, 1, 0x282);
   (0xA7C6, 0xA7C6, 1, 0x1D8E); (0xA7C7, 0xA7C9, 2, 0xA7C8);
   (0xA7D0, 0xA7D0, 1, 0xA7D1); (0xA7D6, 0xA7D8, 2, 0xA7D7);
   (0xA7F5, 0xA7F5, 1, 0xA7F6); (0xFF21, 0xFF3A, 1, 0xFF41);
   (0x10400, 0x10427, 1, 0x10428); (0x104B0, 0x104D3, 1, 0x104D8);
   (0x10570, 0x1057A, 1, 0x10597); (0x1057C, 0x1058A, 1, 0x105A3);
   (0x1058C, 0x10592, 1, 0x105B3); (0x10594, 0x10595, 1, 0x105BB);
   (0x10C80, 0x10CB2, 1, 0x10CC0); (0x118A0, 0x118BF, 1, 0x118C0);
   (0x16E40, 0x16E5F, 1, 0x16E60); (0x1E900, 0x1E921, 1, 0x1E922)].

Definition cased_ranges : list (N * N) :=
  [(0x41, 0x5A); (0x61, 0x7A); (0xAA, 0xAA); (0xB5, 0xB5); (0xBA, 0xBA);
   (0xC0, 0xD6); (0xD8, 0xF6); (0xF8, 0x1BA); (0x1BC, 0x1BF); (0x1C4, 0x293);
   (0x295, 0x2B8); (0x2C0, 0x2C1); (0x2E0, 0x2E4); (0x345, 0x345);
   (0x370, 0x373); (0x376, 0x377); (0x37A, 0x37D); (0x37F, 0x37F);
   (0x386, 0x386); (0x388, 0x38A); (0x38C, 0x38C); (0x38E, 0x3A1);
   (0x3A3, 0x3F5); (0x3F7, 0x481); (0x48A, 0x52F); (0x531, 0x556);
   (0x560, 0x588); (0x10A0, 0x10C5); (0x10C7, 0x10C7); (0x10CD, 0x10CD);
   (0x10D0, 0x10FA); (0x10FD, 0x10FF); (0x13A0, 0x13F5); (0x13F8, 0x13FD);
   (0x1C80, 0x1C88); (0x1C90, 0x1CBA); (0x1CBD, 0x1CBF); (0x1D00, 0x1DBF);
   (0x1E00, 0x1F15); (0x1F18, 0x1F1D); (0x1F20, 0x1F45); (0x1F48, 0x1F4D);
   (0x1F50, 0x1F57); (0x1F59, 0x1F59); (0x1F5B, 0x1F5B); (0x1F5D, 0x1F5D);
   (0x1F5F, 0x1F7D); (0x1F80, 0x1FB4); (0x1FB6, 0x1FBC); (0x1FBE, 0x1FBE);
   (0x1FC2, 0x1FC4); (0x1FC6, 0x1FCC); (0x1FD0, 0x1FD3); (0x1FD6, 0x1FDB);
   (0x1FE0, 0x1FEC); (0x1FF2, 0x1FF4); (0x1FF6, 0x1FFC); (0x2071, 0x2071);
   (0x207F, 0x207F); (0x2090, 0x209C); (0x2102, 0x2102); (0x2107, 0x2107);
   (0x210A, 0x2113); (0x2115, 0x2115); (0x2119, 0x211D); (0x2124, 0x2124);
   (0x2126, 0x2126); (0x2128, 0x2128); (0x212A, 0x212D); (0x212F, 0x2134);
   (0x2139, 0x2139); (0x213C, 0x213F); (0x2145, 0x2149); (0x214E, 0x214E);
   (0x2160, 0x217F); (0x2183, 0x2184); (0x24B6, 0x24E9); (0x2C00, 0x2CE4);
   (0x2CEB, 0x2CEE); (0x2CF2, 0x2CF3); (0x2D00, 0x2D25); (0x2D27, 0x2D27);
   (0x2D2D, 0x2D2D); (0xA640, 0xA66D); (0xA680, 0xA69D); (0xA722, 0xA787);
   (0xA78B, 0xA78E); (0xA790, 0xA7CA); (0xA7D0, 0xA7D1); (0xA7D3, 0xA7D3);
   (0xA7D5, 0xA7D9); (0xA7F5, 0xA7F6); (0xA7F8, 0xA7FA); (0xAB30, 0xAB5A);
   (0xAB5C, 0xAB68); (0xAB70, 0xABBF); (0xFB00, 0xFB06); (0xFB13, 0xFB17);
   (0xFF21, 0xFF3A); (0xFF41, 0xFF5A); (0x10400, 0x1044F); (0x104B0, 0x104D3);
   (0x104D8, 0x104FB); (0x10570, 0x1057A); (0x1057C, 0x1058A);
   (0x1058C, 0x10592); (0x10594, 0x10595); (0x10597, 0x105A1);
   (0x105A3, 0x105B1); (0x105B3, 0x105B9); (0x105BB, 0x105BC);
   (0x10780, 0x10780); (0x10783, 0x10785); (0x10787, 0x107B0);
   (0x107B2, 0x107BA); (0x10C80, 0x10CB2); (0x10CC0, 0x10CF2);
   (0x118A0, 0x118DF); (0x16E40, 0x16E7F); (0x1D400, 0x1D454);
   (0x1D456, 0x1D49C); (0x1D49E, 0x1D49F); (0x1D4A2, 0x1D4A2);
   (0x1D4A5, 0x1D4A6); (0x1D4A9, 0x1D4AC); (0x1D4AE, 0x1D4B9);
   (0x1D4BB, 0x1D4BB); (0x1D4BD, 0x1D4C3); (0x1D4C5, 0x1D505);
   (0x1D507, 0x1D50A); (0x1D50D, 0x1D514); (0x1D516, 0x1D51C);
   (0x1D51E, 0x1D539); (0x1D53B, 0x1D53E); (0x1D540, 0x1D544);
   (0x1D546, 0x1D546); (0x1D54A, 0x1D550); (0x1D552, 0x1D6A5);
   (0x1D6A8, 0x1D6C0); (0x1D6C2, 0x1D6DA); (0x1D6DC, 0x1D6FA);
   (0x1D6FC, 0x1D714); (0x1D716, 0x1D734); (0x1D736, 0x1D74E);
   (0x1D750, 0x1D76E); (0x1D770, 0x1D788); (0x1D78A, 0x1D7A8);
   (0x1D7AA, 0x1D7C2); (0x1D7C4, 0x1D7CB); (0x1DF00, 0x1DF09);
   (0x1DF0B, 0x1DF1E); (0x1E900, 0x1E943); (0x1F130, 0x1F149);
   (0x1F150, 0x1F169); (0x1F170, 0x1F189)].

Definition case_ignorable_ranges : list (N * N) :=
  [(0x27, 0x27); (0x2E, 0x2E); (0x3A, 0x3A); (0x5E, 0x5E); (0x60, 0x60);
   (0xA8, 0xA8); (0xAD, 0xAD); (0xAF, 0xAF); (0xB4, 0xB4); (0xB7, 0xB8);
   (0x2B0, 0x36F); (0x374, 0x375); (0x37A, 0x37A); (0x384, 0x385);
   (0x387, 0x387); (0x483, 0x489); (0x559, 0x559); (0x55F, 0x55F);
   (0x591, 0x5BD); (0x5BF, 0x5BF); (0x5C1, 0x5C2); (0x5C4, 0x5C5);
   (0x5C7, 0x5C7); (0x5F4, 0x5F4); (0x600, 0x605); (0x610, 0x61A);
   (0x61C, 0x61C); (0x640, 0x640); (0x64B, 0x65F); (0x670, 0x670);
   (0x6D6, 0x6DD); (0x6DF, 0x6E8); (0x6EA, 0x6ED); (0x70F, 0x70F);
   (0x711, 0x711); (0x730, 0x74A); (0x7A6, 0x7B0); (0x7EB, 0x7F5);
   (0x7FA, 0x7FA); (0x7FD, 0x7FD); (0x816, 0x82D); (0x859, 0x85B);
   (0x888, 0x888); (0x890, 0x891); (0x898, 0x89F); (0x8C9, 0x902);
   (0x93A, 0x93A); (0x93C, 0x93C); (0x941, 0x948); (0x94D, 0x94D);
   (0x951, 0x957); (0x962, 0x963); (0x971, 0x971); (0x981, 0x981);
   (0x9BC, 0x9BC); (0x9C1, 0x9C4); (0x9CD, 0x9CD); (0x9E2, 0x9E3);
   (0x9FE, 0x9FE); (0xA01, 0xA02); (0xA3C, 0xA3C); (0xA41, 0xA42);
   (0xA47, 0xA48); (0xA4B, 0xA4D); (0xA51, 0xA51); (0xA70, 0xA71);
   (0xA75, 0xA75); (0xA81, 0xA82); (0xABC, 0xABC); (0xAC1, 0xAC5);
   (0xAC7, 0xAC8); (0xACD, 0xACD); (0xAE2, 0xAE3); (0xAFA, 0xAFF);
   (0xB01, 0xB01); (0xB3C, 0xB3C); (0xB3F, 0xB3F); (0xB41, 0xB44);
   (0xB4D, 0xB4D); (0xB55, 0xB56); (0xB62, 0xB63); (0xB82, 0xB82);
   (0xBC0, 0xBC0); (0xBCD, 0xBCD); (0xC00, 0xC00); (0xC04, 0xC04);
   (0xC3C, 0xC3C); (0xC3E, 0xC40); (0xC46, 0xC48); (0xC4A, 0xC4D);
   (0xC55, 0xC56); (0xC62, 0xC63); (0xC81, 0xC81); (0xCBC, 0xCBC);
   (0xCBF, 0xCBF); (0xCC6, 0xCC6); (0xCCC, 0xCCD); (0xCE2, 0xCE3);
   (0xD00, 0xD01); (0xD3B, 0xD3C); (0xD41, 0xD44); (0xD4D, 0xD4D);
   (0xD62, 0xD63); (0xD81, 0xD81); (0xDCA, 0xDCA); (0xDD2, 0xDD4);
   (0xDD6, 0xDD6); (0xE31, 0xE31); (0xE34, 0xE3A); (0xE46, 0xE4E);
   (0xEB1, 0xEB1); (0xEB4, 0xEBC); (0xEC6, 0xEC6); (0xEC8, 0xECD);
   (0xF18, 0xF19); (0xF35, 0xF35); (0xF37, 0xF37); (0xF39, 0xF39);
   (0xF71, 0xF7E); (0xF80, 0xF84); (0xF86, 0xF87); (0xF8D, 0xF97);
   (0xF99, 0xFBC); (0xFC6, 0xFC6); (0x102D, 0x1030); (0x1032, 0x1037);
   (0x1039, 0x103A); (0x103D, 0x103E); (0x1058, 0x1059); (0x105E, 0x1060);
   (0x1071, 0x1074); (0x1082, 0x1082); (0x1085, 0x1086); (0x108D, 0x108D);
   (0x109D, 0x109D); (0x10FC, 0x10FC); (0x135D, 0x135F); (0x1712, 0x1714);
   (0x1732, 0x1733); (0x1752, 0x1753); (0x1772, 0x1773); (0x17B4, 0x17B5);
   (0x17B7, 0x17BD); (0x17C6, 0x17C6); (0x17C9, 0x17D3); (0x17D7, 0x17D7);
   (0x17DD, 0x17DD); (0x180B, 0x180F); (0x1843, 0x1843); (0x1885, 0x1886);
   (0x18A9, 0x18A9); (0x1920, 0x1922); (0x1927, 0x1928); (0x1932, 0x1932);
   (0x1939, 0x193B); (0x1A17, 0x1A18); (0x1A1B, 0x1A1B); (0x1A56, 0x1A56);
   (0x1A58, 0x1A5E); (0x1A60, 0x1A60); (0x1A62, 0x1A62); (0x1A65, 0x1A6C);
   (0x1A73, 0x1A7C); (0x1A7F, 0x1A7F); (0x1AA7, 0x1AA7); (0x1AB0, 0x1ACE);
   (0x1B00, 0x1B03); (0x1B34, 0x1B34); (0x1B36, 0x1B3A); (0x1B3C, 0x1B3C);
   (0x1B42, 0x1B42); (0x1B6B, 0x1B73); (0x1B80, 0x1B81); (0x1BA2, 0x1BA5);
   (0x1BA8, 0x1BA9); (0x1BAB, 0x1BAD); (0x1BE6, 0x1BE6); (0x1BE8, 0x1BE9);
   (0x1BED, 0x1BED); (0x1BEF, 0x1BF1); (0x1C2C, 0x1C33); (0x1C36, 0x1C37);
   (0x1C78, 0x1C7D); (0x1CD0, 0x1CD2); (0x1CD4, 0x1CE0); (0x1CE2, 0x1CE8);
   (0x1CED, 0x1CED); (0x1CF4, 0x1CF4); (0x1CF8, 0x1CF9); (0x1D2C, 0x1D6A);
   (0x1D78, 0x1D78); (0x1D9B, 0x1DFF); (0x1FBD, 0x1FBD); (0x1FBF, 0x1FC1);
   (0x1FCD, 0x1FCF); (0x1FDD, 0x1FDF); (0x1FED, 0x1FEF); (0x1FFD, 0x1FFE);
   (0x200B, 0x200F); (0x2018, 0x2019); (0x2024, 0x2024); (0x2027, 0x2027);
   (0x202A, 0x202E); (0x2060, 0x2064); (0x2066, 0x206F); (0x2071, 0x2071);
   (0x207F, 0x207F); (0x2090, 0x209C); (0x20D0, 0x20F0); (0x2C7C, 0x2C7D);
   (0x2CEF, 0x2CF1); (0x2D6F, 0x2D6F); (0x2D7F, 0x2D7F); (0x2DE0, 0x2DFF);
   (0x2E2F, 0x2E2F); (0x3005, 0x3005); (0x302A, 0x302D); (0x3031, 0x3035);
   (0x303B, 0x303B); (0x3099, 0x309E); (0x30FC, 0x30FE); (0xA015, 0xA015);
   (0xA4F8, 0xA4FD); (0xA60C, 0xA60C); (0xA66F, 0xA672); (0xA674, 0xA67D);
   (0xA67F, 0xA67F); (0xA69C, 0xA69F); (0xA6F0, 0xA6F1); (0xA700, 0xA721);
   (0xA770, 0xA770); (0xA788, 0xA78A); (0xA7F2, 0xA7F4); (0xA7F8, 0xA7F9);
   (0xA802, 0xA802); (0xA806, 0xA806); (0xA80B, 0xA80B); (0xA825, 0xA826);
   (0xA82C, 0xA82C); (0xA8C4, 0xA8C5); (0xA8E0, 0xA8F1); (0xA8FF, 0xA8FF);
   (0xA926, 0xA92D); (0xA947, 0xA951); (0xA980, 0xA982); (0xA9B3, 0xA9B3);
   (0xA9B6, 0xA9B9); (0xA9BC, 0xA9BD); (0xA9CF, 0xA9CF); (0xA9E5, 0xA9E6);
   (0xAA29, 0xAA2E); (0xAA31, 0xAA32); (0xAA35, 0xAA36); (0xAA43, 0xAA43);
   (0xAA4C, 0xAA4C); (0xAA70, 0xAA70); (0xAA7C, 0xAA7C); (0xAAB0, 0xAAB0);
   (0xAAB2, 0xAAB4); (0xAAB7, 0xAAB8); (0xAABE, 0xAABF); (0xAAC1, 0xAAC1);
   (0xAADD, 0xAADD); (0xAAEC, 0xAAED); (0xAAF3, 0xAAF4); (0xAAF6, 0xAAF6);
   (0xAB5B, 0xAB5F); (0xAB69, 0xAB6B); (0xABE5, 0xABE5); (0xABE8, 0xABE8);
   (0xABED, 0xABED); (0xFB1E, 0xFB1E); (0xFBB2, 0xFBC2); (0xFE00, 0xFE0F);
   (0xFE13, 0xFE13); (0xFE20, 0xFE2F); (0xFE52, 0xFE52); (0xFE55, 0xFE55);
   (0xFEFF, 0xFEFF); (0xFF07, 0xFF07); (0xFF0E, 0xFF0E); (0xFF1A, 0xFF1A);
   (0xFF3E, 0xFF3E); (0xFF40, 0xFF40); (0xFF70, 0xFF70); (0xFF9E, 0xFF9F);
   (0xFFE3, 0xFFE3); (0xFFF9, 0xFFFB); (0x101FD, 0x101FD); (0x102E0, 0x102E0);
   (0x10376, 0x1037A); (0x10780, 0x10785); (0x10787, 0x107B0);
   (0x107B2, 0x107BA); (0x10A01, 0x10A03); (0x10A05, 0x10A06);
   (0x10A0C, 0x10A0F); (0x10A38, 0x10A3A); (0x10A3F, 0x10A3F);
   (0x10AE5, 0x10AE6); (0x10D24, 0x10D27); (0x10EAB, 0x10EAC);
   (0x10F46, 0x10F50); (0x10F82, 0x10F85); (0x11001, 0x11001);
   (0x11038, 0x11046); (0x11070, 0x11070); (0x11073, 0x11074);
   (0x1107F, 0x11081); (0x110B3, 0x110B6); (0x110B9, 0x110BA);
   (0x110BD, 0x110BD); (0x110C2, 0x110C2); (0x110CD, 0x110CD);
   (0x11100, 0x11102); (0x11127, 0x1112B); (0x1112D, 0x11134);
   (0x11173, 0x11173); (0x11180, 0x11181); (0x111B6, 0x111BE);
   (0x111C9, 0x111CC); (0x111CF, 0x111CF); (0x1122F, 0x11231);
   (0x11234, 0x11234); (0x11236, 0x11237); (0x1123E, 0x1123E);
   (0x112DF, 0x112DF); (0x112E3, 0x112EA); (0x11300, 0x11301);
   (0x1133B, 0x1133C); (0x11340, 0x11340); (0x11366, 0x1136C);
   (0x11370, 0x11374); (0x11438, 0x1143F); (0x11442, 0x11444);
   (0x11446, 0x11446); (0x1145E, 0x1145E); (0x114B3, 0x114B8);
   (0x114BA, 0x114BA); (0x114BF, 0x114C0); (0x114C2, 0x114C3);
   (0x115B2, 0x115B5); (0x115BC, 0x115BD); (0x115BF, 0x115C0);
   (0x115DC, 0x115DD); (0x11633, 0x1163A); (0x1163D, 0x1163D);
   (0x1163F, 0x11640); (0x116AB, 0x116AB); (0x116AD, 0x116AD);
   (0x116B0, 0x116B5); (0x116B7, 0x116B7); (0x1171D, 0x1171F);
   (0x11722, 0x11725); (0x11727, 0x1172B); (0x1182F, 0x11837);
   (0x11839, 0x1183A); (0x1193B, 0x1193C); (0x1193E, 0x1193E);
   (0x11943, 0x11943); (0x119D4, 0x119D7); (0x119DA, 0x119DB);
   (0x119E0, 0x119E0); (0x11A01, 0x11A0A); (0x11A33, 0x11A38);
   (0x11A3B, 0x11A3E); (0x11A47, 0x11A47); (0x11A51, 0x11A56);
   (0x11A59, 0x11A5B); (0x11A8A, 0x11A96); (0x11A98, 0x11A99);
   (0x11C30, 0x11C36); (0x11C38, 0x11C3D); (0x11C3F, 0x11C3F);
   (0x11C92, 0x11CA7); (0x11CAA, 0x11CB0); (0x11CB2, 0x11CB3);
   (0x11CB5, 0x11CB6); (0x11D31, 0x11D36); (0x11D3A, 0x11D3A);
   (0x11D3C, 0x11D3D); (0x11D3F, 0x11D45); (0x11D47, 0x11D47);
   (0x11D90, 0x11D91); (0x11D95, 0x11D95); (0x11D97, 0x11D97);
   (0x11EF3, 0x11EF4); (0x13430, 0x13438); (0x16AF0, 0x16AF4);
   (0x16B30, 0x16B36); (0x16B40, 0x16B43); (0x16F4F, 0x16F4F);
   (0x16F8F, 0x16F9F); (0x16FE0, 0x16FE1); (0x16FE3, 0x16FE4);
   (0x1AFF0, 0x1AFF3); (0x1AFF5, 0x1AFFB); (0x1AFFD, 0x1AFFE);
   (0x1BC9D, 0x1BC9E); (0x1BCA0, 0x1BCA3); (0x1CF00, 0x1CF2D);
   (0x1CF30, 0x1CF46); (0x1D167, 0x1D169); (0x1D173, 0x1D182);
   (0x1D185, 0x1D18B); (0x1D1AA, 0x1D1AD); (0x1D242, 0x1D244);
   (0x1DA00, 0x1DA36); (0x1DA3B, 0x1DA6C); (0x1DA75, 0x1DA75);
   (0x1DA84, 0x1DA84); (0x1DA9B, 0x1DA9F); (0x1DAA1, 0x1DAAF);
   (0x1E000, 0x1E006); (0x1E008, 0x1E018); (0x1E01B, 0x1E021);
   (0x1E023, 0x1E024); (0x1E026, 0x1E02A); (0x1E130, 0x1E13D);
   (0x1E2AE, 0x1E2AE); (0x1E2EC, 0x1E2EF); (0x1E8D0, 0x1E8D6);
   (0x1E944, 0x1E94B); (0x1F3FB, 0x1F3FF); (0xE0001, 0xE0001);
   (0xE0020, 0xE007F); (0xE0100, 0xE01EF)].

Fixpoint to_lower_in (runs : list (N * N * N * N)) (c : N) : N :=
  match runs with
  | [] => c
  | (first, last, step, target) :: runs' =>
      if (first <=? c) && (c <=? last) && ((c - first) mod step =? 0)
      then target + (c - first)
      else to_lower_in runs' c
  end.

(** The full lower-case mapping of a code point: one code point, but for
    U+0130 (capital I with dot above), which gives [i] and the combining
    dot above. *)
Definition to_lower_full (c : N) : list N :=
  if c =? 0x130 then [0x69; 0x307] else [to_lower_in lower_runs c].

Definition in_ranges (rs : list (N * N)) (c : N) : bool :=
  existsb (λ '(first, last), (first <=? c) && (c <=? last)) rs.

(** The derived properties Cased and Case_Ignorable. *)
Definition cased : N → bool := in_ranges cased_ranges.
Definition case_ignorable : N → bool := in_ranges case_ignorable_ranges.

Fixpoint skip_ignorable (l : list N) : list N :=
  match l with
  | [] => []
  | c :: l' => if case_ignorable c then skip_ignorable l' else l
  end.

(** A capital sigma is final when a cased letter comes before it and none
    comes after it, case-ignorable characters set aside; [before] holds the
    code points before it, the nearest first. *)
Definition final_sigma (before after : list N) : bool :=
  match skip_ignorable before with
  | [] => false
  | p :: _ =>
      cased p && match skip_ignorable after with
                 | [] => true
                 | n :: _ => negb (cased n)
                 end
  end.

Fixpoint lower_from (before rest : list N) : list N :=
  match rest with
  | [] => []
  | c :: rest' =>
      (if c =? 0x3A3
       then [if final_sigma before rest' then 0x3C2 else 0x3C3]
       else to_lower_full c)
      ++ lower_from (c :: before) rest'
  end.

Definition lower (l : list N) : list N := lower_from [] l.

End Unicode.

(** ** Python built-ins on [str] *)

Module Py.

(** The white-space characters of [str.strip]: the one-byte ones, *)
Definition is_space (c : ascii) : bool :=
  let n := nat_of_ascii c in
  (9 <=? n) && (n <=? 13) || (28 <=? n) && (n <=? 32).

(** the two-byte ones, U+0085 and U+00A0, *)
Definition is_space2 (c1 c2 : ascii) : bool :=
  let n2 := nat_of_ascii c2 in
  (nat_of_ascii c1 =? 194) && ((n2 =? 133) || (n2 =? 160)).

(** and the three-byte ones: U+1680, U+2000 to U+200A, U+2028, U+2029,
    U+202F, U+205F and U+3000. *)
Definition is_space3 (c1 c2 c3 : ascii) : bool :=
  let n1 := nat_of_ascii c1 in
  let n2 := nat_of_ascii c2 in
  let n3 := nat_of_ascii c3 in
  (n1 =? 225) && (n2 =? 154) && (n3 =? 128)
  || (n1 =? 226) && (n2 =? 128)
     && ((128 <=? n3) && (n3 <=? 138) || (n3 =? 168) || (n3 =? 169) || (n3 =? 175))
  || (n1 =? 226) && (n2 =? 129) && (n3 =? 159)
  || (n1 =? 227) && (n2 =? 128) && (n3 =? 128).

(** [s.lower()] *)
Definition lower (s : string) : string :=
  Unicode.of_code_points (Unicode.lower (Unicode.code_points s)).

(** [s.startswith(p)] *)
Fixpoint startswith (p s : string) : bool :=
  match p, s with
  | EmptyString, _ => true
  | String a p', String b s' => if decide (a = b) then startswith p' s' else false
  | String _ _, EmptyString => false
  end.

(** [sub in s] *)
Fixpoint str_in (sub s : string) : bool :=
  startswith sub s ||
  match s with
  | EmptyString => false
  | String _ s' => str_in sub s'
  end.

(** A byte [10xxxxxx] continues a code point started earlier. *)
Definition is_cont (c : ascii) : bool :=
  match c with Ascii _ _ _ _ _ _ b6 b7 => b7 && negb b6 end.

(** [len(s)]: the number of code points. *)
Fixpoint len (s : string) : nat :=
  match s with
  | EmptyString => 0
  | String c s' => (if is_cont c then 0 else 1) + len s'
  end.

(** Occurrences of a non-empty [sub], scanning left to right without
    overlap: after a match the next [length sub - 1] positions are skipped. *)
Fixpoint count_from (sub : string) (skip : nat) (s : string) : nat :=
  match s with
  | EmptyString => 0
  | String _ s' =>
      match skip with
      | S k => count_from sub k s'
      | O => if startswith sub s
             then S (count_from sub (String.length sub - 1) s')
             else count_from sub 0 s'
      end
  end.

(** [s.count(sub)]; the empty string occurs between any two characters and
    at both ends. *)
Definition count (s sub : string) : nat :=
  if decide (sub = EmptyString) then S (len s) else count_from sub 0 s.

(** [s.split(c)] for a one-character separator: never an empty list. *)
Fixpoint split (c : ascii) (s : string) : list string :=
  match s with
  | EmptyString => [EmptyString]
  | String a s' =>
      if decide (a = c) then EmptyString :: split c s'
      else match split c s' with
           | h :: t => String a h :: t
           | [] => [String a EmptyString]
           end
  end.

(** What follows the white-space character at the head of [s], when there
    is one. *)
Definition after_space (s : string) : option string :=
  match s with
  | EmptyString => None
  | String c1 s1 =>
      if is_space c1 then Some s1
      else
        match s1 with
        | EmptyString => None
        | String c2 s2 =>
            if is_space2 c1 c2 then Some s2
            else
              match s2 with
              | EmptyString => None
              | String c3 s3 => if is_space3 c1 c2 c3 then Some s3 else None
              end
        end
  end.

(** [s.lstrip()] *)
Fixpoint lstrip (s : string) : string :=
  match s with
  | EmptyString => EmptyString
  | String c1 s1 =>
      if is_space c1 then lstrip s1
      else
        match s1 with
        | EmptyString => s
        | String c2 s2 =>
            if is_space2 c1 c2 then lstrip s2
            else
              match s2 with
              | EmptyString => s
              | String c3 s3 => if is_space3 c1 c2 c3 then lstrip s3 else s
              end
        end
  end.

(** [s.rstrip()]: the string is cut where what is left is white space
    only. *)
Fixpoint rstrip (s : string) : string :=
  match s with
  | EmptyString => EmptyString
  | String c s' =>
      match lstrip s with
      | EmptyString => EmptyString
      | _ => String c (rstrip s')
      end
  end.

(** [s.strip()] *)
Definition strip (s : string) : string := rstrip (lstrip s).

Fixpoint drop_cont (s : string) : string :=
  match s with
  | EmptyString => EmptyString
  | String c s' => if is_cont c then drop_cont s' else s
  end.

(** [s[1:]]: all but the first code point. *)
Definition tail (s : string) : string :=
  match s with
  | EmptyString => EmptyString
  | String _ s' => drop_cont s'
  end.

(** [sep.join(l)] *)
Fixpoint join (sep : string) (l : list string) : string :=
  match l with
  | [] => EmptyString
  | [x] => x
  | x :: l' => x +:+ sep +:+ join sep l'
  end.

(** [c * n] for a one-character string [c]. *)
Fixpoint replicate_str (n : nat) (c : string) : string :=
  match n with
  | O => EmptyString
  | S k => c +:+ replicate_str k c
  end.

(** [l[:n]]: a negative bound counts from the end of the list. *)
Definition slice_to {A} (l : list A) (n : Z) : list A :=
  if (0 <=? n)%Z then take (Z.to_nat n) l
  else take (length l - Z.to_nat (- n)) l.

(** Truthiness of a [str]. *)
Definition truthy (s : string) : bool :=
  match s with EmptyString => false | _ => true end.

(** [str(i)] for an [int]. *)
Definition str_of_int (i : Z) : string := pretty i.

End Py.

(** ** The corpus: a pandas frame of text columns *)

(** A cell of the frame as [read_csv] yields it for a text column: the
    text, or the float NaN where the file has no value. *)
Inductive cell :=
  | NaN
  | Str (s : string).

Global Instance cell_eq_dec : EqDecision cell.
Proof. solve_decision. Defined.

(** A row ([pandas.Series]) carries the column labels of its frame, in
    column order. *)
Abbreviation Series := (list (string * cell)).

(** The frame held in [self.data]: its rows, indexed from 0 as
    [read_csv] does. *)
Abbreviation DataFrame := (list Series).

(** [row.get(col)]: [None] when the frame has no such column.  The source
    tests [pd.notna(row.get(col))], false on [None] and on NaN, which is a
    match on [Some (Str _)] here. *)
Fixpoint row_get (row : Series) (col : string) : option cell :=
  match row with
  | [] => None
  | (k, v) :: r => if decide (k = col) then Some v else row_get r col
  end.

(** [row.get(col, d)] *)
Definition row_get_default (row : Series) (col : string) (d : cell) : cell :=
  default d (row_get row col).

(** [str(v)] *)
Definition str_of_cell (v : cell) : string :=
  match v with NaN => "nan" | Str s => s end.

(** [df.iterrows()] *)
Definition iterrows (df : DataFrame) : list (nat * Series) :=
  imap (λ idx row, (idx, row)) df.

(** [df.head(n).index.tolist()] *)
Definition head_index (df : DataFrame) (n : Z) : list nat :=
  seq 0 (length (Py.slice_to df n)).

(** ** [AyurvedicRAGProcessor] *)

Record RetrievedCase := {
  id : string;
  text : string;
  metadata : gmap string cell
}.

(** [_format_case_text] *)
Definition _format_case_text (row : Series) : string :=
  let part (label col : string) : list string :=
    match row_get row col with
    | Some (Str v) => [label +:+ ": " +:+ v]
    | _ => []
    end in
  Py.join " | "
    (part "Disease" "Disease" ++ part "Symptoms" "Symptoms" ++
     part "Constitution" "Constitution" ++ part "Herbs" "Ayurvedic_Herbs" ++
     part "Formulation" "Formulation").

(** The relevance score of one row (body of the first loop of
    [search_by_symptoms_and_dosha]). *)
Definition row_score (symptoms_lower : list string)
    (dosha_lower diagnosis_lower : string) (row : Series) : Z :=
  let score := 0%Z in
  let score :=
    match row_get row "Constitution" with
    | Some (Str c) =>
        if Py.str_in dosha_lower (Py.lower c) then (score + 10)%Z else score
    | _ => score
    end in
  let score :=
    match row_get row "Disease" with
    | Some (Str d) =>
        if Py.truthy diagnosis_lower then
          if Py.str_in diagnosis_lower (Py.lower d)
             || Py.str_in (Py.lower d) diagnosis_lower
          then (score + 8)%Z else score
        else score
    | _ => score
    end in
  let symptoms_text := str_of_cell (row_get_default row "Symptoms" (Str EmptyString)) in
  let score :=
    foldl (λ score symptom,
             if Py.str_in symptom (Py.lower symptoms_text)
             then (score + 3)%Z else score)
          score symptoms_lower in
  let herbs_text := str_of_cell (row_get_default row "Ayurvedic_Herbs" (Str EmptyString)) in
  let formulation_text := str_of_cell (row_get_default row "Formulation" (Str EmptyString)) in
  foldl (λ score symptom,
           let score := if Py.str_in symptom (Py.lower herbs_text)
                        then (score + 1)%Z else score in
           if Py.str_in symptom (Py.lower formulation_text)
           then (score + 1)%Z else score)
        score symptoms_lower.

(** [scores.sort(reverse=True, key=lambda x: x[0])]: the sort is stable,
    entries of equal score keep their order. *)
Fixpoint insert_desc (x : Z * nat) (l : list (Z * nat)) : list (Z * nat) :=
  match l with
  | [] => [x]
  | y :: l' => if (x.1 <? y.1)%Z then y :: insert_desc x l' else x :: l
  end.

Definition sort_desc (l : list (Z * nat)) : list (Z * nat) :=
  foldr insert_desc [] l.

Definition N_A : cell := Str "N/A".

(** The [metadata] dict built by [search_by_symptoms_and_dosha]. *)
Definition dosha_metadata (row : Series) : gmap string cell :=
  <["disease" := row_get_default row "Disease" N_A]>
  (<["symptoms" := row_get_default row "Symptoms" N_A]>
  (<["constitution" := row_get_default row "Constitution" N_A]>
  (<["ayurvedic_herbs" := row_get_default row "Ayurvedic_Herbs" N_A]>
  (<["formulation" := row_get_default row "Formulation" N_A]>
  (<["diet_recommendations" := row_get_default row "Diet_Recommendations" N_A]>
  (<["lifestyle_recommendations" :=
       row_get_default row "Lifestyle_Recommendations" N_A]> ∅)))))).

(** The [metadata] dict built by [search_by_text]. *)
Definition text_metadata (row : Series) : gmap string cell :=
  <["disease" := row_get_default row "Disease" N_A]>
  (<["symptoms" := row_get_default row "Symptoms" N_A]>
  (<["constitution" := row_get_default row "Constitution" N_A]>
  (<["ayurvedic_herbs" := row_get_default row "Ayurvedic_Herbs" N_A]>
  (<["formulation" := row_get_default row "Formulation" N_A]>
  (<["diet_recommendations" :=
       row_get_default row "Diet_Recommendations" N_A]> ∅))))).

Definition make_result (md : Series → gmap string cell)
    (idx : nat) (row : Series) : RetrievedCase :=
  {| id := pretty idx; text := _format_case_text row; metadata := md row |}.

(** The result loop: [df.iloc[idx]] raises out of range, which fails the
    whole loop. *)
Definition format_results (md : Series → gmap string cell)
    (df : DataFrame) (top_indices : list nat) : option (list RetrievedCase) :=
  mapM (λ idx, row ← df !! idx; Some (make_result md idx row)) top_indices.

(** The [scores] list of [search_by_symptoms_and_dosha], before sorting. *)
Definition dosha_scores (df : DataFrame) (symptoms : list string)
    (constitution_dosha diagnosis : string) : list (Z * nat) :=
  let symptoms_lower := Py.lower <$> symptoms in
  let dosha_lower := Py.lower constitution_dosha in
  let diagnosis_lower :=
    if Py.truthy diagnosis then Py.lower diagnosis else EmptyString in
  (λ '(idx, row), (row_score symptoms_lower dosha_lower diagnosis_lower row, idx))
    <$> iterrows df.

(** [top_indices] of [search_by_symptoms_and_dosha]. *)
Definition dosha_top_indices (df : DataFrame) (symptoms : list string)
    (constitution_dosha diagnosis : string) (n_results : Z) : list nat :=
  let scores := sort_desc (dosha_scores df symptoms constitution_dosha diagnosis) in
  let top_indices :=
    snd <$> filter (λ x, (0 < x.1)%Z) (Py.slice_to scores n_results) in
  match top_indices with
  | [] => head_index df n_results
  | _ => top_indices
  end.

(** [search_by_symptoms_and_dosha]; an exception inside yields the empty list. *)
Definition search_by_symptoms_and_dosha (df : DataFrame) (symptoms : list string)
    (constitution_dosha diagnosis : string) (n_results : Z) : list RetrievedCase :=
  default []
    (format_results dosha_metadata df
       (dosha_top_indices df symptoms constitution_dosha diagnosis n_results)).

(** The score of one row in [search_by_text]: the loop over
    [self.data.columns] visits the cells of the row in column order. *)
Definition text_score (query_lower : string) (row : Series) : Z :=
  foldl (λ score '(col, v),
           match v with
           | Str s =>
               let text := Py.lower s in
               if Py.str_in query_lower text
               then (score + Z.of_nat (Py.count text query_lower))%Z
               else score
           | NaN => score
           end)
        0%Z row.

(** The [scores] list of [search_by_text]: positive scores only. *)
Definition text_scores (df : DataFrame) (query : string) : list (Z * nat) :=
  let query_lower := Py.lower query in
  filter (λ x, (0 < x.1)%Z)
    ((λ '(idx, row), (text_score query_lower row, idx)) <$> iterrows df).

Definition text_top_indices (df : DataFrame) (query : string)
    (n_results : Z) : list nat :=
  snd <$> Py.slice_to (sort_desc (text_scores df query)) n_results.

(** [search_by_text] *)
Definition search_by_text (df : DataFrame) (query : string)
    (n_results : Z) : list RetrievedCase :=
  default []
    (format_results text_metadata df (text_top_indices df query n_results)).

(** ** [datetime] *)

(** The wall clock: [clock k] is what the call number [k] of
    [datetime.now()] returns.  A function that reads the clock takes the
    number of readings made so far and returns the number after it. *)
Record datetime := {
  year : nat; month : nat; day : nat;
  hour : nat; minute : nat; second : nat; microsecond : nat
}.

Definition Clock := nat → datetime.

Definition zero_pad (width : nat) (n : nat) : string :=
  let s : string := pretty n in
  Py.replicate_str (width - String.length s) "0" +:+ s.

Definition month_name (m : nat) : string :=
  match m with
  | 1 => "January" | 2 => "February" | 3 => "March" | 4 => "April"
  | 5 => "May" | 6 => "June" | 7 => "July" | 8 => "August"
  | 9 => "September" | 10 => "October" | 11 => "November" | _ => "December"
  end.

(** [t.strftime("%B %d, %Y")] *)
Definition strftime_B_d_Y (t : datetime) : string :=
  month_name (month t) +:+ " " +:+ zero_pad 2 (day t) +:+ ", " +:+
  zero_pad 4 (year t).

(** [t.isoformat()]: the microseconds are left out when they are 0. *)
Definition isoformat (t : datetime) : string :=
  zero_pad 4 (year t) +:+ "-" +:+ zero_pad 2 (month t) +:+ "-" +:+
  zero_pad 2 (day t) +:+ "T" +:+ zero_pad 2 (hour t) +:+ ":" +:+
  zero_pad 2 (minute t) +:+ ":" +:+ zero_pad 2 (second t) +:+
  (if decide (microsecond t = 0) then EmptyString
   else "." +:+ zero_pad 6 (microsecond t)).

(** ** [EnhancedPrescriptionGenerator] *)

Record PatientInfo := {
  name : string;
  age : Z;
  gender : string;
  constitution_dosha : string;
  symptoms : list string;
  doctor_diagnosis : string
}.

(** The [patient_info] group of the structured document. *)
Record PatientGroup := {
  pg_name : string;
  pg_age : Z;
  pg_gender : string;
  pg_constitution : string;
  pg_diagnosis : string;
  pg_symptoms : list string
}.

(** The [prescription] group: the three parsed collections, or the raw
    text in the [except] branch of [_create_json_output]. *)
Inductive PrescriptionGroup :=
  | Parsed (ayurvedic_medicines : list string)
           (diet : gmap string string)
           (lifestyle : list string)
  | RawText (raw_text : string).

Record MetadataGroup := {
  generated_date : string;
  generated_by : string;
  format_version : string;
  parsing_error : option string
}.

Record Document := {
  patient_info : PatientGroup;
  prescription : PrescriptionGroup;
  doc_metadata : MetadataGroup
}.

(** The dict returned by [generate_prescription]; [raw_response] is set on
    success only and [error] on fallback only. *)
Record PrescriptionResult := {
  success : bool;
  display_format : string;
  json_format : Document;
  raw_response : option string;
  error : option string;
  similar_cases_count : nat
}.

(** What [self.model.generate_content(prompt)] followed by [response.text]
    does: raise, or give a text. *)
Inductive GeneratorOutcome :=
  | Raises
  | Returns (response_text : string).

Definition Generator := string → GeneratorOutcome.

(** [metadata.get(key, 'N/A')] rendered inside an f-string. *)
Definition md_field (md : gmap string cell) (key : string) : string :=
  str_of_cell (default N_A (md !! key)).

Definition prompt_case (i : nat) (case : RetrievedCase) : string :=
  let md := metadata case in
  "
Case " +:+ pretty i +:+ ": " +:+ md_field md "disease" +:+ "
- Constitution: " +:+ md_field md "constitution" +:+ "
- Herbs used: " +:+ md_field md "ayurvedic_herbs" +:+ "
- Formulation: " +:+ md_field md "formulation" +:+ "
- Diet advice: " +:+ md_field md "diet_recommendations" +:+ "
".

Definition prompt_instructions : string :=
"

Generate a prescription following this EXACT structure and format:

Prescription for [Name] ([Age], [Gender], [Constitution] constitution):

1. Ayurvedic Medicines:
   • [Medicine 1]: [dosage and timing]
   • [Medicine 2]: [dosage and timing]  
   • [Medicine 3]: [dosage and timing]

2. Diet Recommendation:
   +-----------+----------------------------------------+
   | Meal      | Recommendation                         |
   +-----------+----------------------------------------+
   | Breakfast | [specific breakfast recommendations]    |
   | Lunch     | [specific lunch recommendations]       |
   | Dinner    | [specific dinner recommendations]      |
   | Drinks    | [recommended beverages]                |
   +-----------+----------------------------------------+

3. Lifestyle Recommendations:
   • [Specific practice 1 with duration]
   • [Specific practice 2 with duration]
   • [Specific practice 3 with timing]
   • [Specific dietary restriction]
   • [Specific stress management with duration]

Requirements:
- Use authentic Ayurvedic medicines appropriate for the constitution and symptoms
- Keep recommendations practical and specific
- Include precise dosages and timings
- Focus on the patient's Pitta/Vata/Kapha constitution
- Make it suitable for modern lifestyle
- Keep the exact formatting with bullet points (•) and table structure
".

(** [_create_precise_prompt] *)
Definition _create_precise_prompt (patient : PatientInfo)
    (similar_cases : list RetrievedCase) : string :=
  let patient_section :=
    "
PATIENT: " +:+ name patient +:+ ", " +:+ Py.str_of_int (age patient) +:+
    " years, " +:+ gender patient +:+ "
CONSTITUTION: " +:+ constitution_dosha patient +:+ "
SYMPTOMS: " +:+ Py.join ", " (symptoms patient) +:+ "
DIAGNOSIS: " +:+ doctor_diagnosis patient +:+ "
" in
  let context_section :=
    foldl (λ acc '(i, case), acc +:+ prompt_case (S i) case)
          "SIMILAR SUCCESSFUL CASES:
" (imap (λ i case, (i, case)) (Py.slice_to similar_cases 3)) in
  "
You are an expert Ayurvedic doctor. Based on the patient information and similar cases, 
create a prescription in EXACTLY this format:

" +:+ patient_section +:+ "

" +:+ context_section +:+ prompt_instructions.

Definition rule : string := Py.replicate_str 80 "═".

Definition display_footer : string :=
  "

" +:+ rule +:+ "
                        IMPORTANT NOTES
" +:+ rule +:+ "
• Follow the prescription consistently for optimal results
• Maintain regular meal times and sleep schedule  
• Stay hydrated with warm water throughout the day
• Consult an Ayurvedic physician if symptoms persist
• This prescription is based on traditional Ayurvedic principles

Generated by AyurGenixAI - Your Ayurvedic Health Companion
" +:+ rule +:+ "
".

Definition display_header (patient : PatientInfo) (now : datetime) : string :=
  "
" +:+ rule +:+ "
                    AYURVEDIC PRESCRIPTION
" +:+ rule +:+ "
Patient: " +:+ name patient +:+ " | Age: " +:+ Py.str_of_int (age patient) +:+
  " | Gender: " +:+ gender patient +:+ "
Constitution: " +:+ constitution_dosha patient +:+ "
Diagnosis: " +:+ doctor_diagnosis patient +:+ "
Symptoms: " +:+ Py.join ", " (symptoms patient) +:+ "
Date: " +:+ strftime_B_d_Y now +:+ "
" +:+ rule +:+ "

".

(** [_format_display_output]: one reading of the clock. *)
Definition _format_display_output (clock : Clock) (response_text : string)
    (patient : PatientInfo) (k : nat) : string * nat :=
  (display_header patient (clock k) +:+ response_text +:+ display_footer, S k).

(** The parser of [_create_json_output]. *)
Inductive SectionName := sec_medicines | sec_diet | sec_lifestyle.

Global Instance SectionName_eq_dec : EqDecision SectionName.
Proof. solve_decision. Defined.

Record ParserState := {
  current_section : option SectionName;
  medicines : list string;
  diet_recommendations : gmap string string;
  lifestyle_recommendations : list string
}.

Definition bullet : string := "•".

(** The pipe character of the diet table. *)
Definition pipe : ascii := "|"%char.

(** [parts = line.split('|'); if len(parts) >= 3: diet[key] = parts[2].strip()] *)
Definition store_meal (key : string) (line : string)
    (diet : gmap string string) : gmap string string :=
  let parts := Py.split pipe line in
  if decide (3 ≤ length parts) then
    match parts !! 2 with
    | Some part => <[key := Py.strip part]> diet
    | None => diet
    end
  else diet.

(** The body of the loop over the lines. *)
Definition parse_line (st : ParserState) (line : string) : ParserState :=
  let line := Py.strip line in
  let set_section sec :=
    {| current_section := Some sec; medicines := medicines st;
       diet_recommendations := diet_recommendations st;
       lifestyle_recommendations := lifestyle_recommendations st |} in
  let set_diet d :=
    {| current_section := current_section st; medicines := medicines st;
       diet_recommendations := d;
       lifestyle_recommendations := lifestyle_recommendations st |} in
  if Py.str_in "1. Ayurvedic Medicines:" line then set_section sec_medicines
  else if Py.str_in "2. Diet Recommendation:" line then set_section sec_diet
  else if Py.str_in "3. Lifestyle Recommendations:" line then set_section sec_lifestyle
  else if Py.startswith bullet line
          && bool_decide (current_section st = Some sec_medicines) then
    {| current_section := current_section st;
       medicines := medicines st ++ [Py.strip (Py.tail line)];
       diet_recommendations := diet_recommendations st;
       lifestyle_recommendations := lifestyle_recommendations st |}
  else if Py.startswith bullet line
          && bool_decide (current_section st = Some sec_lifestyle) then
    {| current_section := current_section st;
       medicines := medicines st;
       diet_recommendations := diet_recommendations st;
       lifestyle_recommendations :=
         lifestyle_recommendations st ++ [Py.strip (Py.tail line)] |}
  else if Py.str_in "|" line
          && bool_decide (current_section st = Some sec_diet) then
    if Py.str_in "Breakfast" line then
      set_diet (store_meal "breakfast" line (diet_recommendations st))
    else if Py.str_in "Lunch" line then
      set_diet (store_meal "lunch" line (diet_recommendations st))
    else if Py.str_in "Dinner" line then
      set_diet (store_meal "dinner" line (diet_recommendations st))
    else if Py.str_in "Drinks" line then
      set_diet (store_meal "drinks" line (diet_recommendations st))
    else st
  else st.

Definition initial_state : ParserState :=
  {| current_section := None; medicines := [];
     diet_recommendations := ∅; lifestyle_recommendations := [] |}.

(** The newline character on which the text is split. *)
Definition LF : ascii := "010"%char.

Definition parse_lines (st : ParserState) (lines : list string) : ParserState :=
  foldl parse_line st lines.

Definition parse (response_text : string) : ParserState :=
  parse_lines initial_state (Py.split LF response_text).

Definition patient_group (patient : PatientInfo) : PatientGroup :=
  {| pg_name := name patient; pg_age := age patient;
     pg_gender := gender patient;
     pg_constitution := constitution_dosha patient;
     pg_diagnosis := doctor_diagnosis patient;
     pg_symptoms := symptoms patient |}.

(** [_create_json_output]: one reading of the clock.  Nothing in the [try]
    block raises on a [str], so the [except] branch, which would produce
    [RawText] and a [parsing_error], is never entered. *)
Definition _create_json_output (clock : Clock) (response_text : string)
    (patient : PatientInfo) (k : nat) : Document * nat :=
  let st := parse response_text in
  ({| patient_info := patient_group patient;
      prescription :=
        Parsed (medicines st) (diet_recommendations st)
               (lifestyle_recommendations st);
      doc_metadata :=
        {| generated_date := isoformat (clock k);
           generated_by := "AyurGenixAI";
           format_version := "1.0";
           parsing_error := None |} |}, S k).

Definition fallback_body : string :=
"

1. Ayurvedic Medicines:
   • Triphala Churna: 1 tsp with warm water at bedtime
   • Ashwagandha powder: 1/2 tsp with warm milk twice daily
   • Amla juice: 20 ml with water in the morning

2. Diet Recommendation:
   +-----------+----------------------------------------+
   | Meal      | Recommendation                         |
   +-----------+----------------------------------------+
   | Breakfast | Warm oats with seasonal fruits         |
   | Lunch     | Rice with dal and cooked vegetables    |
   | Dinner    | Light khichdi or vegetable soup        |
   | Drinks    | Warm water, herbal teas                |
   +-----------+----------------------------------------+

3. Lifestyle Recommendations:
   • Practice Anulom-Vilom pranayama daily (10 minutes)
   • Morning walk for 20-30 minutes
   • Sleep by 10 PM, wake by 6 AM
   • Avoid processed and cold foods
   • Practice meditation for stress relief (10 minutes daily)
".

Definition fallback_text (patient : PatientInfo) : string :=
  "
Prescription for " +:+ name patient +:+ " (" +:+ Py.str_of_int (age patient) +:+
  ", " +:+ gender patient +:+ ", " +:+ constitution_dosha patient +:+
  " constitution):" +:+ fallback_body.

(** [_create_fallback_response] *)
Definition _create_fallback_response (clock : Clock) (patient : PatientInfo)
    (k : nat) : PrescriptionResult * nat :=
  let '(display, k) := _format_display_output clock (fallback_text patient) patient k in
  let '(json, k) := _create_json_output clock (fallback_text patient) patient k in
  ({| success := false;
      display_format := display;
      json_format := json;
      raw_response := None;
      error := Some "Using fallback prescription";
      similar_cases_count := 0 |}, k).

(** [generate_prescription] *)
Definition generate_prescription (model : Generator) (clock : Clock)
    (patient : PatientInfo) (similar_cases : list RetrievedCase)
    (k : nat) : PrescriptionResult * nat :=
  let prompt := _create_precise_prompt patient similar_cases in
  match model prompt with
  | Returns response_text =>
      if Py.truthy response_text then
        let '(display, k) := _format_display_output clock response_text patient k in
        let '(json, k) := _create_json_output clock response_text patient k in
        ({| success := true;
            display_format := display;
            json_format := json;
            raw_response := Some response_text;
            error := None;
            similar_cases_count := length similar_cases |}, k)
      else _create_fallback_response clock patient k
  | Raises => _create_fallback_response clock patient k
  end.

(** ** [get_collection_stats] *)

(** [series.value_counts().to_dict()]: how often each text occurs; NaN is
    dropped. *)
Fixpoint value_counts (cells : list cell) : gmap string nat :=
  match cells with
  | [] => ∅
  | NaN :: rest => value_counts rest
  | Str s :: rest =>
      let counts := value_counts rest in
      <[s := S (default 0 (counts !! s))]> counts
  end.

(** The dict of [get_collection_stats]; the last two keys are set for a
    loaded frame only. *)
Record CollectionStats := {
  total_records : nat;
  status : string;
  columns : option (list string);
  constitution_types : option (gmap string nat)
}.

(** [get_collection_stats]: [frame_columns] is [self.data.columns], the
    column index of the frame, which every row carries as its labels and
    which a frame without rows has too; [data] is [self.data]. *)
Definition get_collection_stats (frame_columns : list string)
    (data : option DataFrame) : CollectionStats :=
  match data with
  | None =>
      {| total_records := 0; status := "not_loaded";
         columns := None; constitution_types := None |}
  | Some df =>
      {| total_records := length df; status := "loaded";
         columns := Some frame_columns;
         constitution_types :=
           Some (if bool_decide ("Constitution" ∈ frame_columns)
                 then value_counts
                        ((λ row, row_get_default row "Constitution" NaN) <$> df)
                 else ∅) |}
  end.

(** ** [main.py]: the request handlers *)

(** The request and response models keep the field names of the source,
    each inside a module of the name of its class.  The [patient_info]
    dict of the responses has the six keys of [PatientInfo] and is held as
    such a record. *)
Module PatientRequest.
Record t := {
  name : string;
  age : Z;
  gender : string;
  constitution_dosha : string;
  symptoms : list string;
  doctor_diagnosis : string
}.
End PatientRequest.

Module PrescriptionResponse.
Record t := {
  success : bool;
  prescription : option string;
  patient_info : option PatientInfo;
  similar_cases_count : option nat;
  json_format : option Document;
  error_message : option string
}.
End PrescriptionResponse.

Module MedicationResponse.
Record t := {
  success : bool;
  patient_info : option PatientInfo;
  ayurvedic_medicines : option (list string);
  lifestyle_recommendations : option (list string);
  similar_cases_count : option nat;
  error_message : option string
}.
End MedicationResponse.

Module DietResponse.
Record t := {
  success : bool;
  patient_info : option PatientInfo;
  diet_recommendations : option (gmap string string);
  diet_chart : option string;
  similar_cases_count : option nat;
  error_message : option string
}.
End DietResponse.

(** The exceptions the handlers catch with [except Exception]. *)
Inductive Exception :=
  | HTTPException (status_code : nat) (detail : string)
  | AttributeError (class_name attribute : string)
  | TypeError (function keyword : string).

(** A value of the JSON body of [/search-cases]: null, a boolean, an
    integer, a text, or anything else (a float, a list, an object), of which
    only the truthiness matters here. *)
Inductive Json :=
  | JNull
  | JBool (b : bool)
  | JInt (i : Z)
  | JStr (s : string)
  | JOther (truthy : bool).

(** [not v] is false on these. *)
Definition json_truthy (v : Json) : bool :=
  match v with
  | JNull => false
  | JBool b => b
  | JInt i => negb (i =? 0)%Z
  | JStr s => Py.truthy s
  | JOther truthy => truthy
  end.

(** The dict returned by [search_similar_cases]. *)
Module SearchResponse.
Record t := {
  success : bool;
  query : option Json;
  results_count : option nat;
  similar_cases : option (list RetrievedCase);
  error_message : option string
}.
End SearchResponse.

(** The methods of [AyurvedicRAGProcessor], the only callable attributes an
    instance has; [getattr] finds a method by its name. *)
Inductive ProcessorMethod :=
  | m_load_data
  | m_search_by_symptoms_and_dosha
  | m_format_case_text
  | m_get_collection_stats
  | m_search_by_text.

Definition processor_getattr (attribute : string) : option ProcessorMethod :=
  if decide (attribute = "load_data") then Some m_load_data
  else if decide (attribute = "search_by_symptoms_and_dosha")
       then Some m_search_by_symptoms_and_dosha
  else if decide (attribute = "_format_case_text") then Some m_format_case_text
  else if decide (attribute = "get_collection_stats") then Some m_get_collection_stats
  else if decide (attribute = "search_by_text") then Some m_search_by_text
  else None.

(** [format(s, '<38')]: left-justified in a field of 38 characters, never
    cut. *)
Definition ljust (width : nat) (s : string) : string :=
  s +:+ Py.replicate_str (width - Py.len s) " ".

(** The [diet_chart] of [generate_diet_recommendations], trimmed as the
    handler returns it. *)
Definition diet_chart (diet_recs : gmap string string) : string :=
  let cell key := ljust 38 (default "Not specified" (diet_recs !! key)) in
  Py.strip
    ("+-----------+----------------------------------------+
| Meal      | Recommendation                         |
+-----------+----------------------------------------+
| Breakfast | " +:+ cell "breakfast" +:+ " |
| Lunch     | " +:+ cell "lunch" +:+ " |
| Dinner    | " +:+ cell "dinner" +:+ " |
| Drinks    | " +:+ cell "drinks" +:+ " |
+-----------+----------------------------------------+").

Module Main.
Section handlers.

(** The two globals set at startup ([None] before), the wall clock, and the
    text [str(e)] gives for an exception, which the libraries decide. *)
Context (rag_processor : option DataFrame)
        (prescription_generator : option Generator)
        (clock : Clock)
        (str_of_exception : Exception → string).

(** [PatientInfo(name=patient_request.name, ...)] *)
Definition to_patient_info (patient_request : PatientRequest.t) : PatientInfo :=
  {| name := PatientRequest.name patient_request;
     age := PatientRequest.age patient_request;
     gender := PatientRequest.gender patient_request;
     constitution_dosha := PatientRequest.constitution_dosha patient_request;
     symptoms := PatientRequest.symptoms patient_request;
     doctor_diagnosis := PatientRequest.doctor_diagnosis patient_request |}.

Definition not_initialized : Exception :=
  HTTPException 500 "System not properly initialized".

(** [generate_medication_and_lifestyle] *)
Definition generate_medication_and_lifestyle (patient_request : PatientRequest.t)
    (k : nat) : MedicationResponse.t * nat :=
  match rag_processor, prescription_generator with
  | Some df, Some model =>
      let patient_info := to_patient_info patient_request in
      let similar_cases :=
        search_by_symptoms_and_dosha df (symptoms patient_info)
          (constitution_dosha patient_info) (doctor_diagnosis patient_info) 5 in
      let '(prescription_result, k) :=
        generate_prescription model clock patient_info similar_cases k in
      if success prescription_result then
        let prescription_data := prescription (json_format prescription_result) in
        ({| MedicationResponse.success := true;
            MedicationResponse.patient_info := Some patient_info;
            MedicationResponse.ayurvedic_medicines :=
              Some (match prescription_data with
                    | Parsed meds _ _ => meds
                    | RawText _ => []
                    end);
            MedicationResponse.lifestyle_recommendations :=
              Some (match prescription_data with
                    | Parsed _ _ life => life
                    | RawText _ => []
                    end);
            MedicationResponse.similar_cases_count :=
              Some (similar_cases_count prescription_result);
            MedicationResponse.error_message := None |}, k)
      else
        ({| MedicationResponse.success := false;
            MedicationResponse.patient_info := None;
            MedicationResponse.ayurvedic_medicines := None;
            MedicationResponse.lifestyle_recommendations := None;
            MedicationResponse.similar_cases_count := None;
            MedicationResponse.error_message :=
              Some "Failed to generate medication recommendations" |}, k)
  | _, _ =>
      ({| MedicationResponse.success := false;
          MedicationResponse.patient_info := None;
          MedicationResponse.ayurvedic_medicines := None;
          MedicationResponse.lifestyle_recommendations := None;
          MedicationResponse.similar_cases_count := None;
          MedicationResponse.error_message :=
            Some (str_of_exception not_initialized) |}, k)
  end.

(** [generate_diet_recommendations] *)
Definition generate_diet_recommendations (patient_request : PatientRequest.t)
    (k : nat) : DietResponse.t * nat :=
  match rag_processor, prescription_generator with
  | Some df, Some model =>
      let patient_info := to_patient_info patient_request in
      let similar_cases :=
        search_by_symptoms_and_dosha df (symptoms patient_info)
          (constitution_dosha patient_info) (doctor_diagnosis patient_info) 5 in
      let '(prescription_result, k) :=
        generate_prescription model clock patient_info similar_cases k in
      if success prescription_result then
        let diet_recs :=
          match prescription (json_format prescription_result) with
          | Parsed _ diet _ => diet
          | RawText _ => ∅
          end in
        ({| DietResponse.success := true;
            DietResponse.patient_info := Some patient_info;
            DietResponse.diet_recommendations := Some diet_recs;
            DietResponse.diet_chart := Some (diet_chart diet_recs);
            DietResponse.similar_cases_count :=
              Some (similar_cases_count prescription_result);
            DietResponse.error_message := None |}, k)
      else
        ({| DietResponse.success := false;
            DietResponse.patient_info := None;
            DietResponse.diet_recommendations := None;
            DietResponse.diet_chart := None;
            DietResponse.similar_cases_count := None;
            DietResponse.error_message :=
              Some "Failed to generate diet recommendations" |}, k)
  | _, _ =>
      ({| DietResponse.success := false;
          DietResponse.patient_info := None;
          DietResponse.diet_recommendations := None;
          DietResponse.diet_chart := None;
          DietResponse.similar_cases_count := None;
          DietResponse.error_message :=
            Some (str_of_exception not_initialized) |}, k)
  end.

(** [rag_processor.search_by_text(query=..., n_results=...)] on values of
    any type: the method catches what a wrong type raises and returns the
    empty list; a text with a bound that is an integer, a boolean or null
    goes through ([scores[:None]] is the whole ranking). *)
Definition search_by_text_dynamic (df : DataFrame) (query n_results : Json)
    : list RetrievedCase :=
  match query with
  | JStr q =>
      match n_results with
      | JInt n => search_by_text df q n
      | JBool b => search_by_text df q (if b then 1 else 0)
      | JNull => search_by_text df q (Z.of_nat (length df))
      | _ => []
      end
  | _ => []
  end.

(** [search_similar_cases]: the handler calls the method
    [search_similar_cases] of the processor with the keywords [query] and
    [n_results]. *)
Definition search_similar_cases (query : gmap string Json) : SearchResponse.t :=
  let failed e :=
    {| SearchResponse.success := false; SearchResponse.query := None;
       SearchResponse.results_count := None;
       SearchResponse.similar_cases := None;
       SearchResponse.error_message := Some (str_of_exception e) |} in
  match rag_processor with
  | None => failed (HTTPException 500 "RAG processor not initialized")
  | Some df =>
      let search_query := default (JStr EmptyString) (query !! "query") in
      let n_results := default (JInt 5) (query !! "n_results") in
      if negb (json_truthy search_query)
      then failed (HTTPException 400 "Query parameter is required")
      else
        match processor_getattr "search_similar_cases" with
        | None =>
            failed (AttributeError "AyurvedicRAGProcessor" "search_similar_cases")
        | Some m_search_by_text =>
            let similar_cases := search_by_text_dynamic df search_query n_results in
            {| SearchResponse.success := true;
               SearchResponse.query := Some search_query;
               SearchResponse.results_count := Some (length similar_cases);
               SearchResponse.similar_cases := Some similar_cases;
               SearchResponse.error_message := None |}
        | Some m_load_data => failed (TypeError "load_data" "query")
        | Some m_search_by_symptoms_and_dosha =>
            failed (TypeError "search_by_symptoms_and_dosha" "query")
        | Some m_format_case_text => failed (TypeError "_format_case_text" "query")
        | Some m_get_collection_stats =>
            failed (TypeError "get_collection_stats" "query")
        end
  end.

(** [generate_prescription], the handler of [/generate-prescription] *)
Definition generate_prescription (patient_request : PatientRequest.t)
    (k : nat) : PrescriptionResponse.t * nat :=
  match rag_processor, prescription_generator with
  | Some df, Some model =>
      let patient_info := to_patient_info patient_request in
      let similar_cases :=
        search_by_symptoms_and_dosha df (symptoms patient_info)
          (constitution_dosha patient_info) (doctor_diagnosis patient_info) 5 in
      let '(prescription_result, k) :=
        generate_prescription model clock patient_info similar_cases k in
      ({| PrescriptionResponse.success := success prescription_result;
          PrescriptionResponse.prescription :=
            Some (display_format prescription_result);
          PrescriptionResponse.patient_info := Some patient_info;
          PrescriptionResponse.similar_cases_count :=
            Some (similar_cases_count prescription_result);
          PrescriptionResponse.json_format := Some (json_format prescription_result);
          PrescriptionResponse.error_message := None |}, k)
  | _, _ =>
      ({| PrescriptionResponse.success := false;
          PrescriptionResponse.prescription := None;
          PrescriptionResponse.patient_info := None;
          PrescriptionResponse.similar_cases_count := None;
          PrescriptionResponse.json_format := None;
          PrescriptionResponse.error_message :=
            Some (str_of_exception not_initialized) |}, k)
  end.

End handlers.
End Main.

(** ** Vocabulary of the properties *)

(** The row at a position of the frame (the empty row out of range). *)
Definition row_at (df : DataFrame) (idx : nat) : Series := default [] (df !! idx).

(** The score [search_by_symptoms_and_dosha] gives to the row at [idx]. *)
Definition dosha_score (df : DataFrame) (symptoms : list string)
    (constitution_dosha diagnosis : string) (idx : nat) : Z :=
  row_score (Py.lower <$> symptoms) (Py.lower constitution_dosha)
    (if Py.truthy diagnosis then Py.lower diagnosis else EmptyString)
    (row_at df idx).

(** The total order of ranked matches: score descending, then original
    index ascending. *)
Definition ranked (x y : Z * nat) : Prop :=
  (y.1 < x.1)%Z ∨ (y.1 = x.1 ∧ x.2 < y.2).

(** The case built from the row at [idx]. *)
Definition case_at (md : Series → gmap string cell) (df : DataFrame)
    (idx : nat) : RetrievedCase :=
  make_result md idx (row_at df idx).

(** The texts of the cells of a row that are not NaN, in column order. *)
Definition text_cells (row : Series) : list string :=
  omap (λ p, match p.2 with Str s => Some s | NaN => None end) row.

(** A row with at least one cell that is not NaN. *)
Definition has_text (row : Series) : Prop := Exists (λ p, p.2 ≠ NaN) row.

(** The record of the worked example of the specification, as a row of a
    frame that has only the three columns, and as a row of a frame that
    has the seven columns with no value in the other four. *)
Definition acid_reflux : Series :=
  [("Disease", Str "Acid Reflux"); ("Symptoms", Str "heartburn, bloating");
   ("Constitution", Str "Pitta")].

Definition acid_reflux_seven : Series :=
  [("Disease", Str "Acid Reflux"); ("Symptoms", Str "heartburn, bloating");
   ("Constitution", Str "Pitta"); ("Ayurvedic_Herbs", NaN);
   ("Formulation", NaN); ("Diet_Recommendations", NaN);
   ("Lifestyle_Recommendations", NaN)].

(** [t] occurs in [s] as a contiguous piece. *)
Definition infix_of (t s : string) : Prop := ∃ a b, s = a +:+ t +:+ b.

(** The one-character string that separates the lines. *)
Definition newline : string := String LF EmptyString.

(** The keys the diet mapping may hold. *)
Definition meal_keys : gset string :=
  {[ "breakfast"; "lunch"; "dinner"; "drinks" ]}.

(** The three section headers of the parser. *)
Definition medicines_header : string := "1. Ayurvedic Medicines:".
Definition diet_header : string := "2. Diet Recommendation:".
Definition lifestyle_header : string := "3. Lifestyle Recommendations:".

(** The collections of the built-in fallback prescription. *)
Definition fallback_medicines : list string :=
  ["Triphala Churna: 1 tsp with warm water at bedtime";
   "Ashwagandha powder: 1/2 tsp with warm milk twice daily";
   "Amla juice: 20 ml with water in the morning"].

Definition fallback_diet : gmap string string :=
  {[ "breakfast" := "Warm oats with seasonal fruits";
     "lunch" := "Rice with dal and cooked vegetables";
     "dinner" := "Light khichdi or vegetable soup";
     "drinks" := "Warm water, herbal teas" ]}.

Definition fallback_lifestyle : list string :=
  ["Practice Anulom-Vilom pranayama daily (10 minutes)";
   "Morning walk for 20-30 minutes";
   "Sleep by 10 PM, wake by 6 AM";
   "Avoid processed and cold foods";
   "Practice meditation for stress relief (10 minutes daily)"].

(** The first line of the fallback text after the opening line break. *)
Definition fallback_title (patient : PatientInfo) : string :=
  "Prescription for " +:+ name patient +:+ " (" +:+
  Py.str_of_int (age patient) +:+ ", " +:+ gender patient +:+ ", " +:+
  constitution_dosha patient +:+ " constitution):".

(** The body of the fallback text after its first line break. *)
Definition fallback_rest : string :=
  match fallback_body with
  | String _ rest => rest
  | EmptyString => EmptyString
  end.

(** Sample inputs of the examples. *)
Definition asha : PatientInfo :=
  {| name := "Asha"; age := 30; gender := "F"; constitution_dosha := "Pitta";
     symptoms := ["heartburn"; "bloating"]; doctor_diagnosis := "Acid Reflux" |}.

(** A patient whose name runs over three lines. *)
Definition asha_multiline : PatientInfo :=
  {| name := "Asha
1. Ayurvedic Medicines:
• Opium";
     age := 30; gender := "F"; constitution_dosha := "Pitta";
     symptoms := ["heartburn"; "bloating"]; doctor_diagnosis := "Acid Reflux" |}.

(** A clock that advances by one second at every reading. *)
Definition ticking : Clock := λ k,
  {| year := 2026; month := 11; day := 3;
     hour := 9; minute := 5; second := k; microsecond := 0 |}.

(** A parser state inside the diet table, nothing collected yet. *)
Definition in_diet : ParserState :=
  {| current_section := Some sec_diet; medicines := [];
     diet_recommendations := ∅; lifestyle_recommendations := [] |}.

(** ** Vocabulary of the further properties *)

(** The number of query symptoms that occur in a text of a row. *)
Definition hits (text : string) (symptoms_lower : list string) : Z :=
  Z.of_nat (length (filter (λ s, Py.str_in s (Py.lower text) = true) symptoms_lower)).

(** What the constitution and the diagnosis add to the score of a row. *)
Definition constitution_points (dosha_lower : string) (row : Series) : Z :=
  match row_get row "Constitution" with
  | Some (Str c) => if Py.str_in dosha_lower (Py.lower c) then 10 else 0
  | _ => 0
  end.

Definition disease_points (diagnosis_lower : string) (row : Series) : Z :=
  match row_get row "Disease" with
  | Some (Str d) =>
      if Py.truthy diagnosis_lower
         && (Py.str_in diagnosis_lower (Py.lower d)
             || Py.str_in (Py.lower d) diagnosis_lower)
      then 8 else 0
  | _ => 0
  end.

(** The score [search_by_text] gives to the row at [idx]. *)
Definition text_score_at (df : DataFrame) (query : string) (idx : nat) : Z :=
  text_score (Py.lower query) (row_at df idx).

(** Some cell of the row holds the query, case ignored. *)
Definition cell_holds (query_lower : string) (v : cell) : Prop :=
  match v with
  | Str s => Py.str_in query_lower (Py.lower s) = true
  | NaN => False
  end.

Global Instance cell_holds_dec query_lower v : Decision (cell_holds query_lower v).
Proof. destruct v; simpl; apply _. Defined.

Definition row_holds (query_lower : string) (row : Series) : Prop :=
  Exists (λ p, cell_holds query_lower p.2) row.

Global Instance row_holds_dec query_lower row : Decision (row_holds query_lower row).
Proof. unfold row_holds. apply _. Defined.

(** The lines of a text that start, once trimmed, with the bullet. *)
Definition bullet_lines (lines : list string) : list string :=
  filter (λ line, Py.startswith bullet (Py.strip line) = true) lines.

(** A text without surrounding whitespace. *)
Definition trimmed (s : string) : Prop := Py.strip s = s.

(** The retrieval a handler runs for a request, and the prompt it leads
    to. *)
Definition handler_cases (df : DataFrame) (patient : PatientInfo) : list RetrievedCase :=
  search_by_symptoms_and_dosha df (symptoms patient) (constitution_dosha patient)
    (doctor_diagnosis patient) 5.

Definition handler_prompt (df : DataFrame) (patient : PatientInfo) : string :=
  _create_precise_prompt patient (handler_cases df patient).

(** The eight lines of a diet chart with the four cells given. *)
Definition chart_border : string :=
  "+-----------+----------------------------------------+".

Definition chart_lines (breakfast lunch dinner drinks : string) : list string :=
  [chart_border;
   "| Meal      | Recommendation                         |";
   chart_border;
   "| Breakfast | " +:+ breakfast +:+ " |";
   "| Lunch     | " +:+ lunch +:+ " |";
   "| Dinner    | " +:+ dinner +:+ " |";
   "| Drinks    | " +:+ drinks +:+ " |";
   chart_border].

(** The chart before trimming, on four cells. *)
Definition raw_chart (c1 c2 c3 c4 : string) : string :=
  "+-----------+----------------------------------------+
| Meal      | Recommendation                         |
+-----------+----------------------------------------+
| Breakfast | " +:+ c1 +:+ " |
| Lunch     | " +:+ c2 +:+ " |
| Dinner    | " +:+ c3 +:+ " |
| Drinks    | " +:+ c4 +:+ " |
+-----------+----------------------------------------+".

(** A request of the examples. *)
Definition asha_request : PatientRequest.t :=
  {| PatientRequest.name := "Asha"; PatientRequest.age := 30;
     PatientRequest.gender := "F"; PatientRequest.constitution_dosha := "Pitta";
     PatientRequest.symptoms := ["heartburn"; "bloating"];
     PatientRequest.doctor_diagnosis := "Acid Reflux" |}.

(** * Properties of the retrieval engine *)

Section sorting.

Lemma insert_desc_Permutation x l : insert_desc x l ≡ₚ x :: l.
Proof.
  induction l as [|y l IH]; simpl; [done|].
  case_match; [|done].
  rewrite IH. apply Permutation_swap.
Qed.

Lemma sort_desc_Permutation l : sort_desc l ≡ₚ l.
Proof.
  induction l as [|x l IH]; simpl; [done|].
  by rewrite insert_desc_Permutation, IH.
Qed.

Lemma sort_desc_length l : length (sort_desc l) = length l.
Proof. by rewrite sort_desc_Permutation. Qed.

Lemma insert_desc_ranked x l :
  StronglySorted ranked l →
  Forall (λ y, x.2 < y.2) l →
  StronglySorted ranked (insert_desc x l).
Proof.
  induction 1 as [|y l Hl IH Hy]; intros Hx; simpl.
  { repeat constructor. }
  apply Forall_cons in Hx as [Hxy Hx].
  destruct (Z.ltb_spec x.1 y.1) as [Hlt|Hge].
  - constructor; [by apply IH|].
    rewrite insert_desc_Permutation. constructor; [by left|done].
  - constructor; [by constructor|].
    constructor.
    + unfold ranked. lia.
    + rewrite Forall_forall in Hy, Hx. apply Forall_forall. intros z Hz.
      specialize (Hy z Hz). specialize (Hx z Hz). unfold ranked in *. lia.
Qed.

(** Stability: entries that enter the sort in ascending index order leave
    it ranked. *)
Lemma sort_desc_ranked l :
  StronglySorted (λ x y : Z * nat, x.2 < y.2) l →
  StronglySorted ranked (sort_desc l).
Proof.
  induction 1 as [|x l Hl IH Hx]; simpl; [constructor|].
  apply insert_desc_ranked; [done|].
  by rewrite sort_desc_Permutation.
Qed.

Lemma sublist_of_elem {A} (l k : list A) x : l `sublist_of` k → x ∈ l → x ∈ k.
Proof.
  induction 1 as [|y l k Hlk IH|y l k Hlk IH]; [done| |].
  - intros [->|Hx]%elem_of_cons; [left|right; auto].
  - right; auto.
Qed.

Lemma Forall_sublist_of {A} (P : A → Prop) (l k : list A) :
  l `sublist_of` k → Forall P k → Forall P l.
Proof.
  rewrite !Forall_forall. intros Hlk Hk x Hx.
  eauto using sublist_of_elem.
Qed.

Lemma StronglySorted_sublist {A} (R : A → A → Prop) l k :
  l `sublist_of` k → StronglySorted R k → StronglySorted R l.
Proof.
  induction 1 as [|x l k Hlk IH|x l k Hlk IH]; intros Hk;
    [done| |]; apply StronglySorted_inv in Hk as [Hk Hx].
  - constructor; [by apply IH|]. by eapply Forall_sublist_of.
  - by apply IH.
Qed.

Lemma sublist_slice_to {A} (l : list A) n : Py.slice_to l n `sublist_of` l.
Proof. unfold Py.slice_to. case_match; apply sublist_take. Qed.

End sorting.

Section list_facts.
Context {A B : Type}.

Lemma StronglySorted_fmap (R : B → B → Prop) (f : A → B) l :
  StronglySorted (λ x y, R (f x) (f y)) l → StronglySorted R (f <$> l).
Proof.
  induction 1 as [|x l Hl IH Hx]; csimpl; constructor; [done|].
  by apply Forall_fmap.
Qed.

Lemma StronglySorted_Forall_impl (R R' : A → A → Prop) (P : A → Prop) l :
  (∀ x y, P x → P y → R x y → R' x y) →
  Forall P l → StronglySorted R l → StronglySorted R' l.
Proof.
  intros HR HP HS. induction HS as [|x l Hl IH Hx]; [constructor|].
  apply Forall_cons in HP as [HPx HP].
  constructor; [by apply IH|].
  rewrite Forall_forall in Hx, HP. apply Forall_forall. eauto.
Qed.

Lemma StronglySorted_seq (R : nat → nat → Prop) a k :
  (∀ i j, a ≤ i < j → j < a + k → R i j) → StronglySorted R (seq a k).
Proof.
  revert a. induction k as [|k IH]; intros a HR; simpl; constructor.
  - apply IH. intros i j ??. apply HR; lia.
  - apply Forall_forall. intros j [??]%elem_of_seq. apply HR; lia.
Qed.

Lemma imap_seq_lookup (f : nat → A → B) (d : A) l :
  imap f l = (λ i, f i (default d (l !! i))) <$> seq 0 (length l).
Proof.
  apply list_eq. intros i.
  rewrite list_lookup_imap, list_lookup_fmap.
  destruct (l !! i) as [x|] eqn:Hi; simpl.
  - rewrite lookup_seq_lt by eauto using lookup_lt_Some. simpl. by rewrite Hi.
  - by rewrite lookup_seq_ge by by apply lookup_ge_None.
Qed.

Lemma length_slice_to (l : list A) n :
  length (Py.slice_to l n) =
  if (0 <=? n)%Z then min (Z.to_nat n) (length l)
  else length l - Z.to_nat (- n).
Proof.
  unfold Py.slice_to. case_match; rewrite length_take; lia.
Qed.

Lemma slice_to_cons_inv (l : list A) n x k :
  Py.slice_to l n = x :: k → ∃ l', l = x :: l'.
Proof.
  unfold Py.slice_to. case_match; destruct l; intros Hk;
    rewrite ?take_nil in Hk; try done;
    (match type of Hk with take ?m _ = _ => destruct m end);
    simplify_eq/=; eauto.
Qed.

Lemma foldl_ge (f : Z → A → Z) l acc :
  (∀ a x, (a ≤ f a x)%Z) → (acc ≤ foldl f acc l)%Z.
Proof.
  intros Hf. revert acc. induction l as [|x l IH]; intros acc; simpl; [lia|].
  etrans; [apply (Hf acc x)|apply IH].
Qed.

End list_facts.

Lemma format_results_Some md df idxs :
  Forall (λ i, i < length df) idxs →
  format_results md df idxs = Some (case_at md df <$> idxs).
Proof.
  intros H. apply mapM_Some. apply Forall2_fmap_r, Forall_Forall2_diag.
  eapply Forall_impl; [exact H|]. intros i Hi. simpl.
  destruct (lookup_lt_is_Some_2 df i Hi) as [row Hrow].
  unfold case_at, row_at. by rewrite Hrow.
Qed.

Lemma slice_to_nil {A} (l : list A) n :
  (n = 0 ∨ Z.of_nat (length l) + n ≤ 0)%Z → Py.slice_to l n = [].
Proof.
  intros Hn. apply length_zero_iff_nil. rewrite length_slice_to.
  case_match; lia.
Qed.

Lemma head_index_lt df n : Forall (λ i, i < length df) (head_index df n).
Proof.
  apply Forall_forall. intros i [_ Hi]%elem_of_seq.
  pose proof (length_slice_to df n). case_match; lia.
Qed.

Lemma row_score_nonneg sl dl gl row : (0 ≤ row_score sl dl gl row)%Z.
Proof.
  unfold row_score.
  etrans; [|apply foldl_ge; intros; repeat case_match; lia].
  etrans; [|apply foldl_ge; intros; repeat case_match; lia].
  repeat case_match; lia.
Qed.

Section dosha_search.
Context (df : DataFrame) (symptoms : list string) (dosha diagnosis : string).

Local Abbreviation score := (dosha_score df symptoms dosha diagnosis).
Local Abbreviation scores := (dosha_scores df symptoms dosha diagnosis).
Local Abbreviation positive := (λ x : Z * nat, (0 < x.1)%Z).

Lemma dosha_scores_seq :
  scores = (λ idx, (score idx, idx)) <$> seq 0 (length df).
Proof.
  unfold dosha_scores, iterrows. rewrite fmap_imap.
  by rewrite (imap_seq_lookup _ []).
Qed.

Lemma dosha_score_nonneg idx : (0 ≤ score idx)%Z.
Proof. apply row_score_nonneg. Qed.

Lemma dosha_sorted_ranked : StronglySorted ranked (sort_desc scores).
Proof.
  apply sort_desc_ranked. rewrite dosha_scores_seq.
  apply StronglySorted_fmap, StronglySorted_seq. simpl. lia.
Qed.

Lemma dosha_sorted_entries :
  Forall (λ x, x.1 = score x.2 ∧ x.2 < length df) (sort_desc scores).
Proof.
  rewrite sort_desc_Permutation, dosha_scores_seq.
  apply Forall_fmap, Forall_forall. intros i [_ Hi]%elem_of_seq. simpl. lia.
Qed.

Lemma dosha_sorted_elem idx :
  idx < length df → (score idx, idx) ∈ sort_desc scores.
Proof.
  intros Hi. rewrite sort_desc_Permutation, dosha_scores_seq.
  apply (list_elem_of_fmap_2 (λ idx, (score idx, idx))), elem_of_seq. lia.
Qed.

(** When the slice of the ranking holds no positive score, it is empty or
    every row of the frame scores 0. *)
Lemma dosha_no_positive n :
  filter positive (Py.slice_to (sort_desc scores) n) = [] →
  Py.slice_to (sort_desc scores) n = [] ∨
  ∀ idx, idx < length df → score idx = 0%Z.
Proof.
  intros Hf. destruct (Py.slice_to _ n) as [|x k] eqn:Hs; [by left|right].
  intros idx Hidx.
  apply slice_to_cons_inv in Hs as [S' HS].
  assert (¬ (0 < x.1)%Z) as Hx.
  { intros Hpos. by rewrite filter_cons_True in Hf. }
  pose proof dosha_sorted_ranked as Hr. rewrite HS in Hr.
  apply StronglySorted_inv in Hr as [_ Hr].
  pose proof (dosha_sorted_elem idx Hidx) as Hin. rewrite HS in Hin.
  pose proof (dosha_score_nonneg idx).
  apply elem_of_cons in Hin as [Heq|Hin].
  - subst x. simpl in Hx. lia.
  - rewrite Forall_forall in Hr. specialize (Hr _ Hin).
    unfold ranked in Hr. simpl in Hr. lia.
Qed.

Lemma dosha_slice_length n :
  length (Py.slice_to (sort_desc scores) n) = length (Py.slice_to df n).
Proof.
  rewrite !length_slice_to, sort_desc_length, dosha_scores_seq.
  by rewrite length_fmap, length_seq.
Qed.

(** The two ways [top_indices] is obtained. *)
Lemma dosha_top_indices_cases n :
  let ranking := filter positive (Py.slice_to (sort_desc scores) n) in
  let idxs := dosha_top_indices df symptoms dosha diagnosis n in
  (ranking ≠ [] ∧ idxs = ranking.*2) ∨
  (ranking = [] ∧ idxs = head_index df n ∧
   (head_index df n = [] ∨ ∀ idx, idx < length df → score idx = 0%Z)).
Proof.
  intros ranking idxs. unfold idxs, dosha_top_indices. fold ranking.
  destruct ranking as [|x k] eqn:Hr; [right|left; done].
  split; [done|]. split; [done|].
  destruct (dosha_no_positive n Hr) as [Hs|Hz]; [left|by right].
  unfold head_index. by rewrite <-dosha_slice_length, Hs.
Qed.

Lemma dosha_ranking_entries n :
  Forall (λ x, (x.1 = score x.2 ∧ x.2 < length df) ∧ (0 < x.1)%Z)
    (filter positive (Py.slice_to (sort_desc scores) n)).
Proof.
  apply Forall_forall. intros x [Hpos Hx]%list_elem_of_filter. split; [|done].
  pose proof dosha_sorted_entries as H. rewrite Forall_forall in H.
  apply H. eapply sublist_of_elem; [apply sublist_slice_to|done].
Qed.

Lemma dosha_top_indices_lt n :
  Forall (λ i, i < length df) (dosha_top_indices df symptoms dosha diagnosis n).
Proof.
  destruct (dosha_top_indices_cases n) as [[_ ->]|(_ & -> & _)].
  - apply Forall_fmap. eapply Forall_impl; [apply dosha_ranking_entries|].
    simpl. tauto.
  - apply head_index_lt.
Qed.

Lemma dosha_search_cases n :
  search_by_symptoms_and_dosha df symptoms dosha diagnosis n =
  case_at dosha_metadata df <$> dosha_top_indices df symptoms dosha diagnosis n.
Proof.
  unfold search_by_symptoms_and_dosha.
  by rewrite format_results_Some by apply dosha_top_indices_lt.
Qed.

Lemma dosha_top_indices_ranked n :
  StronglySorted (λ i j, ranked (score i, i) (score j, j))
    (dosha_top_indices df symptoms dosha diagnosis n).
Proof.
  destruct (dosha_top_indices_cases n) as [[_ ->]|(_ & -> & Hz)].
  - apply StronglySorted_fmap.
    eapply (StronglySorted_Forall_impl ranked);
      [|apply dosha_ranking_entries|].
    + intros [s i] [t j]; simpl. by intros [[-> _] _] [[-> _] _].
    + eapply StronglySorted_sublist; [|apply dosha_sorted_ranked].
      etrans; [apply sublist_filter|apply sublist_slice_to].
  - destruct Hz as [->|Hz]; [constructor|].
    apply StronglySorted_seq. intros i j Hij Hj. simpl in Hj.
    pose proof (length_slice_to df n).
    assert (j < length df) by (case_match; lia).
    right. simpl. rewrite !Hz by lia. lia.
Qed.

Lemma dosha_top_indices_length n :
  (0 ≤ n)%Z →
  length (dosha_top_indices df symptoms dosha diagnosis n) ≤ Z.to_nat n.
Proof.
  intros Hn.
  destruct (dosha_top_indices_cases n) as [[_ ->]|(_ & -> & _)].
  - rewrite length_fmap. etrans; [apply length_filter|].
    rewrite length_slice_to. case_match; lia.
  - unfold head_index. rewrite length_seq, length_slice_to. case_match; lia.
Qed.

End dosha_search.

(** ** The free-text search *)

Lemma str_in_empty s : Py.str_in EmptyString s = true.
Proof. by destruct s. Qed.

Lemma has_text_cells row : has_text row ↔ text_cells row ≠ [].
Proof.
  unfold has_text, text_cells. induction row as [|[col [|t]] row IH]; simpl.
  - split; [by intros ?%Exists_nil|done].
  - rewrite Exists_cons. simpl. tauto.
  - rewrite Exists_cons. simpl. split; [done|]. intros _. by left.
Qed.

Lemma length_filter_imap {A B} (P : B → Prop) (Q : A → Prop)
    `{!∀ y, Decision (P y), !∀ x, Decision (Q x)} (f : nat → A → B) l :
  (∀ i x, P (f i x) ↔ Q x) →
  length (filter P (imap f l)) = length (filter Q l).
Proof.
  revert f. induction l as [|x l IH]; intros f Hf; [done|].
  rewrite imap_cons, !filter_cons.
  pose proof (Hf 0 x) as H0x.
  pose proof (IH (f ∘ S) (λ i, Hf (S i))) as IH'.
  destruct (decide (P (f 0 x))), (decide (Q x)); simpl; try tauto; lia.
Qed.

(** The score of a row for the empty query: every cell that is not NaN
    adds the length of its lower-cased text plus one. *)
Lemma text_score_empty row :
  text_score EmptyString row =
  Z.of_nat (sum_list_with (λ s, S (Py.len (Py.lower s))) (text_cells row)).
Proof.
  unfold text_score.
  match goal with
  | |- foldl ?F _ _ = _ =>
      cut (∀ acc, foldl F acc row =
             (acc + Z.of_nat (sum_list_with (λ s, S (Py.len (Py.lower s)))
                                (text_cells row)))%Z)
  end.
  { intros H. by rewrite H. }
  unfold text_cells.
  induction row as [|[col [|t]] row IH]; intros acc; csimpl.
  - lia.
  - apply IH.
  - rewrite str_in_empty, IH. unfold Py.count. csimpl. lia.
Qed.

Lemma sum_cells_pos (l : list string) :
  (0 < Z.of_nat (sum_list_with (λ s, S (Py.len (Py.lower s))) l))%Z ↔ l ≠ [].
Proof. destruct l; simpl; split; (done || lia). Qed.

Lemma text_score_empty_pos row :
  (0 < text_score EmptyString row)%Z ↔ has_text row.
Proof. by rewrite text_score_empty, sum_cells_pos, has_text_cells. Qed.

Section text_search.
Context (df : DataFrame).

Lemma text_scores_entries q : Forall (λ x, x.2 < length df) (text_scores df q).
Proof.
  unfold text_scores, iterrows. apply Forall_forall.
  intros x [_ Hx]%list_elem_of_filter. rewrite fmap_imap in Hx.
  apply elem_of_lookup_imap in Hx as (i & row & -> & Hrow). simpl.
  by eapply lookup_lt_Some.
Qed.

Lemma text_top_indices_lt q n :
  Forall (λ i, i < length df) (text_top_indices df q n).
Proof.
  unfold text_top_indices. apply Forall_fmap.
  eapply Forall_sublist_of; [apply sublist_slice_to|].
  rewrite sort_desc_Permutation. apply text_scores_entries.
Qed.

Lemma text_search_cases q n :
  search_by_text df q n = case_at text_metadata df <$> text_top_indices df q n.
Proof.
  unfold search_by_text.
  by rewrite format_results_Some by apply text_top_indices_lt.
Qed.

Lemma text_scores_empty_length :
  length (text_scores df EmptyString) = length (filter has_text df).
Proof.
  unfold text_scores, iterrows. rewrite fmap_imap. simpl.
  apply length_filter_imap. intros i row. simpl.
  apply text_score_empty_pos.
Qed.

End text_search.

(** ** The claims on the retrieval engine *)

(** C1 (defect of the code).  The claim asks every result of both searches
    for a metadata mapping of the seven record fields in which a missing
    or NaN value reads "N/A".  [row.get(col, 'N/A')] substitutes "N/A"
    only when the frame has no such column: on the worked example with
    the seven columns, the structured search returns the NaN cells
    themselves under [ayurvedic_herbs], [formulation],
    [diet_recommendations] and [lifestyle_recommendations]; and the
    metadata of [search_by_text] has no [lifestyle_recommendations] key at
    all, for any row. *)
Theorem C1_metadata_keeps_NaN_and_text_search_drops_a_key :
  metadata <$> search_by_symptoms_and_dosha [acid_reflux_seven]
                 ["heartburn"] "Pitta" "Acid Reflux" 5
  = [ {[ "disease" := Str "Acid Reflux";
         "symptoms" := Str "heartburn, bloating";
         "constitution" := Str "Pitta";
         "ayurvedic_herbs" := NaN;
         "formulation" := NaN;
         "diet_recommendations" := NaN;
         "lifestyle_recommendations" := NaN ]} ]
  ∧ (metadata <$> search_by_text [acid_reflux_seven] "heartburn" 5)
    = [ {[ "disease" := Str "Acid Reflux";
           "symptoms" := Str "heartburn, bloating";
           "constitution" := Str "Pitta";
           "ayurvedic_herbs" := NaN;
           "formulation" := NaN;
           "diet_recommendations" := NaN ]} ]
  ∧ (∀ row, text_metadata row !! "lifestyle_recommendations" = None)
  ∧ (∀ row, dosha_metadata row !! "lifestyle_recommendations"
            = Some (row_get_default row "Lifestyle_Recommendations" N_A)).
Proof.
  split; [compute_done|]. split; [compute_done|].
  split; intros row; unfold text_metadata, dosha_metadata.
  - by rewrite !lookup_insert_ne, lookup_empty by done.
  - rewrite !lookup_insert_ne by done. by rewrite lookup_insert_eq.
Qed.

(** C2, as stated, fails for a negative [top_n]: [scores[:-1]] drops the
    last entry of the ranking instead of all of them, so on a corpus of
    two matching records one result comes back, which is more than
    [top_n]. *)
Lemma C2_negative_top_n_counterexample :
  id <$> search_by_symptoms_and_dosha [acid_reflux; acid_reflux]
           ["heartburn"] "Pitta" "Acid Reflux" (-1) = ["0"]
  ∧ ¬ (Z.of_nat (length (search_by_symptoms_and_dosha [acid_reflux; acid_reflux]
                           ["heartburn"] "Pitta" "Acid Reflux" (-1))) ≤ -1)%Z.
Proof. split; [compute_done|]. vm_compute. by intros H. Qed.

(** C2 (amended).  For every corpus and every structured query, the
    results of [search_by_symptoms_and_dosha] are the cases of
    [top_indices], which are ordered by non-increasing score with equal
    scores in ascending original index, for every [top_n]; there are at
    most [top_n] of them when [top_n ≥ 0]; and the result depends on nothing
    but the arguments, so that two calls on identical inputs agree. *)
Theorem C2_ranked_at_most_top_n df symptoms dosha diagnosis n :
  let idxs := dosha_top_indices df symptoms dosha diagnosis n in
  let result := search_by_symptoms_and_dosha df symptoms dosha diagnosis n in
  result = case_at dosha_metadata df <$> idxs
  ∧ StronglySorted
      (λ i j, ranked (dosha_score df symptoms dosha diagnosis i, i)
                     (dosha_score df symptoms dosha diagnosis j, j)) idxs
  ∧ ((0 ≤ n)%Z → length result ≤ Z.to_nat n)
  ∧ (∀ df' symptoms' dosha' diagnosis' n',
       (df', symptoms', dosha', diagnosis', n') = (df, symptoms, dosha, diagnosis, n) →
       search_by_symptoms_and_dosha df' symptoms' dosha' diagnosis' n' = result).
Proof.
  intros idxs result. split; [apply dosha_search_cases|].
  split; [apply dosha_top_indices_ranked|]. split.
  - intros Hn. unfold result. rewrite dosha_search_cases, length_fmap.
    by apply dosha_top_indices_length.
  - by intros ????? [= -> -> -> -> ->].
Qed.

Lemma C2_ranked_at_most_top_n_witness :
  length (search_by_symptoms_and_dosha [acid_reflux; acid_reflux_seven]
            ["heartburn"] "Pitta" "Acid Reflux" 1) ≤ Z.to_nat 1.
Proof.
  destruct (C2_ranked_at_most_top_n [acid_reflux; acid_reflux_seven]
              ["heartburn"] "Pitta" "Acid Reflux" 1) as (_ & _ & H & _).
  apply H. lia.
Defined.



(** C6.  On the one-record corpus of the worked example (with or without
    the four columns that have no value) and the query
    symptoms ["heartburn"], constitution "Pitta", diagnosis "Acid Reflux",
    the record scores 10 + 8 + 3 = 21 (the constitution alone gives 10, the
    diagnosis alone 8, the symptom alone 3), and the search returns the
    case of that record as its sole result, for every [top_n ≥ 1]. *)
Theorem C6_worked_example n :
  (1 ≤ n)%Z →
  Forall (λ row,
      dosha_scores [row] ["heartburn"] "Pitta" "Acid Reflux" = [(21%Z, 0)]
      ∧ dosha_scores [row] [] "Pitta" EmptyString = [(10%Z, 0)]
      ∧ dosha_scores [row] [] "Vata" "Acid Reflux" = [(8%Z, 0)]
      ∧ dosha_scores [row] ["heartburn"] "Vata" EmptyString = [(3%Z, 0)]
      ∧ search_by_symptoms_and_dosha [row] ["heartburn"] "Pitta" "Acid Reflux" n
        = [make_result dosha_metadata 0 row])
    [acid_reflux; acid_reflux_seven].
Proof.
  intros Hn.
  assert (∀ x : Z * nat, Py.slice_to [x] n = [x]) as Hslice.
  { intros x. unfold Py.slice_to. rewrite (proj2 (Z.leb_le 0 n)) by lia.
    apply take_ge. simpl. lia. }
  repeat apply Forall_cons_2; [| |constructor];
    (repeat split; [compute_done..|]);
    rewrite dosha_search_cases; unfold dosha_top_indices;
    match goal with
    | |- context [sort_desc ?l] =>
        replace (sort_desc l) with [(21%Z, 0)] by compute_done
    end;
    by rewrite Hslice.
Qed.

Lemma C6_worked_example_witness :
  text <$> search_by_symptoms_and_dosha [acid_reflux] ["heartburn"]
             "Pitta" "Acid Reflux" 5
  = ["Disease: Acid Reflux | Symptoms: heartburn, bloating | Constitution: Pitta"].
Proof.
  pose proof (C6_worked_example 5 ltac:(lia)) as H.
  apply Forall_cons in H as [(_ & _ & _ & _ & ->) _].
  reflexivity.
Defined.

(** C9, as stated, fails for a negative [top_n]: on a corpus of two
    matching records, [top_n = -1] makes both searches return one result. *)
Lemma C9_negative_top_n_counterexample :
  (-1 ≤ 0)%Z
  ∧ id <$> search_by_symptoms_and_dosha [acid_reflux_seven; acid_reflux_seven]
             ["heartburn"] "Pitta" "Acid Reflux" (-1) = ["0"]
  ∧ id <$> search_by_symptoms_and_dosha [acid_reflux_seven; acid_reflux_seven]
             ["cough"] "Kapha" "Asthma" (-1) = ["0"]
  ∧ id <$> search_by_text [acid_reflux_seven; acid_reflux_seven]
             "heartburn" (-1) = ["0"].
Proof. split; [lia|]. repeat split; compute_done. Qed.

(** C9 (amended).  For every corpus and every query, structured or
    free-text, the search returns the empty sequence if [top_n = 0], or if
    [top_n < 0] and the corpus has at most [-top_n] records. *)
Theorem C9_empty_result df symptoms dosha diagnosis query n :
  (n = 0 ∨ Z.of_nat (length df) + n ≤ 0)%Z →
  search_by_symptoms_and_dosha df symptoms dosha diagnosis n = []
  ∧ search_by_text df query n = [].
Proof.
  intros Hn. split.
  - rewrite dosha_search_cases. unfold dosha_top_indices.
    rewrite slice_to_nil; [|by rewrite <-(dosha_slice_length df symptoms dosha diagnosis n) ||
        (rewrite sort_desc_length, dosha_scores_seq, length_fmap, length_seq)].
    rewrite filter_nil. simpl. unfold head_index. by rewrite slice_to_nil.
  - rewrite text_search_cases. unfold text_top_indices.
    rewrite slice_to_nil; [done|].
    rewrite sort_desc_length. unfold text_scores.
    pose proof (length_filter (λ x : Z * nat, (0 < x.1)%Z)
      ((λ '(idx, row), (text_score (Py.lower query) row, idx)) <$> iterrows df)) as Hle.
    unfold iterrows in Hle. rewrite length_fmap, length_imap in Hle.
    unfold iterrows. lia.
Qed.

Lemma C9_empty_result_witness :
  search_by_symptoms_and_dosha [acid_reflux] ["heartburn"] "Pitta" "Acid Reflux" 0 = []
  ∧ search_by_text [acid_reflux] "heartburn" (-1) = [].
Proof.
  split.
  - apply (C9_empty_result [acid_reflux] ["heartburn"] "Pitta" "Acid Reflux"
             "heartburn" 0). left. reflexivity.
  - apply (C9_empty_result [acid_reflux] ["heartburn"] "Pitta" "Acid Reflux"
             "heartburn" (-1)). right. simpl. lia.
Defined.

(** C10, as stated: each cell that is not NaN would add its own length
    plus one.  The source counts in the lower-cased cell, and lower-casing
    the capital I with dot above gives two code points: the cell of one
    character scores 3, not 2. *)
Lemma C10_lowered_length_counterexample :
  let row := [("Disease", Str "İ")] in
  text_cells row = ["İ"]
  ∧ Py.len "İ" = 1
  ∧ text_score (Py.lower EmptyString) row = 3%Z
  ∧ text_score (Py.lower EmptyString) row
    ≠ Z.of_nat (sum_list_with (λ s, S (Py.len s)) (text_cells row)).
Proof. simpl. repeat split; compute_done. Qed.

(** C10, amended.  For every corpus and every [top_n > 0], [search_by_text]
    with the empty query scores each row by the sum, over its cells that
    are not NaN, of the length of the lower-cased cell plus one; the score
    is positive for the rows with such a cell; and the call returns
    [min(top_n, number of such rows)] results, hence at least one when the
    corpus has such a row. *)
Theorem C10_empty_query df n :
  (0 < n)%Z →
  (∀ row, text_score (Py.lower EmptyString) row
          = Z.of_nat (sum_list_with (λ s, S (Py.len (Py.lower s))) (text_cells row)))
  ∧ (∀ row, has_text row → (0 < text_score (Py.lower EmptyString) row)%Z)
  ∧ length (search_by_text df EmptyString n)
    = min (Z.to_nat n) (length (filter has_text df))
  ∧ (Exists has_text df → search_by_text df EmptyString n ≠ []).
Proof.
  intros Hn. split; [apply text_score_empty|].
  split; [intros row; apply text_score_empty_pos|].
  assert (length (search_by_text df EmptyString n)
          = min (Z.to_nat n) (length (filter has_text df))) as Hlen.
  { rewrite text_search_cases, length_fmap. unfold text_top_indices.
    rewrite length_fmap, length_slice_to, sort_desc_length.
    rewrite text_scores_empty_length.
    by rewrite (proj2 (Z.leb_le 0 n)) by lia. }
  split; [done|]. intros Hex Hnil. rewrite Hnil in Hlen. simpl in Hlen.
  apply Exists_exists in Hex as (row & Hin & Hrow).
  assert (row ∈ filter has_text df) as Hf by by apply list_elem_of_filter.
  destruct (filter has_text df); [by apply elem_of_nil in Hf|]. simpl in Hlen. lia.
Qed.

Lemma C10_empty_query_witness :
  length (search_by_text [acid_reflux_seven; [("Disease", NaN)]] EmptyString 5) = 1.
Proof.
  destruct (C10_empty_query [acid_reflux_seven; [("Disease", NaN)]] 5)
    as (_ & _ & H & _); [lia|].
  rewrite H. compute_done.
Defined.

(** * Properties of the prescription generator *)

(** ** Facts on strings *)

Section string_facts.
Implicit Types (s t u a b : string) (c x : ascii).

Lemma str_app_cons x s t : String x s +:+ t = String x (s +:+ t).
Proof. reflexivity. Qed.

Lemma str_app_nil_l s : EmptyString +:+ s = s.
Proof. reflexivity. Qed.

Lemma str_app_nil_r s : s +:+ EmptyString = s.
Proof.
  induction s as [|x s IH]; [done|]. by rewrite str_app_cons, IH.
Qed.

Lemma str_app_assoc s t u : (s +:+ t) +:+ u = s +:+ (t +:+ u).
Proof.
  induction s as [|x s IH]; [done|]. by rewrite !str_app_cons, IH.
Qed.

Lemma infix_of_refl s : infix_of s s.
Proof. exists EmptyString, EmptyString. by rewrite str_app_nil_r. Qed.

Lemma infix_of_trans t u s : infix_of t u → infix_of u s → infix_of t s.
Proof.
  intros (a & b & ->) (a' & b' & ->).
  exists (a' +:+ a), (b +:+ b'). by rewrite !str_app_assoc.
Qed.

Lemma infix_of_app_l t a s : infix_of t s → infix_of t (a +:+ s).
Proof. intros (a' & b & ->). exists (a +:+ a'), b. by rewrite str_app_assoc. Qed.

Lemma infix_of_app_r t s b : infix_of t s → infix_of t (s +:+ b).
Proof.
  intros (a & b' & ->). exists a, (b' +:+ b). by rewrite !str_app_assoc.
Qed.

Lemma infix_of_cons t x s : infix_of t s → infix_of t (String x s).
Proof. apply (infix_of_app_l t (String x EmptyString)). Qed.

Lemma startswith_spec p s : Py.startswith p s = true ↔ ∃ b, s = p +:+ b.
Proof.
  revert s. induction p as [|x p IH]; intros s; simpl.
  { split; [by exists s|done]. }
  destruct s as [|y s]; [split; [done|by intros [? ?]]|].
  case_decide as Hxy; [subst y|].
  - rewrite IH. split; intros [b Hb]; exists b; rewrite ?str_app_cons in *;
      congruence.
  - split; [done|]. intros [b [= ? _]]. done.
Qed.

Lemma str_in_spec t s : Py.str_in t s = true ↔ infix_of t s.
Proof.
  induction s as [|x s IH]; simpl.
  - rewrite orb_false_r, startswith_spec. split.
    + intros [b Hb]. exists EmptyString, b. done.
    + intros ([|] & b & Hab); [by exists b|done].
  - rewrite orb_true_iff, IH, startswith_spec. split.
    + intros [[b Hb]|Hin]; [by exists EmptyString, b|by apply infix_of_cons].
    + intros ([|y a] & b & Hab); [left; by exists b|right].
      injection Hab as _ ->. by exists a, b.
Qed.

Lemma str_in_infix t u s :
  infix_of u s → Py.str_in t u = true → Py.str_in t s = true.
Proof. rewrite !str_in_spec. eauto using infix_of_trans. Qed.

Lemma string_length_ind (P : string → Prop) :
  (∀ s, (∀ t, String.length t < String.length s → P t) → P s) → ∀ s, P s.
Proof.
  intros H s. remember (String.length s) as n eqn:Hn. revert s Hn.
  induction (lt_wf n) as [n _ IH]. intros s ->. apply H.
  intros t Ht. by eapply IH.
Qed.

Lemma lstrip_unfold s :
  Py.lstrip s = match Py.after_space s with
                | Some r => Py.lstrip r
                | None => s
                end.
Proof.
  destruct s as [|c1 s1]; [done|]. simpl.
  destruct (Py.is_space c1); [done|]. destruct s1 as [|c2 s2]; [done|].
  destruct (Py.is_space2 c1 c2); [done|]. destruct s2 as [|c3 s3]; [done|].
  by destruct (Py.is_space3 c1 c2 c3).
Qed.

Lemma after_space_Some s r :
  Py.after_space s = Some r → ∃ w, w ≠ EmptyString ∧ s = w +:+ r.
Proof.
  destruct s as [|c1 [|c2 [|c3 s3]]]; simpl; intros H;
    repeat case_match; simplify_eq.
  - by exists (String c1 EmptyString).
  - by exists (String c1 EmptyString).
  - by exists (String c1 (String c2 EmptyString)).
  - by exists (String c1 EmptyString).
  - by exists (String c1 (String c2 EmptyString)).
  - by exists (String c1 (String c2 (String c3 EmptyString))).
Qed.

Lemma str_app_length s t :
  String.length (s +:+ t) = String.length s + String.length t.
Proof.
  induction s as [|x s IH]; [done|]. rewrite str_app_cons. simpl. by rewrite IH.
Qed.

Lemma after_space_length s r :
  Py.after_space s = Some r → String.length r < String.length s.
Proof.
  intros (w & Hw & ->)%after_space_Some. rewrite str_app_length.
  destruct w; [done|]. simpl. lia.
Qed.

Lemma after_space_app s r b :
  Py.after_space s = Some r → Py.after_space (s +:+ b) = Some (r +:+ b).
Proof.
  destruct s as [|c1 [|c2 [|c3 s3]]]; rewrite ?str_app_cons; simpl; intros H;
    repeat case_match; by simplify_eq.
Qed.

(** Induction along the steps of [lstrip]. *)
Lemma lstrip_elim (P : string → string → Prop) :
  (∀ s, Py.after_space s = None → P s s) →
  (∀ s r, Py.after_space s = Some r → P r (Py.lstrip r) → P s (Py.lstrip r)) →
  ∀ s, P s (Py.lstrip s).
Proof.
  intros Hstop Hstep s. induction s as [s IH] using string_length_ind.
  rewrite lstrip_unfold. destruct (Py.after_space s) as [r|] eqn:Hr.
  - apply Hstep; [done|]. by apply IH, after_space_length.
  - by apply Hstop.
Qed.

Lemma lstrip_suffix s : ∃ a, s = a +:+ Py.lstrip s.
Proof.
  apply (lstrip_elim (λ s t, ∃ a, s = a +:+ t)); clear s.
  - intros s _. by exists EmptyString.
  - intros s r (w & _ & ->)%after_space_Some [a Ha]. exists (w +:+ a).
    by rewrite str_app_assoc, <-Ha.
Qed.

Lemma after_space_lstrip s : Py.after_space (Py.lstrip s) = None.
Proof. by apply (lstrip_elim (λ _ t, Py.after_space t = None)). Qed.

Lemma lstrip_fix s : Py.after_space s = None → Py.lstrip s = s.
Proof. intros H. by rewrite lstrip_unfold, H. Qed.

(** White space in front of a text is dropped with it. *)
Lemma lstrip_app_blank a b :
  Py.lstrip a = EmptyString → Py.lstrip (a +:+ b) = Py.lstrip b.
Proof.
  apply (lstrip_elim (λ a t, t = EmptyString → Py.lstrip (a +:+ b) = Py.lstrip b));
    clear a.
  - by intros a _ ->.
  - intros a r Hr IH Hblank. rewrite (lstrip_unfold (a +:+ b)).
    rewrite (after_space_app _ _ _ Hr). by apply IH.
Qed.

Lemma rstrip_cons c s :
  Py.rstrip (String c s)
  = match Py.lstrip (String c s) with
    | EmptyString => EmptyString
    | _ => String c (Py.rstrip s)
    end.
Proof. reflexivity. Qed.

(** What [rstrip] cuts is white space. *)
Lemma rstrip_split s : ∃ b, s = Py.rstrip s +:+ b ∧ Py.lstrip b = EmptyString.
Proof.
  induction s as [|x s (b & IH & Hb)]; [by exists EmptyString|].
  rewrite rstrip_cons. destruct (Py.lstrip (String x s)) as [|y t] eqn:Hl.
  - by exists (String x s).
  - exists b. split; [|done]. rewrite str_app_cons. by rewrite IH at 1.
Qed.

Lemma rstrip_prefix s : ∃ b, s = Py.rstrip s +:+ b.
Proof. destruct (rstrip_split s) as (b & ? & _). by exists b. Qed.

Lemma rstrip_idemp s : Py.rstrip (Py.rstrip s) = Py.rstrip s.
Proof.
  induction s as [|x s IH]; [done|].
  rewrite rstrip_cons. destruct (Py.lstrip (String x s)) as [|y t] eqn:Hl; [done|].
  rewrite rstrip_cons, IH.
  destruct (Py.lstrip (String x (Py.rstrip s))) as [|y' t'] eqn:Hl'; [|done].
  destruct (rstrip_split s) as (b & Hs & Hb).
  rewrite Hs in Hl. rewrite <-str_app_cons in Hl.
  rewrite (lstrip_app_blank _ _ Hl'), Hb in Hl. done.
Qed.

Lemma after_space_rstrip s :
  Py.after_space s = None → Py.after_space (Py.rstrip s) = None.
Proof.
  intros Hs. destruct (Py.after_space (Py.rstrip s)) as [r|] eqn:Hr; [|done].
  destruct (rstrip_prefix s) as [b Hb].
  apply (after_space_app _ _ b) in Hr. rewrite <-Hb in Hr. congruence.
Qed.

Lemma strip_idemp s : Py.strip (Py.strip s) = Py.strip s.
Proof.
  unfold Py.strip.
  rewrite (lstrip_fix (Py.rstrip (Py.lstrip s)))
    by apply after_space_rstrip, after_space_lstrip.
  apply rstrip_idemp.
Qed.

(** A continuation byte ends every white-space character of more than
    one byte. *)
Lemma is_cont_range c : 128 ≤ nat_of_ascii c < 192 → Py.is_cont c = true.
Proof.
  destruct c as [[] [] [] [] [] [] [] []]; intros H; try done;
    vm_compute in H; lia.
Qed.

Lemma is_space2_cont c1 c2 : Py.is_space2 c1 c2 = true → Py.is_cont c2 = true.
Proof.
  unfold Py.is_space2. intros H. apply is_cont_range.
  rewrite !andb_true_iff, !orb_true_iff, !Nat.eqb_eq in H. lia.
Qed.

Lemma is_space3_cont c1 c2 c3 :
  Py.is_space3 c1 c2 c3 = true → Py.is_cont c3 = true.
Proof.
  unfold Py.is_space3. intros H. apply is_cont_range. cbv zeta in H.
  repeat match goal with
         | H : _ || _ = true |- _ => apply orb_true_iff in H as [H|H]
         | H : _ && _ = true |- _ => apply andb_true_iff in H as [? H]
         | H : (_ =? _) = true |- _ => apply Nat.eqb_eq in H
         | H : (_ <=? _) = true |- _ => apply Nat.leb_le in H
         end; lia.
Qed.

(** A text that ends with a one-byte character other than white space is
    not white space, whatever comes before that character. *)
Lemma after_space_snoc y c r :
  Py.is_space c = false → Py.is_cont c = false →
  Py.after_space (y +:+ String c EmptyString) = Some r →
  ∃ y', r = y' +:+ String c EmptyString ∧ String.length y' < String.length y.
Proof.
  intros Hc Hcont.
  destruct y as [|c1 [|c2 [|c3 y3]]]; rewrite ?str_app_cons, ?str_app_nil_l;
    simpl; intros H; repeat case_match; simplify_eq;
    try match goal with
        | H : Py.is_space2 _ _ = true |- _ => apply is_space2_cont in H; congruence
        | H : Py.is_space3 _ _ _ = true |- _ => apply is_space3_cont in H; congruence
        end.
  - exists EmptyString. split; [done|simpl; lia].
  - exists (String c2 EmptyString). split; [done|simpl; lia].
  - exists EmptyString. split; [done|simpl; lia].
  - exists (String c2 (String c3 y3)). split; [done|simpl; lia].
  - exists (String c3 y3). split; [done|simpl; lia].
  - exists y3. split; [done|simpl; lia].
Qed.

Lemma lstrip_snoc y c :
  Py.is_space c = false → Py.is_cont c = false →
  Py.lstrip (y +:+ String c EmptyString) ≠ EmptyString.
Proof.
  intros Hc Hcont. induction y as [y IH] using string_length_ind.
  rewrite lstrip_unfold.
  destruct (Py.after_space (y +:+ String c EmptyString)) as [r|] eqn:Hr.
  - destruct (after_space_snoc _ _ _ Hc Hcont Hr) as (y' & -> & Hlen).
    by apply IH.
  - by destruct y.
Qed.

Lemma rstrip_snoc y c :
  Py.is_space c = false → Py.is_cont c = false →
  Py.rstrip (y +:+ String c EmptyString) = y +:+ String c EmptyString.
Proof.
  intros Hc Hcont. induction y as [|x y IH].
  - rewrite str_app_nil_l, rstrip_cons. simpl. by rewrite Hc.
  - rewrite str_app_cons, rstrip_cons, IH. rewrite <-str_app_cons.
    pose proof (lstrip_snoc (String x y) c Hc Hcont) as Hne.
    by destruct (Py.lstrip (String x y +:+ String c EmptyString)).
Qed.

Lemma strip_infix s : infix_of (Py.strip s) s.
Proof.
  unfold Py.strip. destruct (lstrip_suffix s) as [a Ha].
  destruct (rstrip_prefix (Py.lstrip s)) as [b Hb].
  exists a, b. by rewrite <-Hb.
Qed.

Lemma split_nonempty c s : Py.split c s ≠ [].
Proof. destruct s as [|x s]; simpl; [done|]. by repeat case_match. Qed.

Lemma split_infix c s line : line ∈ Py.split c s → infix_of line s.
Proof.
  revert line. induction s as [|x s IH]; intros line; simpl.
  { intros ->%list_elem_of_singleton. apply infix_of_refl. }
  case_decide as Hx.
  - intros [->|Hin]%elem_of_cons; [by exists EmptyString, (String x s)|].
    by apply infix_of_cons, IH.
  - destruct (Py.split c s) as [|h k] eqn:Hs; [by destruct (split_nonempty c s)|].
    intros [->|Hin]%elem_of_cons.
    + destruct (IH h) as (a & b & Hab); [by left|].
      (* the first line of the rest starts the rest *)
      assert (∃ b', s = h +:+ b') as [b' ->]; [|by exists EmptyString, b'].
      clear -Hs. revert h k Hs. induction s as [|y s IHs]; intros h k; simpl.
      { intros [= <- <-]. by exists EmptyString. }
      case_decide.
      * intros [= <- <-]. by exists (String y s).
      * destruct (Py.split c s) as [|h' k'] eqn:Hs';
          [by destruct (split_nonempty c s)|].
        intros [= <- <-]. destruct (IHs h' k' eq_refl) as [b' ->].
        by exists b'.
    + apply infix_of_cons, IH. by right.
Qed.

(** Occurrence of a single character. *)
Lemma str_in_char_cons c x s :
  Py.str_in (String c EmptyString) (String x s)
  = bool_decide (c = x) || Py.str_in (String c EmptyString) s.
Proof.
  simpl. case_decide; [rewrite bool_decide_true|rewrite bool_decide_false]; done.
Qed.

Lemma str_in_char_app c a b :
  Py.str_in (String c EmptyString) (a +:+ b)
  = Py.str_in (String c EmptyString) a || Py.str_in (String c EmptyString) b.
Proof.
  induction a as [|x a IH]; [done|].
  change (String x a +:+ b) with (String x (a +:+ b)).
  by rewrite !str_in_char_cons, IH, orb_assoc.
Qed.

(** Splitting at the first separator. *)
Lemma split_app_sep c a b :
  Py.str_in (String c EmptyString) a = false →
  Py.split c (a +:+ String c b) = a :: Py.split c b.
Proof.
  induction a as [|x a IH]; simpl Py.split; simpl String.append.
  { intros _. by rewrite decide_True. }
  rewrite str_in_char_cons. intros [Hx Ha]%orb_false_iff.
  apply bool_decide_eq_false in Hx.
  rewrite decide_False by congruence. by rewrite IH.
Qed.

End string_facts.

(** ** The built-ins on text outside the ASCII range *)

(** [lower] maps every cased letter, may lengthen the text, and writes the
    final form of a sigma that ends a word. *)
Example lower_examples :
  Py.lower "ÉPILEPSIE" = "épilepsie"
  ∧ Py.lower "MÉNIÈRE'S Disease" = "ménière's disease"
  ∧ Py.len "İ" = 1 ∧ Py.len (Py.lower "İ") = 2
  ∧ Py.lower "ΟΔΥΣΣΕΥΣ" = "οδυσσευς"
  ∧ Py.lower "Straße" = "straße".
Proof. repeat split; compute_done. Qed.

(** [strip] trims the white space of Unicode: here the no-break space
    U+00A0 and the ideographic space U+3000. *)
Example strip_examples :
  let nbsp := Unicode.encode 0xA0 in
  let wide := Unicode.encode 0x3000 in
  Py.strip (nbsp +:+ "Warm oats" +:+ wide) = "Warm oats"
  ∧ Py.strip (" " +:+ nbsp +:+ "• Triphala" +:+ nbsp +:+ " ") = "• Triphala"
  ∧ diet_recommendations
      (parse_line in_diet ("| Breakfast |" +:+ nbsp +:+ "Warm oats" +:+ nbsp +:+ "|"))
    = {[ "breakfast" := "Warm oats" ]}.
Proof. simpl. repeat split; compute_done. Qed.

(** A query in capitals finds the accented cell. *)
Example text_search_accented :
  id <$> search_by_text [[("Disease", Str "Ménière's disease")]] "MÉNIÈRE" 5 = ["0"].
Proof. compute_done. Qed.

(** ** The parser *)

Section parser_facts.
Implicit Types (st : ParserState) (line : string).

Lemma store_meal_dom key line (diet : gmap string string) :
  key ∈ meal_keys → dom diet ⊆ meal_keys →
  dom (store_meal key line diet) ⊆ meal_keys.
Proof.
  intros Hkey Hdiet. unfold store_meal. repeat case_match; try done.
  rewrite dom_insert. by apply union_least; [apply singleton_subseteq_l|].
Qed.

Lemma parse_line_diet_dom st line :
  dom (diet_recommendations st) ⊆ meal_keys →
  dom (diet_recommendations (parse_line st line)) ⊆ meal_keys.
Proof.
  intros Hst. unfold parse_line.
  repeat case_match; simpl; try done; by apply store_meal_dom.
Qed.

Lemma parse_lines_diet_dom st lines :
  dom (diet_recommendations st) ⊆ meal_keys →
  dom (diet_recommendations (parse_lines st lines)) ⊆ meal_keys.
Proof.
  revert st. induction lines as [|line lines IH]; intros st Hst; [done|].
  apply IH. by apply parse_line_diet_dom.
Qed.

(** Without its header on the line, a section is not entered, and outside
    a section its collection does not change. *)
Lemma parse_line_no_medicines st line :
  Py.str_in medicines_header (Py.strip line) = false →
  current_section st ≠ Some sec_medicines →
  current_section (parse_line st line) ≠ Some sec_medicines
  ∧ medicines (parse_line st line) = medicines st.
Proof.
  unfold medicines_header. intros Hh Hst. unfold parse_line. rewrite Hh.
  rewrite (bool_decide_eq_false_2 _ Hst), andb_false_r.
  repeat case_match; simpl; done.
Qed.

Lemma parse_line_no_diet st line :
  Py.str_in diet_header (Py.strip line) = false →
  current_section st ≠ Some sec_diet →
  current_section (parse_line st line) ≠ Some sec_diet
  ∧ diet_recommendations (parse_line st line) = diet_recommendations st.
Proof.
  unfold diet_header. intros Hh Hst. unfold parse_line. rewrite Hh.
  rewrite (bool_decide_eq_false_2 _ Hst), andb_false_r.
  repeat case_match; simpl; done.
Qed.

Lemma parse_line_no_lifestyle st line :
  Py.str_in lifestyle_header (Py.strip line) = false →
  current_section st ≠ Some sec_lifestyle →
  current_section (parse_line st line) ≠ Some sec_lifestyle
  ∧ lifestyle_recommendations (parse_line st line) = lifestyle_recommendations st.
Proof.
  unfold lifestyle_header. intros Hh Hst. unfold parse_line. rewrite Hh.
  rewrite (bool_decide_eq_false_2 _ Hst), andb_false_r.
  repeat case_match; simpl; done.
Qed.

(** The three lemmas above, along the lines of a text. *)
Lemma parse_lines_absent {A} (sec : SectionName) (header : string)
    (field : ParserState → A) st lines :
  (∀ st line,
     Py.str_in header (Py.strip line) = false →
     current_section st ≠ Some sec →
     current_section (parse_line st line) ≠ Some sec
     ∧ field (parse_line st line) = field st) →
  Forall (λ line, Py.str_in header (Py.strip line) = false) lines →
  current_section st ≠ Some sec →
  field (parse_lines st lines) = field st.
Proof.
  intros Hstep Hlines. revert st.
  induction Hlines as [|line lines Hline _ IH]; intros st Hst; [done|].
  destruct (Hstep st line Hline Hst) as [Hsec Hfield].
  simpl. by rewrite IH, Hfield.
Qed.

Lemma header_absent_lines header text :
  Py.str_in header text = false →
  Forall (λ line, Py.str_in header (Py.strip line) = false) (Py.split LF text).
Proof.
  intros Htext. apply Forall_forall. intros line Hline.
  apply not_true_is_false. intros Hin.
  assert (Py.str_in header text = true); [|congruence].
  eapply str_in_infix; [|exact Hin].
  eapply infix_of_trans; [apply strip_infix|by eapply split_infix].
Qed.

End parser_facts.

(** ** The claims on the parser *)

(** C5.  For every text, [_create_json_output] returns (it is a total
    function and its [except] branch is not entered: no parsing error is
    recorded) a document whose prescription group holds the three parsed
    collections: the medicines as a list of strings, the diet as a mapping
    whose keys are among breakfast, lunch, dinner and drinks, the lifestyle
    as a list of strings; a collection is empty when the header of its
    section does not occur in the text. *)
Theorem C5_parser_shape clock text patient k :
  ∃ meds diet life,
    prescription (_create_json_output clock text patient k).1
      = Parsed meds diet life
    ∧ parsing_error (doc_metadata (_create_json_output clock text patient k).1)
      = None
    ∧ dom diet ⊆ meal_keys
    ∧ (Py.str_in medicines_header text = false → meds = [])
    ∧ (Py.str_in diet_header text = false → diet = ∅)
    ∧ (Py.str_in lifestyle_header text = false → life = []).
Proof.
  eexists _, _, _. split; [reflexivity|]. split; [reflexivity|].
  unfold parse. split; [|repeat split].
  - by apply parse_lines_diet_dom.
  - intros H. by rewrite (parse_lines_absent sec_medicines medicines_header medicines)
      by eauto using parse_line_no_medicines, header_absent_lines.
  - intros H. by rewrite (parse_lines_absent sec_diet diet_header diet_recommendations)
      by eauto using parse_line_no_diet, header_absent_lines.
  - intros H. by rewrite (parse_lines_absent sec_lifestyle lifestyle_header
                            lifestyle_recommendations)
      by eauto using parse_line_no_lifestyle, header_absent_lines.
Qed.

Lemma C5_parser_shape_witness :
  prescription (_create_json_output ticking "Take rest.
• Drink water" asha 0).1 = Parsed [] ∅ [].
Proof.
  destruct (C5_parser_shape ticking "Take rest.
• Drink water" asha 0) as (meds & diet & life & -> & _ & _ & Hm & Hd & Hl).
  by rewrite Hm, Hd, Hl by compute_done.
Defined.

(** C7, as stated, fails on a table row that also holds a section
    header: the header test comes first in the chain, so in the diet state
    the line [| Breakfast | 1. Ayurvedic Medicines: |] switches the section
    and stores nothing. *)
Lemma C7_header_in_row_counterexample :
  let line := "| Breakfast | 1. Ayurvedic Medicines: |" in
  current_section in_diet = Some sec_diet
  ∧ Py.str_in "|" line = true
  ∧ Py.str_in "Breakfast" line = true
  ∧ 3 ≤ length (Py.split pipe line)
  ∧ diet_recommendations (parse_line in_diet line) !! "breakfast" = None
  ∧ parse_line in_diet line
    = {| current_section := Some sec_medicines; medicines := [];
         diet_recommendations := ∅; lifestyle_recommendations := [] |}.
Proof. intros line. repeat split; compute_done. Qed.

(** C7 (amended).  For every line processed in the diet state: if the
    line, trimmed, holds none of the three section headers, holds a [|]
    and one of the four meal names, and splits on [|] into at least 3
    segments, then the trimmed 3rd segment is stored under the lowercase
    key of the first meal name, in the order Breakfast, Lunch, Dinner,
    Drinks, that the line holds; nothing else of the state changes. *)
Theorem C7_diet_row st line0 :
  let line := Py.strip line0 in
  let stored key part :=
    parse_line st line0
    = {| current_section := Some sec_diet; medicines := medicines st;
         diet_recommendations := <[key := Py.strip part]> (diet_recommendations st);
         lifestyle_recommendations := lifestyle_recommendations st |} in
  current_section st = Some sec_diet →
  Py.str_in medicines_header line = false →
  Py.str_in diet_header line = false →
  Py.str_in lifestyle_header line = false →
  Py.str_in "|" line = true →
  3 ≤ length (Py.split pipe line) →
  ∃ part, Py.split pipe line !! 2 = Some part
    ∧ (Py.str_in "Breakfast" line = true → stored "breakfast" part)
    ∧ (Py.str_in "Breakfast" line = false → Py.str_in "Lunch" line = true →
       stored "lunch" part)
    ∧ (Py.str_in "Breakfast" line = false → Py.str_in "Lunch" line = false →
       Py.str_in "Dinner" line = true → stored "dinner" part)
    ∧ (Py.str_in "Breakfast" line = false → Py.str_in "Lunch" line = false →
       Py.str_in "Dinner" line = false → Py.str_in "Drinks" line = true →
       stored "drinks" part).
Proof.
  intros line stored Hst Hm Hd Hl Hpipe Hlen.
  destruct (lookup_lt_is_Some_2 (Py.split pipe line) 2 Hlen) as [part Hpart].
  exists part. split; [done|].
  unfold stored, parse_line, store_meal. fold line.
  unfold medicines_header, diet_header, lifestyle_header in *.
  rewrite Hm, Hd, Hl, Hpipe, Hst, Hpart.
  rewrite !(bool_decide_eq_false_2 (Some sec_diet = _)) by done.
  rewrite !andb_false_r, bool_decide_eq_true_2 by done. simpl.
  destruct (decide (3 ≤ length (Py.split pipe line))) as [_|?]; [|done].
  repeat split; intros; by repeat match goal with H : Py.str_in _ _ = _ |- _ => rewrite H; clear H end.
Qed.

Lemma C7_diet_row_witness :
  diet_recommendations (parse_line in_diet "| Breakfast | Warm oats |")
    = {[ "breakfast" := "Warm oats" ]}
  ∧ diet_recommendations (parse "2. Diet Recommendation:
   | Breakfast | Warm oats |") !! "breakfast" = Some "Warm oats".
Proof.
  split; [|compute_done].
  destruct (C7_diet_row in_diet "| Breakfast | Warm oats |"
              eq_refl eq_refl eq_refl eq_refl eq_refl ltac:(vm_compute; lia))
    as (part & Hpart & Hb & _).
  rewrite Hb by compute_done.
  vm_compute in Hpart. injection Hpart as <-. compute_done.
Defined.

(** ** The fallback outcome *)

Section fallback_facts.

Lemma pretty_N_go_no_newline x s :
  Py.str_in newline s = false → Py.str_in newline (pretty_N_go x s) = false.
Proof.
  revert s. induction (N.lt_wf_0 x) as [x _ IH]; intros s Hs.
  assert (x = 0 ∨ 0 < x)%N as [->|Hx] by lia; [by rewrite pretty_N_go_0|].
  rewrite pretty_N_go_step by done. apply IH; [by apply N.div_lt|].
  unfold newline. rewrite str_in_char_cons. fold newline. rewrite Hs.
  unfold pretty_N_char. by repeat case_match.
Qed.

Lemma pretty_N_no_newline (x : N) : Py.str_in newline (pretty x) = false.
Proof.
  unfold pretty, pretty_N. case_decide; [done|].
  by apply pretty_N_go_no_newline.
Qed.

Lemma str_of_int_no_newline i : Py.str_in newline (Py.str_of_int i) = false.
Proof.
  destruct i as [|p|p]; [done|..].
  - exact (pretty_N_no_newline (N.pos p)).
  - change (Py.str_of_int (Z.neg p)) with ("-" +:+ pretty (N.pos p)).
    unfold newline. rewrite str_in_char_app. fold newline.
    by rewrite pretty_N_no_newline.
Qed.

Lemma fallback_text_lines patient :
  fallback_text patient
  = String LF (fallback_title patient +:+ fallback_body).
Proof.
  unfold fallback_text, fallback_title.
  rewrite str_app_cons. f_equal. by rewrite !str_app_assoc.
Qed.

Lemma fallback_title_no_newline patient :
  Py.str_in newline (name patient) = false →
  Py.str_in newline (gender patient) = false →
  Py.str_in newline (constitution_dosha patient) = false →
  Py.str_in newline (fallback_title patient) = false.
Proof.
  intros Hn Hg Hc. unfold fallback_title, newline.
  rewrite !str_in_char_app. fold newline.
  by rewrite Hn, Hg, Hc, str_of_int_no_newline.
Qed.

(** From the start, a line can only choose a section. *)
Lemma parse_line_initial line :
  ∃ sec, parse_line initial_state line
         = {| current_section := sec; medicines := [];
              diet_recommendations := ∅; lifestyle_recommendations := [] |}.
Proof.
  unfold parse_line, initial_state. simpl.
  rewrite !andb_false_r. repeat case_match; eauto.
Qed.

Lemma fallback_body_rest : fallback_body = String LF fallback_rest.
Proof. compute_done. Qed.

Lemma split_cons_sep c s : Py.split c (String c s) = EmptyString :: Py.split c s.
Proof. simpl. by rewrite decide_True. Qed.

Lemma parse_lines_cons st line lines :
  parse_lines st (line :: lines) = parse_lines (parse_line st line) lines.
Proof. reflexivity. Qed.

Lemma parse_line_initial_empty : parse_line initial_state EmptyString = initial_state.
Proof. compute_done. Qed.

(** Whatever section the title line chose, the rest of the fallback text
    parses to the built-in collections. *)
Lemma parse_fallback_rest sec :
  parse_lines {| current_section := sec; medicines := [];
                 diet_recommendations := ∅; lifestyle_recommendations := [] |}
    (Py.split LF fallback_rest)
  = {| current_section := Some sec_lifestyle;
       medicines := fallback_medicines;
       diet_recommendations := fallback_diet;
       lifestyle_recommendations := fallback_lifestyle |}.
Proof. destruct sec as [[]|]; compute_done. Qed.

Lemma parse_fallback_text patient :
  Py.str_in newline (name patient) = false →
  Py.str_in newline (gender patient) = false →
  Py.str_in newline (constitution_dosha patient) = false →
  parse (fallback_text patient)
  = {| current_section := Some sec_lifestyle;
       medicines := fallback_medicines;
       diet_recommendations := fallback_diet;
       lifestyle_recommendations := fallback_lifestyle |}.
Proof.
  intros Hn Hg Hc. unfold parse.
  rewrite fallback_text_lines, fallback_body_rest, split_cons_sep.
  rewrite split_app_sep by by apply fallback_title_no_newline.
  rewrite !parse_lines_cons, parse_line_initial_empty.
  destruct (parse_line_initial (fallback_title patient)) as [sec ->].
  apply parse_fallback_rest.
Qed.

Lemma display_contains_name clock response_text patient k :
  Py.str_in (name patient)
    (_format_display_output clock response_text patient k).1 = true.
Proof.
  apply str_in_spec. unfold _format_display_output, display_header. simpl.
  apply infix_of_app_r. do 5 apply infix_of_app_l.
  apply infix_of_app_r, infix_of_refl.
Qed.

End fallback_facts.

(** ** The claims on the generator *)

(** C4, as stated, fails for a patient whose name holds line breaks: the
    name is pasted into the fallback text before it is parsed, so a name
    that carries the medicines header and a bullet line adds a fourth
    entry to the medicines list. *)
Lemma C4_multiline_name_counterexample :
  prescription
    (json_format (generate_prescription (λ _, Raises) ticking asha_multiline [] 0).1)
  = Parsed ("Opium (30, F, Pitta constitution):" :: fallback_medicines)
           fallback_diet fallback_lifestyle
  ∧ length ("Opium (30, F, Pitta constitution):" :: fallback_medicines) ≠ 3.
Proof. split; compute_done. Qed.

(** C4 (amended).  For every patient whose name, gender and constitution
    hold no line break, and every generator that raises or returns the
    empty text, [generate_prescription] returns the fallback outcome:
    [success] false, [similar_cases_count] 0, the error field set, no raw
    response, a report text that contains the name of the patient, and a
    structured document whose medicines are the 3 built-in entries, whose
    diet is the 4 built-in rows and whose lifestyle is the 5 built-in
    entries. *)
Theorem C4_fallback_outcome model clock patient similar_cases k :
  model (_create_precise_prompt patient similar_cases) = Raises
  ∨ model (_create_precise_prompt patient similar_cases) = Returns EmptyString →
  Py.str_in newline (name patient) = false →
  Py.str_in newline (gender patient) = false →
  Py.str_in newline (constitution_dosha patient) = false →
  let result := (generate_prescription model clock patient similar_cases k).1 in
  success result = false
  ∧ similar_cases_count result = 0
  ∧ error result = Some "Using fallback prescription"
  ∧ raw_response result = None
  ∧ Py.str_in (name patient) (display_format result) = true
  ∧ prescription (json_format result)
    = Parsed fallback_medicines fallback_diet fallback_lifestyle
  ∧ length fallback_medicines = 3 ∧ length fallback_lifestyle = 5.
Proof.
  intros Hmodel Hn Hg Hc result.
  assert (result = (_create_fallback_response clock patient k).1) as ->.
  { unfold result, generate_prescription. by destruct Hmodel as [-> | ->]. }
  unfold _create_fallback_response. simpl.
  rewrite (parse_fallback_text patient Hn Hg Hc). simpl.
  repeat split.
  apply (display_contains_name clock (fallback_text patient) patient k).
Qed.

Lemma C4_fallback_outcome_witness :
  success (generate_prescription (λ _, Returns EmptyString) ticking asha [] 0).1 = false
  ∧ prescription
      (json_format (generate_prescription (λ _, Raises) ticking asha [] 0).1)
    = Parsed fallback_medicines fallback_diet fallback_lifestyle.
Proof.
  split.
  - apply (C4_fallback_outcome (λ _, Returns EmptyString) ticking asha [] 0);
      [by right|compute_done..].
  - apply (C4_fallback_outcome (λ _, Raises) ticking asha [] 0);
      [by left|compute_done..].
Defined.

(** C8, as stated, fails: no timestamp is passed to the formatters, both
    call [datetime.now()] themselves.  Two calls of [_create_json_output]
    in a row on identical arguments give different documents as soon as
    the clock has moved between them. *)
Lemma C8_clock_read_inside_counterexample :
  let '(first, k) := _create_json_output ticking "Take rest." asha 0 in
  let '(second, _) := _create_json_output ticking "Take rest." asha k in
  generated_date (doc_metadata first) = "2026-11-03T09:05:00"
  ∧ generated_date (doc_metadata second) = "2026-11-03T09:05:01"
  ∧ first ≠ second.
Proof.
  simpl. split; [compute_done|]. split; [compute_done|].
  by intros [=].
Qed.

(** C8 (amended).  [_create_json_output] and [_format_display_output]
    read the clock themselves, once per call; the reading is their only
    input besides the arguments: two calls on identical arguments at which
    the clock reads the same instant yield identical output, and two calls
    at any instants yield documents that differ at most in
    [generated_date]. *)
Theorem C8_same_instant_same_output clock1 clock2 k1 k2 response_text patient :
  let doc1 := (_create_json_output clock1 response_text patient k1).1 in
  let doc2 := (_create_json_output clock2 response_text patient k2).1 in
  (clock1 k1 = clock2 k2 →
     doc1 = doc2
     ∧ (_format_display_output clock1 response_text patient k1).1
       = (_format_display_output clock2 response_text patient k2).1)
  ∧ patient_info doc1 = patient_info doc2
  ∧ prescription doc1 = prescription doc2
  ∧ generated_by (doc_metadata doc1) = generated_by (doc_metadata doc2)
  ∧ format_version (doc_metadata doc1) = format_version (doc_metadata doc2)
  ∧ parsing_error (doc_metadata doc1) = parsing_error (doc_metadata doc2)
  ∧ (_create_json_output clock1 response_text patient k1).2 = S k1
  ∧ (_format_display_output clock1 response_text patient k1).2 = S k1.
Proof.
  intros doc1 doc2. split; [|done].
  intros Hclock. unfold doc1, doc2, _create_json_output, _format_display_output.
  simpl. by rewrite Hclock.
Qed.

Lemma C8_same_instant_same_output_witness :
  (_create_json_output ticking "Take rest." asha 3).1
  = (_create_json_output (λ k, ticking (S k)) "Take rest." asha 2).1.
Proof.
  apply (C8_same_instant_same_output ticking (λ k, ticking (S k)) 3 2
           "Take rest." asha).
  reflexivity.
Defined.

(** * Further properties of the retrieval engine *)

Section score_facts.

Lemma foldl_hits (P : string → bool) (w a : Z) l :
  foldl (λ acc s, if P s then (acc + w)%Z else acc) a l
  = (a + w * Z.of_nat (length (filter (λ s, P s = true) l)))%Z.
Proof.
  revert a. induction l as [|s l IH]; intros a; simpl; [lia|].
  rewrite IH, filter_cons.
  case_decide as Hd; [rewrite Hd|apply not_true_is_false in Hd; rewrite Hd];
    simpl; lia.
Qed.

Lemma foldl_hits2 (P Q : string → bool) (a : Z) l :
  foldl (λ acc s, let acc := if P s then (acc + 1)%Z else acc in
                  if Q s then (acc + 1)%Z else acc) a l
  = (a + Z.of_nat (length (filter (λ s, P s = true) l))
       + Z.of_nat (length (filter (λ s, Q s = true) l)))%Z.
Proof.
  revert a. induction l as [|s l IH]; intros a; simpl; [lia|].
  rewrite IH, !filter_cons.
  case_decide as HP; [rewrite HP|apply not_true_is_false in HP; rewrite HP];
    (case_decide as HQ; [rewrite HQ|apply not_true_is_false in HQ; rewrite HQ]);
    simpl; lia.
Qed.

(** The score of a row is the sum of five independent parts. *)
Lemma row_score_parts sl dl gl row :
  row_score sl dl gl row
  = (constitution_points dl row + disease_points gl row
     + 3 * hits (str_of_cell (row_get_default row "Symptoms" (Str EmptyString))) sl
     + hits (str_of_cell (row_get_default row "Ayurvedic_Herbs" (Str EmptyString))) sl
     + hits (str_of_cell (row_get_default row "Formulation" (Str EmptyString))) sl)%Z.
Proof.
  unfold row_score, constitution_points, disease_points, hits.
  rewrite foldl_hits2, foldl_hits.
  repeat case_match; simpl in *; try discriminate; lia.
Qed.

Lemma hits_bounds text sl : (0 ≤ hits text sl ≤ Z.of_nat (length sl))%Z.
Proof. unfold hits. pose proof (length_filter (λ s, Py.str_in s (Py.lower text) = true) sl). lia. Qed.

Lemma hits_Permutation text sl sl' : sl ≡ₚ sl' → hits text sl = hits text sl'.
Proof. intros H. unfold hits. by rewrite H. Qed.

Lemma row_score_Permutation sl sl' dl gl row :
  sl ≡ₚ sl' → row_score sl dl gl row = row_score sl' dl gl row.
Proof.
  intros H. rewrite !row_score_parts.
  by rewrite !(hits_Permutation _ sl sl') by done.
Qed.

Lemma code_points_cons c s : ∃ x l, Unicode.code_points (String c s) = x :: l.
Proof. simpl. repeat case_match; eauto. Qed.

Lemma encode_nonempty c : Unicode.encode c ≠ EmptyString.
Proof. unfold Unicode.encode, Unicode.chr. by repeat case_match. Qed.

Lemma lower_from_cons before x l : ∃ y l', Unicode.lower_from before (x :: l) = y :: l'.
Proof.
  simpl. unfold Unicode.to_lower_full. repeat case_match; simpl; eauto.
Qed.

(** Lower-casing gives the empty string on the empty string only. *)
Lemma truthy_lower s : Py.truthy (Py.lower s) = Py.truthy s.
Proof.
  destruct s as [|c s]; [done|]. unfold Py.lower, Unicode.lower.
  destruct (code_points_cons c s) as (x & l & ->).
  destruct (lower_from_cons [] x l) as (y & l' & ->). simpl.
  pose proof (encode_nonempty y). by destruct (Unicode.encode y).
Qed.

Lemma dosha_scores_ext df sl sl' d d' g g' :
  (∀ row, row_score (Py.lower <$> sl) (Py.lower d)
            (if Py.truthy g then Py.lower g else EmptyString) row
          = row_score (Py.lower <$> sl') (Py.lower d')
            (if Py.truthy g' then Py.lower g' else EmptyString) row) →
  ∀ n, search_by_symptoms_and_dosha df sl d g n
       = search_by_symptoms_and_dosha df sl' d' g' n.
Proof.
  intros Hrow n.
  assert (dosha_scores df sl d g = dosha_scores df sl' d' g') as Hs.
  { unfold dosha_scores. apply list_fmap_ext. intros i [idx row] _. simpl.
    by rewrite Hrow. }
  unfold search_by_symptoms_and_dosha, dosha_top_indices. by rewrite Hs.
Qed.

End score_facts.

Section more_list_facts.
Context {A : Type}.

Lemma StronglySorted_irrefl_NoDup (R : A → A → Prop) l :
  (∀ x, ¬ R x x) → StronglySorted R l → NoDup l.
Proof.
  intros Hirr. induction 1 as [|x l Hl IH Hx]; constructor; [|done].
  intros Hin. rewrite Forall_forall in Hx. by apply (Hirr x), Hx.
Qed.

Lemma slice_to_all (l : list A) n :
  (Z.of_nat (length l) ≤ n)%Z → Py.slice_to l n = l.
Proof.
  intros Hn. unfold Py.slice_to. rewrite (proj2 (Z.leb_le 0 n)) by lia.
  apply take_ge. lia.
Qed.

End more_list_facts.

Lemma ranked_idx_irrefl (score : nat → Z) i : ¬ ranked (score i, i) (score i, i).
Proof. unfold ranked. simpl. lia. Qed.

(** The first positive entry of a slice of a ranked list carries the top
    score of the whole list. *)
Lemma ranking_head_max (S : list (Z * nat)) n x k :
  StronglySorted ranked S →
  filter (λ x : Z * nat, (0 < x.1)%Z) (Py.slice_to S n) = x :: k →
  ∀ z, z ∈ S → (z.1 ≤ x.1)%Z.
Proof.
  intros Hsorted Hf.
  assert (x ∈ filter (λ x : Z * nat, (0 < x.1)%Z) (Py.slice_to S n)) as Hx
    by (rewrite Hf; left).
  apply list_elem_of_filter in Hx as [Hpos Hx].
  destruct (Py.slice_to S n) as [|y sl] eqn:Hsl; [by apply elem_of_nil in Hx|].
  destruct (slice_to_cons_inv _ _ _ _ Hsl) as [S' ->].
  apply StronglySorted_inv in Hsorted as [_ Hy]. rewrite Forall_forall in Hy.
  assert (∀ z, z ∈ y :: S' → (z.1 ≤ y.1)%Z) as Hmax.
  { intros z [->|Hz]%elem_of_cons; [lia|].
    specialize (Hy z Hz). unfold ranked in Hy. lia. }
  assert (x ∈ y :: S') as HxS.
  { eapply sublist_of_elem; [apply (sublist_slice_to (y :: S') n)|].
    rewrite Hsl. done. }
  specialize (Hmax x HxS) as Hxy.
  rewrite filter_cons_True in Hf by (simpl; lia).
  injection Hf as -> _. done.
Qed.

(** X1.  The score of a row in the structured search lies between 0 and
    18 plus 5 for every query symptom: 10 for the constitution, 8 for the
    diagnosis, and per symptom 3 + 1 + 1. *)
Theorem dosha_score_bounds df symptoms dosha diagnosis idx :
  (0 ≤ dosha_score df symptoms dosha diagnosis idx
     ≤ 18 + 5 * Z.of_nat (length symptoms))%Z.
Proof.
  unfold dosha_score. rewrite row_score_parts.
  set (sl := Py.lower <$> symptoms).
  assert (length sl = length symptoms) as Hlen by apply length_fmap.
  pose proof (hits_bounds (str_of_cell (row_get_default (row_at df idx) "Symptoms"
                                          (Str EmptyString))) sl).
  pose proof (hits_bounds (str_of_cell (row_get_default (row_at df idx) "Ayurvedic_Herbs"
                                          (Str EmptyString))) sl).
  pose proof (hits_bounds (str_of_cell (row_get_default (row_at df idx) "Formulation"
                                          (Str EmptyString))) sl).
  unfold constitution_points, disease_points. repeat case_match; lia.
Qed.

(** X2.  The order of the query symptoms does not matter: two symptom
    lists that are permutations of each other give the same results. *)
Theorem dosha_search_symptom_order df symptoms symptoms' dosha diagnosis n :
  symptoms ≡ₚ symptoms' →
  search_by_symptoms_and_dosha df symptoms dosha diagnosis n
  = search_by_symptoms_and_dosha df symptoms' dosha diagnosis n.
Proof.
  intros H. apply dosha_scores_ext. intros row.
  apply row_score_Permutation. by apply fmap_Permutation.
Qed.

Lemma dosha_search_symptom_order_witness :
  search_by_symptoms_and_dosha [acid_reflux; acid_reflux_seven]
    ["heartburn"; "bloating"] "Pitta" "Acid Reflux" 5
  = search_by_symptoms_and_dosha [acid_reflux; acid_reflux_seven]
      ["bloating"; "heartburn"] "Pitta" "Acid Reflux" 5.
Proof. apply dosha_search_symptom_order. apply Permutation_swap. Defined.

(** X3.  Both searches read the query through [lower()] only: queries that
    agree up to the case of their letters give the same results. *)
Theorem search_case_insensitive df symptoms symptoms' dosha dosha'
    diagnosis diagnosis' query query' n :
  Py.lower <$> symptoms = Py.lower <$> symptoms' →
  Py.lower dosha = Py.lower dosha' →
  Py.lower diagnosis = Py.lower diagnosis' →
  Py.lower query = Py.lower query' →
  search_by_symptoms_and_dosha df symptoms dosha diagnosis n
  = search_by_symptoms_and_dosha df symptoms' dosha' diagnosis' n
  ∧ search_by_text df query n = search_by_text df query' n.
Proof.
  intros Hs Hd Hg Hq. split.
  - apply dosha_scores_ext. intros row. rewrite Hs, Hd.
    rewrite <-(truthy_lower diagnosis), <-(truthy_lower diagnosis'), Hg. done.
  - unfold search_by_text, text_top_indices, text_scores. by rewrite Hq.
Qed.

Lemma search_case_insensitive_witness :
  search_by_symptoms_and_dosha [acid_reflux] ["HeartBurn"] "PITTA" "acid REFLUX" 5
  = search_by_symptoms_and_dosha [acid_reflux] ["heartburn"] "pitta" "Acid Reflux" 5
  ∧ search_by_text [acid_reflux] "BLOATING" 5
    = search_by_text [acid_reflux] "bloating" 5.
Proof. apply search_case_insensitive; reflexivity. Defined.

(** X4.  The structured search never returns more results than the corpus
    has records, and on a non-empty corpus with [top_n ≥ 1] it never returns
    the empty list: without a match the first records stand in. *)
Theorem dosha_search_never_empty df symptoms dosha diagnosis n :
  length (search_by_symptoms_and_dosha df symptoms dosha diagnosis n) ≤ length df
  ∧ (df ≠ [] → (1 ≤ n)%Z →
     search_by_symptoms_and_dosha df symptoms dosha diagnosis n ≠ []).
Proof.
  rewrite dosha_search_cases.
  destruct (dosha_top_indices_cases df symptoms dosha diagnosis n)
    as [[Hne ->]|(_ & -> & _)]; split.
  - rewrite !length_fmap. etrans; [apply length_filter|].
    rewrite dosha_slice_length, length_slice_to. case_match; lia.
  - intros _ _ Hnil. apply fmap_nil_inv, fmap_nil_inv in Hnil. done.
  - rewrite length_fmap. unfold head_index.
    rewrite length_seq, length_slice_to. case_match; lia.
  - intros Hdf Hn Hnil. apply fmap_nil_inv in Hnil.
    apply (f_equal length) in Hnil. unfold head_index in Hnil.
    rewrite length_seq, length_slice_to in Hnil.
    rewrite (proj2 (Z.leb_le 0 n)) in Hnil by lia.
    destruct df; [done|]. simpl in Hnil. lia.
Qed.

Lemma dosha_search_never_empty_witness :
  search_by_symptoms_and_dosha [acid_reflux] ["cough"] "Kapha" "Asthma" 1 ≠ [].
Proof.
  apply (dosha_search_never_empty [acid_reflux] ["cough"] "Kapha" "Asthma" 1);
    [done|lia].
Defined.

(** X5.  Best match first: the first result of the structured search is a
    record whose score no record of the corpus exceeds. *)
Theorem dosha_search_best_first df symptoms dosha diagnosis n idx rest :
  dosha_top_indices df symptoms dosha diagnosis n = idx :: rest →
  search_by_symptoms_and_dosha df symptoms dosha diagnosis n
  = case_at dosha_metadata df idx :: (case_at dosha_metadata df <$> rest)
  ∧ ∀ j, j < length df →
      (dosha_score df symptoms dosha diagnosis j
       ≤ dosha_score df symptoms dosha diagnosis idx)%Z.
Proof.
  intros Htop. split; [by rewrite dosha_search_cases, Htop|].
  intros j Hj.
  destruct (dosha_top_indices_cases df symptoms dosha diagnosis n)
    as [[Hne Heq]|(_ & Heq & Hz)]; rewrite Htop in Heq.
  - destruct (filter _ (Py.slice_to _ n)) as [|[s i] k] eqn:Hf; [done|].
    injection Heq as -> _.
    pose proof (dosha_ranking_entries df symptoms dosha diagnosis n) as Hent.
    rewrite Hf in Hent. apply Forall_cons in Hent as [[[Hs _] _] _].
    simpl in Hs.
    pose proof (ranking_head_max _ n _ _
                  (dosha_sorted_ranked df symptoms dosha diagnosis) Hf
                  _ (dosha_sorted_elem df symptoms dosha diagnosis j Hj)) as H.
    simpl in H. lia.
  - destruct Hz as [Hnil|Hz]; [by rewrite Hnil in Heq|].
    assert (idx < length df) as Hidx.
    { pose proof (head_index_lt df n) as H. rewrite <-Heq in H.
      by apply Forall_cons in H as [? _]. }
    rewrite !Hz by done. done.
Qed.

Lemma dosha_search_best_first_witness :
  (dosha_score [acid_reflux; acid_reflux_seven] ["heartburn"] "Pitta"
     "Acid Reflux" 1
   ≤ dosha_score [acid_reflux; acid_reflux_seven] ["heartburn"] "Pitta"
       "Acid Reflux" 0)%Z.
Proof.
  apply (dosha_search_best_first [acid_reflux; acid_reflux_seven]
           ["heartburn"] "Pitta" "Acid Reflux" 5 0 [1]);
    [compute_done|simpl; lia].
Defined.

Lemma hits_elem text sl s :
  s ∈ sl → Py.str_in s (Py.lower text) = true → (1 ≤ hits text sl)%Z.
Proof.
  intros Hs Hin. unfold hits.
  assert (s ∈ filter (λ s, Py.str_in s (Py.lower text) = true) sl) as Hf
    by by apply list_elem_of_filter.
  destruct (filter _ sl); [by apply elem_of_nil in Hf|]. simpl. lia.
Qed.

(** X6.  An empty string among the query symptoms occurs in every text,
    also in the text of a cell that is absent or NaN: it adds 3 + 1 + 1 to
    every record, so every record of the corpus scores at least 5. *)
Theorem empty_symptom_scores_everywhere df symptoms dosha diagnosis idx :
  EmptyString ∈ symptoms →
  (5 ≤ dosha_score df symptoms dosha diagnosis idx)%Z.
Proof.
  intros Hin. unfold dosha_score. rewrite row_score_parts.
  assert (EmptyString ∈ Py.lower <$> symptoms) as Hl
    by by apply (list_elem_of_fmap_2 Py.lower) in Hin.
  pose proof (λ text, hits_elem text _ _ Hl (str_in_empty _)) as H.
  pose proof (H (str_of_cell (row_get_default (row_at df idx) "Symptoms"
                               (Str EmptyString)))).
  pose proof (H (str_of_cell (row_get_default (row_at df idx) "Ayurvedic_Herbs"
                               (Str EmptyString)))).
  pose proof (H (str_of_cell (row_get_default (row_at df idx) "Formulation"
                               (Str EmptyString)))).
  unfold constitution_points, disease_points. repeat case_match; lia.
Qed.

Lemma empty_symptom_scores_everywhere_witness :
  (5 ≤ dosha_score [[("Disease", NaN)]] ["cough"; EmptyString] "Kapha" "Asthma" 7)%Z.
Proof.
  apply (empty_symptom_scores_everywhere [[("Disease", NaN)]]
           ["cough"; EmptyString] "Kapha" "Asthma" 7).
  right. left.
Defined.

(** X7.  A Symptoms cell without a value is read as the text of NaN: a
    query symptom that, in lowercase, occurs in "nan" matches such a record
    and adds 3 to its score. *)
Theorem nan_symptoms_cell_matches df symptoms dosha diagnosis idx symptom :
  row_get (row_at df idx) "Symptoms" = Some NaN →
  symptom ∈ symptoms →
  Py.str_in (Py.lower symptom) "nan" = true →
  (3 ≤ dosha_score df symptoms dosha diagnosis idx)%Z.
Proof.
  intros Hcell Hin Hnan. unfold dosha_score. rewrite row_score_parts.
  unfold row_get_default at 1. rewrite Hcell. simpl default.
  assert (Py.lower symptom ∈ Py.lower <$> symptoms) as Hl
    by by apply list_elem_of_fmap_2.
  pose proof (hits_elem (str_of_cell NaN) _ _ Hl Hnan).
  pose proof (hits_bounds (str_of_cell (row_get_default (row_at df idx) "Ayurvedic_Herbs"
                                          (Str EmptyString))) (Py.lower <$> symptoms)).
  pose proof (hits_bounds (str_of_cell (row_get_default (row_at df idx) "Formulation"
                                          (Str EmptyString))) (Py.lower <$> symptoms)).
  unfold constitution_points, disease_points. repeat case_match; lia.
Qed.

Lemma nan_symptoms_cell_matches_witness :
  (3 ≤ dosha_score [[("Disease", Str "Fever"); ("Symptoms", NaN)]]
         ["Anaemia"; "An"] "Kapha" "Asthma" 0)%Z.
Proof.
  apply (nan_symptoms_cell_matches _ _ _ _ 0 "An"); [done| |done].
  right. left.
Defined.

(** ** The free-text search, any query *)

Section text_facts.

Lemma count_from_pos sub s :
  sub ≠ EmptyString → Py.str_in sub s = true → 0 < Py.count_from sub 0 s.
Proof.
  intros Hsub. induction s as [|a s IH]; simpl.
  - destruct sub; [done|]. simpl. done.
  - destruct (Py.startswith sub (String a s)) eqn:Hst; simpl; [lia|].
    intros Hin. by apply IH.
Qed.

Lemma count_pos text sub : Py.str_in sub text = true → 0 < Py.count text sub.
Proof.
  intros Hin. unfold Py.count. case_decide; [lia|]. by apply count_from_pos.
Qed.

Lemma text_score_pos query_lower row :
  (0 < text_score query_lower row)%Z ↔ row_holds query_lower row.
Proof.
  unfold text_score, row_holds.
  match goal with
  | |- (_ < foldl ?F _ _)%Z ↔ _ =>
      cut (∀ acc, (acc ≤ foldl F acc row)%Z
                  ∧ ((acc < foldl F acc row)%Z
                     ↔ Exists (λ p, cell_holds query_lower p.2) row))
  end.
  { intros H. apply H. }
  induction row as [|[col [|t]] row IH]; intros acc; simpl.
  - split; [lia|]. split; [lia|]. by intros ?%Exists_nil.
  - destruct (IH acc) as [Hle Hiff]. split; [done|].
    rewrite Exists_cons. simpl. tauto.
  - rewrite Exists_cons. simpl.
    destruct (Py.str_in query_lower (Py.lower t)) eqn:Hin.
    + pose proof (count_pos _ _ Hin).
      destruct (IH (acc + Z.of_nat (Py.count (Py.lower t) query_lower))%Z)
        as [Hle _].
      split; [lia|]. split; [by left|lia].
    + destruct (IH acc) as [Hle Hiff]. split; [done|].
      rewrite Hiff. split; [by right|]. by intros [|].
Qed.

Context (df : DataFrame) (query : string).

Lemma text_scores_seq :
  text_scores df query
  = filter (λ x : Z * nat, (0 < x.1)%Z)
      ((λ idx, (text_score_at df query idx, idx)) <$> seq 0 (length df)).
Proof.
  unfold text_scores, iterrows. rewrite fmap_imap.
  by rewrite (imap_seq_lookup _ []).
Qed.

Lemma text_sorted_ranked : StronglySorted ranked (sort_desc (text_scores df query)).
Proof.
  apply sort_desc_ranked. rewrite text_scores_seq.
  eapply StronglySorted_sublist; [apply sublist_filter|].
  apply StronglySorted_fmap, StronglySorted_seq. simpl. lia.
Qed.

Lemma text_sorted_entries :
  Forall (λ x, x.1 = text_score_at df query x.2 ∧ x.2 < length df ∧ (0 < x.1)%Z)
    (sort_desc (text_scores df query)).
Proof.
  rewrite sort_desc_Permutation, text_scores_seq.
  apply Forall_forall. intros x [Hpos Hx]%list_elem_of_filter.
  apply list_elem_of_fmap in Hx as (i & -> & [_ Hi]%elem_of_seq). simpl in *. lia.
Qed.

Lemma text_sorted_elem idx :
  idx < length df → (0 < text_score_at df query idx)%Z →
  (text_score_at df query idx, idx) ∈ sort_desc (text_scores df query).
Proof.
  intros Hi Hpos. rewrite sort_desc_Permutation, text_scores_seq.
  apply list_elem_of_filter. split; [done|].
  apply (list_elem_of_fmap_2 (λ idx, (text_score_at df query idx, idx))), elem_of_seq.
  lia.
Qed.

Lemma text_slice_entries n :
  Forall (λ x, x.1 = text_score_at df query x.2 ∧ x.2 < length df ∧ (0 < x.1)%Z)
    (Py.slice_to (sort_desc (text_scores df query)) n).
Proof.
  eapply Forall_sublist_of; [apply sublist_slice_to|apply text_sorted_entries].
Qed.

Lemma text_top_indices_ranked n :
  StronglySorted
    (λ i j, ranked (text_score_at df query i, i) (text_score_at df query j, j))
    (text_top_indices df query n).
Proof.
  unfold text_top_indices. apply StronglySorted_fmap.
  eapply (StronglySorted_Forall_impl ranked); [|apply text_slice_entries|].
  - intros [s i] [t j]; simpl. by intros (-> & _) (-> & _).
  - eapply StronglySorted_sublist; [apply sublist_slice_to|].
    apply text_sorted_ranked.
Qed.

End text_facts.

(** X8.  [search_by_text] returns matching records only, and has no
    fallback: every result is the case of a record with a cell that holds
    the query (case ignored); when no record holds the query the result is
    empty; and with [top_n] at least the size of the corpus every record
    that holds the query is returned. *)
Theorem text_search_matches_only df query n :
  let idxs := text_top_indices df query n in
  search_by_text df query n = case_at text_metadata df <$> idxs
  ∧ Forall (λ idx, idx < length df
                   ∧ row_holds (Py.lower query) (row_at df idx)) idxs
  ∧ ((∀ row, row ∈ df → ¬ row_holds (Py.lower query) row) →
     search_by_text df query n = [])
  ∧ ((Z.of_nat (length df) ≤ n)%Z →
     ∀ idx row, df !! idx = Some row → row_holds (Py.lower query) row →
       idx ∈ idxs).
Proof.
  intros idxs. split; [apply text_search_cases|].
  assert (Forall (λ idx, idx < length df
                   ∧ row_holds (Py.lower query) (row_at df idx)) idxs) as Hall.
  { unfold idxs, text_top_indices. apply Forall_fmap.
    eapply Forall_sublist_of; [apply sublist_slice_to|].
    eapply Forall_impl; [apply text_sorted_entries|].
    intros [s i]; simpl. intros (-> & Hi & Hpos). split; [done|].
    by apply text_score_pos. }
  split; [done|]. split.
  - intros Hnone. rewrite text_search_cases. fold idxs.
    destruct idxs as [|i k]; [done|].
    apply Forall_cons in Hall as [[Hi Hrow] _].
    destruct (lookup_lt_is_Some_2 df i Hi) as [row Hlook].
    unfold row_at in Hrow. rewrite Hlook in Hrow. simpl in Hrow.
    destruct (Hnone row); [|done]. by eapply list_elem_of_lookup_2.
  - intros Hn idx row Hlook Hrow. unfold idxs, text_top_indices.
    rewrite slice_to_all.
    + apply (list_elem_of_fmap_2' snd _ (text_score_at df query idx, idx)); [|done].
      apply text_sorted_elem; [by eapply lookup_lt_Some|].
      apply text_score_pos. unfold row_at. by rewrite Hlook.
    + rewrite sort_desc_length, text_scores_seq.
      pose proof (length_filter (λ x : Z * nat, (0 < x.1)%Z)
        ((λ idx, (text_score_at df query idx, idx)) <$> seq 0 (length df))) as Hle.
      rewrite length_fmap, length_seq in Hle. lia.
Qed.

Lemma text_search_matches_only_witness :
  search_by_text [acid_reflux; acid_reflux_seven] "migraine" 5 = []
  ∧ 1 ∈ text_top_indices [acid_reflux; acid_reflux_seven] "REFLUX" 2.
Proof.
  destruct (text_search_matches_only [acid_reflux; acid_reflux_seven] "migraine" 5)
    as (_ & _ & Hnone & _).
  destruct (text_search_matches_only [acid_reflux; acid_reflux_seven] "REFLUX" 2)
    as (_ & _ & _ & Hall).
  split.
  - apply Hnone. intros row Hrow.
    repeat (apply elem_of_cons in Hrow as [->|Hrow]; [compute_done|]).
    by apply elem_of_nil in Hrow.
  - apply (Hall ltac:(simpl; lia) 1 acid_reflux_seven eq_refl).
    apply Exists_cons_hd. reflexivity.
Defined.

(** X9.  The results of [search_by_text] are ordered by non-increasing
    score, equal scores in ascending original index, for every [top_n];
    every score is positive; and there are at most [top_n] results when
    [top_n ≥ 0]. *)
Theorem text_search_ranked df query n :
  let idxs := text_top_indices df query n in
  StronglySorted
    (λ i j, ranked (text_score_at df query i, i) (text_score_at df query j, j)) idxs
  ∧ Forall (λ idx, (0 < text_score_at df query idx)%Z) idxs
  ∧ length (search_by_text df query n) ≤ length df
  ∧ ((0 ≤ n)%Z → length (search_by_text df query n) ≤ Z.to_nat n).
Proof.
  intros idxs.
  pose proof (text_slice_entries df query n) as Hent.
  assert (length idxs ≤ length df) as Hlen.
  { unfold idxs, text_top_indices. rewrite length_fmap.
    etrans; [apply sublist_length, sublist_slice_to|].
    rewrite sort_desc_length, text_scores_seq.
    etrans; [apply length_filter|]. by rewrite length_fmap, length_seq. }
  split; [|split; [|split]].
  - apply text_top_indices_ranked.
  - unfold idxs, text_top_indices. apply Forall_fmap.
    eapply Forall_impl; [exact Hent|]. intros [s i]; simpl. by intros (-> & _ & ?).
  - by rewrite text_search_cases, length_fmap.
  - intros Hn. rewrite text_search_cases, length_fmap.
    unfold text_top_indices. rewrite length_fmap, length_slice_to.
    rewrite (proj2 (Z.leb_le 0 n)) by done. lia.
Qed.

Lemma text_search_ranked_witness :
  length (search_by_text [acid_reflux; acid_reflux_seven] "pitta" 1) ≤ Z.to_nat 1.
Proof.
  destruct (text_search_ranked [acid_reflux; acid_reflux_seven] "pitta" 1)
    as (_ & _ & _ & H).
  apply H. lia.
Defined.

(** X10.  No record is returned twice: the ids of the results of either
    search are pairwise distinct. *)
Theorem search_ids_distinct df symptoms dosha diagnosis query n :
  NoDup (id <$> search_by_symptoms_and_dosha df symptoms dosha diagnosis n)
  ∧ NoDup (id <$> search_by_text df query n).
Proof.
  split.
  - rewrite dosha_search_cases, <-list_fmap_compose.
    apply (NoDup_fmap_2 (pretty : nat → string)).
    eapply StronglySorted_irrefl_NoDup; [|apply dosha_top_indices_ranked].
    intros i. apply ranked_idx_irrefl.
  - rewrite text_search_cases, <-list_fmap_compose.
    apply (NoDup_fmap_2 (pretty : nat → string)).
    eapply StronglySorted_irrefl_NoDup; [|apply text_top_indices_ranked].
    intros i. apply (ranked_idx_irrefl (text_score_at df query)).
Qed.

(** ** The statistics *)

Lemma value_counts_lookup cells c :
  value_counts cells !! c
  = (let k := length (filter (λ v, v = Str c) cells) in
     if decide (k = 0) then None else Some k).
Proof.
  induction cells as [|[|s] cells IH]; simpl.
  - done.
  - rewrite IH, filter_cons_False by done. done.
  - destruct (decide (s = c)) as [->|Hne].
    + rewrite filter_cons_True, lookup_insert_eq, IH by done. simpl.
      by destruct (decide (length (filter (λ v, v = Str c) cells) = 0)) as [->|].
    + rewrite filter_cons_False, lookup_insert_ne, IH by congruence. done.
Qed.

Lemma constitution_cells_length (df : DataFrame) c :
  length (filter (λ v, v = Str c)
            ((λ row, row_get_default row "Constitution" NaN) <$> df))
  = length (filter (λ row, row_get row "Constitution" = Some (Str c)) df).
Proof.
  induction df as [|row df IH]; [done|].
  assert (row_get_default row "Constitution" NaN = Str c
          ↔ row_get row "Constitution" = Some (Str c)) as Hiff.
  { unfold row_get_default.
    destruct (row_get row "Constitution") as [[|s]|]; simpl; split; congruence. }
  rewrite fmap_cons, !filter_cons.
  destruct (decide (row_get_default row "Constitution" NaN = Str c)),
    (decide (row_get row "Constitution" = Some (Str c)));
    simpl; rewrite ?IH; try done; exfalso; tauto.
Qed.

(** X11.  For a loaded frame with a Constitution column,
    [get_collection_stats] reports the number of rows and, under every
    constitution text, the number of rows whose Constitution cell is that
    text; rows without a value are not counted, and a text that occurs in
    no row is not a key.  Without the column the mapping is empty. *)
Theorem collection_stats_counts frame_columns df c :
  let stats := get_collection_stats frame_columns (Some df) in
  let rows_with := length (filter (λ row, row_get row "Constitution" = Some (Str c)) df) in
  total_records stats = length df
  ∧ ("Constitution" ∈ frame_columns →
     ∃ counts, constitution_types stats = Some counts
       ∧ counts !! c = (if decide (rows_with = 0) then None else Some rows_with)
       ∧ counts !! c ≠ Some 0)
  ∧ ("Constitution" ∉ frame_columns → constitution_types stats = Some ∅).
Proof.
  intros stats rows_with. split; [done|]. split.
  - intros Hcol. eexists. split.
    { unfold stats, get_collection_stats. simpl. by rewrite bool_decide_eq_true_2. }
    assert (length (filter (λ v, v = Str c)
                      ((λ row, row_get_default row "Constitution" NaN) <$> df))
            = rows_with) as Hk.
    { unfold rows_with. apply constitution_cells_length. }
    rewrite value_counts_lookup. simpl. rewrite Hk.
    split; [done|]. by case_decide; [|intros [= ?]].
  - intros Hcol. unfold stats, get_collection_stats. simpl.
    by rewrite bool_decide_eq_false_2.
Qed.

Lemma collection_stats_counts_witness :
  ∃ counts,
    constitution_types
      (get_collection_stats ["Disease"; "Symptoms"; "Constitution"]
         (Some [acid_reflux; acid_reflux; [("Disease", Str "Cold"); ("Symptoms", NaN);
                                          ("Constitution", NaN)]])) = Some counts
    ∧ counts !! "Pitta" = Some 2.
Proof.
  destruct (collection_stats_counts ["Disease"; "Symptoms"; "Constitution"]
              [acid_reflux; acid_reflux; [("Disease", Str "Cold"); ("Symptoms", NaN);
                                         ("Constitution", NaN)]] "Pitta")
    as (_ & H & _).
  destruct H as (counts & Hc & Hl & _); [compute_done|].
  exists counts. split; [exact Hc|]. rewrite Hl. reflexivity.
Defined.

(** * Further properties of the prescription generator *)

(** X12.  [generate_prescription] has two outcomes and no third: the
    success outcome exactly when the generator returned a non-empty text,
    with that text as raw response, embedded as it is in the report and
    parsed into the document, and the number of retrieved cases as count;
    the fallback outcome otherwise, with the error set, no raw response and
    count 0.  On both the document carries the patient as given, the report
    names the patient, and the clock is read twice. *)
Theorem generate_prescription_outcomes model clock patient similar_cases k :
  let outcome := model (_create_precise_prompt patient similar_cases) in
  let result := (generate_prescription model clock patient similar_cases k).1 in
  (success result = true ↔ ∃ t, outcome = Returns t ∧ t ≠ EmptyString)
  ∧ (∀ t, outcome = Returns t → t ≠ EmptyString →
       raw_response result = Some t ∧ error result = None
       ∧ similar_cases_count result = length similar_cases
       ∧ infix_of t (display_format result)
       ∧ prescription (json_format result)
         = Parsed (medicines (parse t)) (diet_recommendations (parse t))
                  (lifestyle_recommendations (parse t)))
  ∧ (success result = false →
       raw_response result = None
       ∧ error result = Some "Using fallback prescription"
       ∧ similar_cases_count result = 0)
  ∧ patient_info (json_format result) = patient_group patient
  ∧ Py.str_in (name patient) (display_format result) = true
  ∧ (generate_prescription model clock patient similar_cases k).2 = S (S k).
Proof.
  intros outcome result. unfold result, generate_prescription. fold outcome.
  destruct outcome as [|[|c t]] eqn:Hout; simpl;
    (split; [split; [try done|intros (t' & [= <-] & ?); done]|]);
    try (by eexists; split; [reflexivity|]);
    (split; [intros t' [= <-] Hne; try done|]);
    try (repeat split; try done;
         try apply (display_contains_name clock _ patient k);
         apply infix_of_app_l, infix_of_app_r, infix_of_refl).
  all: repeat split; try done;
    try apply (display_contains_name clock (fallback_text patient) patient k).
Qed.

Lemma generate_prescription_outcomes_witness :
  raw_response
    (generate_prescription (λ _, Returns "1. Ayurvedic Medicines:
• Triphala") ticking asha [] 0).1
  = Some "1. Ayurvedic Medicines:
• Triphala".
Proof.
  apply (generate_prescription_outcomes (λ _, Returns "1. Ayurvedic Medicines:
• Triphala") ticking asha [] 0); done.
Defined.

Section prompt_facts.

Lemma slice_to_3 {A} (l : list A) : Py.slice_to l 3 = take 3 l.
Proof. done. Qed.

(** The context block, from the metadata of the cases alone. *)
Lemma context_from_metadata (cases : list RetrievedCase) init :
  foldl (λ acc '(i, case), acc +:+ prompt_case (S i) case) init
    (imap (λ i case, (i, case)) cases)
  = foldl (λ acc '(i, md),
             acc +:+ prompt_case (S i) {| id := EmptyString; text := EmptyString;
                                          metadata := md |}) init
      (imap (λ i md, (i, md)) (metadata <$> cases)).
Proof.
  rewrite imap_fmap.
  assert (∀ (f : nat → nat),
    foldl (λ acc '(i, case), acc +:+ prompt_case (S i) case) init
      (imap (λ i case, (f i, case)) cases)
    = foldl (λ acc '(i, md),
               acc +:+ prompt_case (S i) {| id := EmptyString; text := EmptyString;
                                            metadata := md |}) init
        (imap (λ i, (λ md, (f i, md)) ∘ metadata) cases)) as H;
    [|apply (H (λ i, i))].
  revert init. induction cases as [|case cases IH]; intros init f; [done|].
  rewrite !imap_cons. simpl. apply (IH _ (f ∘ S)).
Qed.

End prompt_facts.

(** X13.  The prompt looks at the metadata of the first three retrieved
    cases and at nothing else of the retrieval result: two results whose
    first three cases carry the same metadata give the same prompt. *)
Theorem prompt_uses_first_three_cases patient cases cases' :
  metadata <$> take 3 cases = metadata <$> take 3 cases' →
  _create_precise_prompt patient cases = _create_precise_prompt patient cases'.
Proof.
  intros H. unfold _create_precise_prompt.
  rewrite !slice_to_3, !context_from_metadata, H. done.
Qed.

Lemma prompt_uses_first_three_cases_witness :
  _create_precise_prompt asha
    (search_by_symptoms_and_dosha [acid_reflux; acid_reflux; acid_reflux; acid_reflux]
       ["heartburn"] "Pitta" "Acid Reflux" 4)
  = _create_precise_prompt asha
      (search_by_symptoms_and_dosha [acid_reflux; acid_reflux; acid_reflux]
         ["heartburn"] "Pitta" "Acid Reflux" 3).
Proof. apply prompt_uses_first_three_cases. compute_done. Defined.

Section parser_growth.
Implicit Types (st : ParserState) (line : string).

Lemma strip_trimmed s : trimmed (Py.strip s).
Proof. apply strip_idemp. Qed.

Lemma store_meal_trimmed key line (diet : gmap string string) :
  map_Forall (λ _ v, trimmed v) diet →
  map_Forall (λ _ v, trimmed v) (store_meal key line diet).
Proof.
  intros H. unfold store_meal. repeat case_match; try done.
  apply map_Forall_insert_2; [apply strip_trimmed|done].
Qed.

Lemma store_meal_dom_mono key line (diet : gmap string string) :
  dom diet ⊆ dom (store_meal key line diet).
Proof.
  unfold store_meal. repeat case_match; try done.
  rewrite dom_insert. apply union_subseteq_r.
Qed.

(** What one line does to the collections. *)
Lemma parse_line_growth st line :
  let st' := parse_line st line in
  medicines st `prefix_of` medicines st'
  ∧ lifestyle_recommendations st `prefix_of` lifestyle_recommendations st'
  ∧ dom (diet_recommendations st) ⊆ dom (diet_recommendations st')
  ∧ length (medicines st') + length (lifestyle_recommendations st')
    ≤ length (medicines st) + length (lifestyle_recommendations st)
      + length (bullet_lines [line])
  ∧ (Forall trimmed (medicines st) → Forall trimmed (medicines st'))
  ∧ (Forall trimmed (lifestyle_recommendations st) →
     Forall trimmed (lifestyle_recommendations st'))
  ∧ (map_Forall (λ _ v, trimmed v) (diet_recommendations st) →
     map_Forall (λ _ v, trimmed v) (diet_recommendations st')).
Proof.
  unfold parse_line, bullet_lines. rewrite filter_cons, filter_nil.
  destruct (Py.startswith bullet (Py.strip line)) eqn:Hb; simpl;
    repeat case_match; simpl;
    repeat split; try done; try lia;
    try (by apply prefix_app_r);
    try apply store_meal_dom_mono;
    try (rewrite length_app; simpl; lia);
    try (intros ?; apply Forall_app; split; [done|];
         apply Forall_singleton, strip_trimmed);
    try apply store_meal_trimmed.
Qed.

Lemma bullet_lines_cons line lines :
  length (bullet_lines (line :: lines))
  = length (bullet_lines [line]) + length (bullet_lines lines).
Proof. unfold bullet_lines. rewrite !filter_cons, filter_nil. by case_decide. Qed.

Lemma parse_lines_growth st lines :
  let st' := parse_lines st lines in
  medicines st `prefix_of` medicines st'
  ∧ lifestyle_recommendations st `prefix_of` lifestyle_recommendations st'
  ∧ dom (diet_recommendations st) ⊆ dom (diet_recommendations st')
  ∧ length (medicines st') + length (lifestyle_recommendations st')
    ≤ length (medicines st) + length (lifestyle_recommendations st)
      + length (bullet_lines lines)
  ∧ (Forall trimmed (medicines st) → Forall trimmed (medicines st'))
  ∧ (Forall trimmed (lifestyle_recommendations st) →
     Forall trimmed (lifestyle_recommendations st'))
  ∧ (map_Forall (λ _ v, trimmed v) (diet_recommendations st) →
     map_Forall (λ _ v, trimmed v) (diet_recommendations st')).
Proof.
  revert st. induction lines as [|line lines IH]; intros st.
  { simpl. repeat split; try done. unfold bullet_lines. simpl. lia. }
  rewrite parse_lines_cons. simpl.
  destruct (parse_line_growth st line) as (Hm & Hl & Hd & Hn & Htm & Htl & Htd).
  destruct (IH (parse_line st line)) as (Hm' & Hl' & Hd' & Hn' & Htm' & Htl' & Htd').
  rewrite bullet_lines_cons. simpl in *.
  repeat split; try (etrans; done); try lia; auto.
Qed.

End parser_growth.

Lemma split_app c a b :
  Py.split c (a +:+ String c b) = Py.split c a ++ Py.split c b.
Proof.
  induction a as [|x a IH].
  { rewrite str_app_nil_l, split_cons_sep. done. }
  rewrite str_app_cons. simpl Py.split. rewrite IH.
  case_decide; [done|].
  destruct (Py.split c a) as [|h t] eqn:Ha; [by destruct (split_nonempty c a)|].
  done.
Qed.

Lemma parse_lines_app st lines lines' :
  parse_lines st (lines ++ lines') = parse_lines (parse_lines st lines) lines'.
Proof. apply foldl_app. Qed.

(** X14.  The parser never resets what it has collected: when a text is
    continued on further lines, the medicines and the lifestyle entries
    parsed from the shorter text are a prefix of those parsed from the
    longer one, and every meal key of the shorter text is a key of the
    longer one. *)
Theorem parser_never_resets response_text more :
  let before := parse response_text in
  let after := parse (response_text +:+ newline +:+ more) in
  medicines before `prefix_of` medicines after
  ∧ lifestyle_recommendations before `prefix_of` lifestyle_recommendations after
  ∧ dom (diet_recommendations before) ⊆ dom (diet_recommendations after).
Proof.
  intros before after. unfold after, before, parse, newline.
  rewrite str_app_cons, str_app_nil_l, split_app, parse_lines_app.
  destruct (parse_lines_growth (parse_lines initial_state (Py.split LF response_text))
              (Py.split LF more)) as (Hm & Hl & Hd & _).
  done.
Qed.

(** X15.  The parser collects at most one entry per bullet line: the
    medicines and the lifestyle entries together are no more than the lines
    of the text that start, once trimmed, with the bullet; and the diet
    mapping has at most four entries. *)
Theorem parser_collects_at_most_bullet_lines response_text :
  length (medicines (parse response_text))
  + length (lifestyle_recommendations (parse response_text))
  ≤ length (bullet_lines (Py.split LF response_text))
  ∧ size (diet_recommendations (parse response_text)) ≤ 4.
Proof.
  split.
  - destruct (parse_lines_growth initial_state (Py.split LF response_text))
      as (_ & _ & _ & Hn & _).
    exact Hn.
  - rewrite <-size_dom.
    etrans; [apply subseteq_size, (parse_lines_diet_dom initial_state); done|].
    done.
Qed.

(** X16.  Every entry the parser collects is trimmed: no medicine, no
    lifestyle entry and no diet value starts or ends with whitespace. *)
Theorem parsed_entries_trimmed response_text :
  Forall trimmed (medicines (parse response_text))
  ∧ Forall trimmed (lifestyle_recommendations (parse response_text))
  ∧ map_Forall (λ _ v, trimmed v) (diet_recommendations (parse response_text)).
Proof.
  destruct (parse_lines_growth initial_state (Py.split LF response_text))
    as (_ & _ & _ & _ & Hm & Hl & Hd).
  split; [by apply Hm|]. split; [by apply Hl|].
  apply Hd. apply map_Forall_empty.
Qed.

(** * Properties of the request handlers *)

Section handler_facts.
Context (df : DataFrame) (model : Generator) (clock : Clock)
        (str_of_exception : Exception → string)
        (patient_request : PatientRequest.t) (k : nat).

Local Abbreviation patient := (Main.to_patient_info patient_request).
Local Abbreviation outcome := (model (handler_prompt df patient)).

(** X17.  When the generator fails (raises or returns the empty text) on
    an initialised system, [/generate-medication] and [/generate-diet]
    drop the fallback prescription and answer with [success] false, a
    fixed error message and no data, while [/generate-prescription]
    answers with [success] false but carries the fallback report and
    document, a count of 0 and no error message. *)
Theorem handlers_on_generator_failure :
  outcome = Raises ∨ outcome = Returns EmptyString →
  (Main.generate_medication_and_lifestyle (Some df) (Some model) clock
     str_of_exception patient_request k).1
  = {| MedicationResponse.success := false;
       MedicationResponse.patient_info := None;
       MedicationResponse.ayurvedic_medicines := None;
       MedicationResponse.lifestyle_recommendations := None;
       MedicationResponse.similar_cases_count := None;
       MedicationResponse.error_message :=
         Some "Failed to generate medication recommendations" |}
  ∧ (Main.generate_diet_recommendations (Some df) (Some model) clock
       str_of_exception patient_request k).1
    = {| DietResponse.success := false;
         DietResponse.patient_info := None;
         DietResponse.diet_recommendations := None;
         DietResponse.diet_chart := None;
         DietResponse.similar_cases_count := None;
         DietResponse.error_message :=
           Some "Failed to generate diet recommendations" |}
  ∧ (Main.generate_prescription (Some df) (Some model) clock
       str_of_exception patient_request k).1
    = {| PrescriptionResponse.success := false;
         PrescriptionResponse.prescription :=
           Some (_format_display_output clock (fallback_text patient) patient k).1;
         PrescriptionResponse.patient_info := Some patient;
         PrescriptionResponse.similar_cases_count := Some 0;
         PrescriptionResponse.json_format :=
           Some (_create_json_output clock (fallback_text patient) patient (S k)).1;
         PrescriptionResponse.error_message := None |}.
Proof.
  intros Hout.
  unfold Main.generate_medication_and_lifestyle, Main.generate_diet_recommendations,
    Main.generate_prescription, generate_prescription.
  fold (handler_cases df patient). fold (handler_prompt df patient).
  by destruct Hout as [-> | ->].
Qed.

(** X18.  When the generator returns a non-empty text on an initialised
    system, the three handlers answer with [success] true and with what the
    parser read from that text: the medicines and lifestyle entries, the
    diet mapping with its chart, the report that embeds the text; the count
    of similar cases is that of the retrieval, at most 5 and at most the
    size of the corpus. *)
Theorem handlers_on_generator_success response_text :
  outcome = Returns response_text →
  response_text ≠ EmptyString →
  let parsed := parse response_text in
  let count := length (handler_cases df patient) in
  count ≤ 5 ∧ count ≤ length df
  ∧ (Main.generate_medication_and_lifestyle (Some df) (Some model) clock
       str_of_exception patient_request k).1
    = {| MedicationResponse.success := true;
         MedicationResponse.patient_info := Some patient;
         MedicationResponse.ayurvedic_medicines := Some (medicines parsed);
         MedicationResponse.lifestyle_recommendations :=
           Some (lifestyle_recommendations parsed);
         MedicationResponse.similar_cases_count := Some count;
         MedicationResponse.error_message := None |}
  ∧ (Main.generate_diet_recommendations (Some df) (Some model) clock
       str_of_exception patient_request k).1
    = {| DietResponse.success := true;
         DietResponse.patient_info := Some patient;
         DietResponse.diet_recommendations := Some (diet_recommendations parsed);
         DietResponse.diet_chart := Some (diet_chart (diet_recommendations parsed));
         DietResponse.similar_cases_count := Some count;
         DietResponse.error_message := None |}
  ∧ (Main.generate_prescription (Some df) (Some model) clock
       str_of_exception patient_request k).1
    = {| PrescriptionResponse.success := true;
         PrescriptionResponse.prescription :=
           Some (_format_display_output clock response_text patient k).1;
         PrescriptionResponse.patient_info := Some patient;
         PrescriptionResponse.similar_cases_count := Some count;
         PrescriptionResponse.json_format :=
           Some (_create_json_output clock response_text patient (S k)).1;
         PrescriptionResponse.error_message := None |}.
Proof.
  intros Hout Hne parsed count.
  assert (Py.truthy response_text = true) as Ht by by destruct response_text.
  split; [|split].
  - unfold count, handler_cases. rewrite dosha_search_cases, length_fmap.
    apply (dosha_top_indices_length df _ _ _ 5). lia.
  - unfold count, handler_cases. rewrite dosha_search_cases, length_fmap.
    pose proof (dosha_top_indices_lt df (symptoms patient) (constitution_dosha patient)
                  (doctor_diagnosis patient) 5) as Hlt.
    pose proof (dosha_top_indices_ranked df (symptoms patient) (constitution_dosha patient)
                  (doctor_diagnosis patient) 5) as Hr.
    apply StronglySorted_irrefl_NoDup in Hr; [|intros i; apply ranked_idx_irrefl].
    trans (length (seq 0 (length df))); [|by rewrite length_seq].
    apply submseteq_length, NoDup_submseteq; [done|].
    intros i Hi. apply elem_of_seq. rewrite Forall_forall in Hlt.
    specialize (Hlt i Hi). lia.
  - unfold Main.generate_medication_and_lifestyle, Main.generate_diet_recommendations,
      Main.generate_prescription, generate_prescription.
    fold (handler_cases df patient). fold (handler_prompt df patient).
    rewrite Hout, Ht. done.
Qed.

End handler_facts.

(** X20.  [/search-cases] never succeeds: the handler calls a method
    [search_similar_cases] that the processor does not have, so whatever
    the state of the system and the body of the request, the answer has
    [success] false, an error message and no results. *)
Theorem search_cases_never_succeeds rag_processor str_of_exception query :
  let response := Main.search_similar_cases rag_processor str_of_exception query in
  SearchResponse.success response = false
  ∧ SearchResponse.similar_cases response = None
  ∧ SearchResponse.results_count response = None
  ∧ ∃ e, SearchResponse.error_message response = Some (str_of_exception e)
         ∧ (e = HTTPException 500 "RAG processor not initialized"
            ∨ e = HTTPException 400 "Query parameter is required"
            ∨ e = AttributeError "AyurvedicRAGProcessor" "search_similar_cases").
Proof.
  unfold Main.search_similar_cases.
  destruct rag_processor as [df|]; simpl; [|by eauto 10].
  destruct (json_truthy _); simpl; eauto 10.
Qed.

Lemma handlers_on_generator_failure_witness :
  MedicationResponse.error_message
    (Main.generate_medication_and_lifestyle (Some [acid_reflux]) (Some (λ _, Raises))
       ticking (λ _, "error") asha_request 0).1
  = Some "Failed to generate medication recommendations".
Proof.
  destruct (handlers_on_generator_failure [acid_reflux] (λ _, Raises) ticking
              (λ _, "error") asha_request 0) as (H & _); [by left|].
  exact (f_equal MedicationResponse.error_message H).
Defined.

Lemma handlers_on_generator_success_witness :
  MedicationResponse.ayurvedic_medicines
    (Main.generate_medication_and_lifestyle (Some [acid_reflux])
       (Some (λ _, Returns "1. Ayurvedic Medicines:
  • Triphala Churna  "))
       ticking (λ _, "error") asha_request 0).1
  = Some ["Triphala Churna"].
Proof.
  destruct (handlers_on_generator_success [acid_reflux]
              (λ _, Returns "1. Ayurvedic Medicines:
  • Triphala Churna  ") ticking (λ _, "error") asha_request 0
              "1. Ayurvedic Medicines:
  • Triphala Churna  " eq_refl) as (_ & _ & H & _); [done|].
  etrans; [exact (f_equal MedicationResponse.ayurvedic_medicines H)|].
  compute_done.
Defined.

(** ** The diet chart *)

Section chart_facts.

Lemma len_app a b : Py.len (a +:+ b) = Py.len a + Py.len b.
Proof.
  induction a as [|c a IH]; [done|]. rewrite str_app_cons. simpl.
  rewrite IH. lia.
Qed.

Lemma len_spaces n : Py.len (Py.replicate_str n " ") = n.
Proof.
  induction n as [|n IH]; [done|]. simpl Py.replicate_str.
  rewrite len_app, IH. done.
Qed.

Lemma spaces_no_newline n : Py.str_in newline (Py.replicate_str n " ") = false.
Proof.
  induction n as [|n IH]; [done|]. simpl Py.replicate_str.
  unfold newline. rewrite str_in_char_app. fold newline. by rewrite IH.
Qed.

Lemma ljust_len width s : Py.len s ≤ width → Py.len (ljust width s) = width.
Proof. intros H. unfold ljust. rewrite len_app, len_spaces. lia. Qed.

Lemma ljust_no_newline width s :
  Py.str_in newline s = false → Py.str_in newline (ljust width s) = false.
Proof.
  intros H. unfold ljust, newline. rewrite str_in_char_app. fold newline.
  by rewrite H, spaces_no_newline.
Qed.

Lemma raw_chart_join c1 c2 c3 c4 :
  raw_chart c1 c2 c3 c4
  = chart_border +:+ String LF
      ("| Meal      | Recommendation                         |" +:+ String LF
         (chart_border +:+ String LF
            (("| Breakfast | " +:+ c1 +:+ " |") +:+ String LF
               (("| Lunch     | " +:+ c2 +:+ " |") +:+ String LF
                  (("| Dinner    | " +:+ c3 +:+ " |") +:+ String LF
                     (("| Drinks    | " +:+ c4 +:+ " |") +:+ String LF
                        chart_border)))))).
Proof.
  unfold raw_chart, chart_border.
  rewrite !str_app_assoc. reflexivity.
Qed.

Lemma raw_chart_trimmed c1 c2 c3 c4 : trimmed (raw_chart c1 c2 c3 c4).
Proof.
  unfold trimmed, Py.strip, raw_chart.
  rewrite lstrip_fix by (rewrite str_app_cons; reflexivity).
  assert (" |
+-----------+----------------------------------------+"
          = " |
+-----------+----------------------------------------" +:+ "+")
    as -> by reflexivity.
  rewrite <-!str_app_assoc. by apply rstrip_snoc.
Qed.

Lemma raw_chart_lines c1 c2 c3 c4 :
  Py.str_in newline c1 = false → Py.str_in newline c2 = false →
  Py.str_in newline c3 = false → Py.str_in newline c4 = false →
  Py.split LF (raw_chart c1 c2 c3 c4) = chart_lines c1 c2 c3 c4.
Proof.
  intros H1 H2 H3 H4. rewrite raw_chart_join.
  assert (∀ label c, Py.str_in newline label = false →
            Py.str_in newline c = false →
            Py.str_in newline (label +:+ c +:+ " |") = false) as Hrow.
  { intros label c Hl Hc. unfold newline. rewrite !str_in_char_app. fold newline.
    by rewrite Hl, Hc. }
  rewrite !split_app_sep by (done || by apply Hrow).
  reflexivity.
Qed.

End chart_facts.

(** X19.  The diet chart is an aligned table: when no diet value is longer
    than 38 characters or holds a line break, the chart consists of exactly
    eight lines, the four meal rows carrying the value (or "Not specified"
    for a meal without one) padded with spaces, and every line is 54
    characters long. *)
Theorem diet_chart_aligned (diet_recs : gmap string string) :
  (∀ key v, diet_recs !! key = Some v →
     Py.len v ≤ 38 ∧ Py.str_in newline v = false) →
  let cell key := ljust 38 (default "Not specified" (diet_recs !! key)) in
  Py.split LF (diet_chart diet_recs)
  = chart_lines (cell "breakfast") (cell "lunch") (cell "dinner") (cell "drinks")
  ∧ Forall (λ line, Py.len line = 54) (Py.split LF (diet_chart diet_recs)).
Proof.
  intros Hrecs cell.
  assert (∀ key, Py.len (cell key) = 38 ∧ Py.str_in newline (cell key) = false)
    as Hcell.
  { intros key. unfold cell.
    destruct (diet_recs !! key) as [v|] eqn:Hv; simpl.
    - destruct (Hrecs key v Hv). split; [by apply ljust_len|by apply ljust_no_newline].
    - split; reflexivity. }
  assert (diet_chart diet_recs
          = raw_chart (cell "breakfast") (cell "lunch") (cell "dinner") (cell "drinks"))
    as ->.
  { transitivity (Py.strip (raw_chart (cell "breakfast") (cell "lunch")
                              (cell "dinner") (cell "drinks"))); [reflexivity|].
    apply raw_chart_trimmed. }
  rewrite raw_chart_lines by apply Hcell.
  split; [done|]. unfold chart_lines.
  repeat apply Forall_cons_2; try reflexivity; try apply Forall_nil_2;
    rewrite !len_app, (proj1 (Hcell _)); reflexivity.
Qed.

Lemma diet_chart_aligned_witness :
  Forall (λ line, Py.len line = 54)
    (Py.split LF (diet_chart {[ "breakfast" := "Warm oats"; "drinks" := "Herbal teas" ]})).
Proof.
  apply diet_chart_aligned. intros key v Hv.
  apply lookup_insert_Some in Hv as [[<- <-]|[_ Hv]];
    [split; [compute_done|reflexivity]|].
  apply lookup_singleton_Some in Hv as [<- <-]. split; [compute_done|reflexivity].
Defined.

(** * Completeness of the structured search, and the prompt *)

(** X21.  With [top_n] at least the size of the corpus, the structured
    search leaves out no match: every record with a positive score is
    among the results. *)
Theorem dosha_search_complete df symptoms dosha diagnosis n idx :
  (Z.of_nat (length df) ≤ n)%Z →
  idx < length df →
  (0 < dosha_score df symptoms dosha diagnosis idx)%Z →
  idx ∈ dosha_top_indices df symptoms dosha diagnosis n
  ∧ case_at dosha_metadata df idx
    ∈ search_by_symptoms_and_dosha df symptoms dosha diagnosis n.
Proof.
  intros Hn Hidx Hpos.
  assert (idx ∈ dosha_top_indices df symptoms dosha diagnosis n) as Hin.
  { assert ((dosha_score df symptoms dosha diagnosis idx, idx)
            ∈ filter (λ x : Z * nat, (0 < x.1)%Z)
                (Py.slice_to (sort_desc (dosha_scores df symptoms dosha diagnosis)) n))
      as Hf.
    { apply list_elem_of_filter. split; [done|].
      rewrite slice_to_all; [by apply dosha_sorted_elem|].
      by rewrite sort_desc_length, dosha_scores_seq, length_fmap, length_seq. }
    destruct (dosha_top_indices_cases df symptoms dosha diagnosis n)
      as [[_ ->]|(Hnil & _)].
    - by apply (list_elem_of_fmap_2' snd _ (dosha_score df symptoms dosha diagnosis idx, idx)).
    - rewrite Hnil in Hf. by apply elem_of_nil in Hf. }
  split; [done|]. rewrite dosha_search_cases. by apply list_elem_of_fmap_2.
Qed.

Lemma dosha_search_complete_witness :
  1 ∈ dosha_top_indices [acid_reflux; acid_reflux_seven] ["heartburn"] "Pitta"
        "Acid Reflux" 2.
Proof.
  apply (dosha_search_complete [acid_reflux; acid_reflux_seven] ["heartburn"]
           "Pitta" "Acid Reflux" 2 1); [simpl; lia|simpl; lia|compute_done].
Defined.

Section prompt_contents.

Lemma join_infix sep s l : s ∈ l → infix_of s (Py.join sep l).
Proof.
  induction l as [|x l IH]; [by intros ?%elem_of_nil|].
  intros [->|Hs]%elem_of_cons.
  - destruct l as [|y l]; simpl; [apply infix_of_refl|].
    apply infix_of_app_r, infix_of_refl.
  - destruct l as [|y l]; [by apply elem_of_nil in Hs|].
    change (Py.join sep (x :: y :: l)) with (x +:+ sep +:+ Py.join sep (y :: l)).
    by apply infix_of_app_l, infix_of_app_l, IH.
Qed.

Lemma prompt_instructions_headers :
  Py.str_in medicines_header prompt_instructions = true
  ∧ Py.str_in diet_header prompt_instructions = true
  ∧ Py.str_in lifestyle_header prompt_instructions = true.
Proof. repeat split; compute_done. Qed.

End prompt_contents.

(** X22.  The prompt carries what the generator needs and what the parser
    expects back: the name, constitution and diagnosis of the patient,
    every symptom, and the three section headers the parser looks for. *)
Theorem prompt_carries_patient_and_headers patient similar_cases :
  let prompt := _create_precise_prompt patient similar_cases in
  infix_of (name patient) prompt
  ∧ infix_of (constitution_dosha patient) prompt
  ∧ infix_of (doctor_diagnosis patient) prompt
  ∧ (∀ symptom, symptom ∈ symptoms patient → infix_of symptom prompt)
  ∧ Py.str_in medicines_header prompt = true
  ∧ Py.str_in diet_header prompt = true
  ∧ Py.str_in lifestyle_header prompt = true.
Proof.
  intros prompt. unfold prompt, _create_precise_prompt.
  destruct prompt_instructions_headers as (Hm & Hd & Hl).
  apply str_in_spec in Hm, Hd, Hl.
  repeat split.
  - apply infix_of_app_l, infix_of_app_r. apply infix_of_app_l, infix_of_app_r.
    apply infix_of_refl.
  - apply infix_of_app_l, infix_of_app_r. do 7 apply infix_of_app_l.
    apply infix_of_app_r, infix_of_refl.
  - apply infix_of_app_l, infix_of_app_r. do 11 apply infix_of_app_l.
    apply infix_of_app_r, infix_of_refl.
  - intros symptom Hs. apply infix_of_app_l, infix_of_app_r.
    do 9 apply infix_of_app_l. apply infix_of_app_r. by apply join_infix.
  - apply str_in_spec. by do 4 apply infix_of_app_l.
  - apply str_in_spec. by do 4 apply infix_of_app_l.
  - apply str_in_spec. by do 4 apply infix_of_app_l.
Qed.

Lemma prompt_carries_patient_and_headers_witness :
  infix_of "bloating" (_create_precise_prompt asha []).
Proof.
  apply (prompt_carries_patient_and_headers asha []). right. left.
Defined.
